(** * The LangGraph.js agent skill pack: routing document and agent templates

    The repository is a documentation corpus (SKILL.md, workflow runbooks,
    reference documents) with three TypeScript agent templates.  This file
    embeds

    - the JavaScript values and library calls the templates rely on
      ([JS]), the asynchronous node functions as a state-and-exception
      monad over an abstract outside world ([Async]), and the graph builder
      calls of the orchestration library as a record of declarations
      ([LangGraph]);
    - the three templates ([BasicAgent], [RagAgent], [MultiAgent]);
    - the corpus itself: the documents stored in the source tree and the
      tables of SKILL.md ([Corpus]).

    Definitions come first, the theorems about them follow. *)

From Stdlib Require Import ZArith Lia Ascii.
From stdpp Require Import base strings list gmap.

(* ===================================================================== *)
(** * Part I: definitions                                                 *)
(* ===================================================================== *)

(** ** JavaScript strings and the library calls used by the templates *)

Module JS.

(** A string is kept as the list of its bytes (UTF-8).  For a pattern made of
    ASCII letters, as all patterns of the templates are, a match on the bytes
    is a match on the UTF-16 code units the runtime compares. *)

(** [s.startsWith(t)] *)
Fixpoint startsWith (s t : string) : bool :=
  match t, s with
  | EmptyString, _ => true
  | String _ _, EmptyString => false
  | String b t', String a s' => Ascii.eqb a b && startsWith s' t'
  end.

(** [s.includes(t)] *)
Fixpoint includes (s t : string) : bool :=
  startsWith s t ||
  match s with
  | EmptyString => false
  | String _ s' => includes s' t
  end.

(** What [includes] decides: [t] occurs in [s], that is, [s] is some text,
    then [t], then some text. *)
Definition occursIn (t s : string) : Prop :=
  exists pre post : string, s = pre +:+ t +:+ post.

(** Lower case of one ASCII character; the other bytes are kept. *)
Definition lower_ascii (c : ascii) : ascii :=
  let n := nat_of_ascii c in
  if (65 <=? n)%nat && (n <=? 90)%nat then ascii_of_nat (n + 32) else c.

(** [s.toLowerCase()] on ASCII text.  On other text the runtime follows the
    Unicode tables; the templates' functions below take the runtime's
    [toLowerCase] as a parameter, and this function instantiates it. *)
Fixpoint ascii_toLowerCase (s : string) : string :=
  match s with
  | EmptyString => EmptyString
  | String c s' => String (lower_ascii c) (ascii_toLowerCase s')
  end.

(** The line feed and the double quote, for template literals. *)
Definition nl : string := String (ascii_of_nat 10) EmptyString.
Definition dq : string := String (ascii_of_nat 34) EmptyString.

(** [xs.join(sep)] *)
Fixpoint join (sep : string) (xs : list string) : string :=
  match xs with
  | [] => ""
  | [x] => x
  | x :: rest => x +:+ sep +:+ join sep rest
  end.

(** [a || b] on strings: the empty string is falsy. *)
Definition or_else (a b : string) : string :=
  match a with
  | EmptyString => b
  | _ => a
  end.

(** [a?.f() || b] where [a] may be undefined. *)
Definition opt_or_else (a : option string) (b : string) : string :=
  match a with
  | Some x => or_else x b
  | None => b
  end.

(** What a [catch] clause can receive: an [Error] object with its message,
    or any other thrown value. *)
Inductive Thrown : Type :=
  | ErrorObject (message : string)
  | OtherValue.

(** [error instanceof Error ? error.message : "Unknown error"] *)
Definition error_text (e : Thrown) : string :=
  match e with
  | ErrorObject m => m
  | OtherValue => "Unknown error"
  end.

(** The names every plain object inherits from [Object.prototype]; a lookup
    [o[k]] with one of them finds the inherited member when [o] has no own
    property [k]. *)
Definition object_prototype_keys : list string :=
  [ "constructor"; "__defineGetter__"; "__defineSetter__"; "hasOwnProperty";
    "__lookupGetter__"; "__lookupSetter__"; "isPrototypeOf";
    "propertyIsEnumerable"; "toString"; "valueOf"; "__proto__";
    "toLocaleString" ].

(** The result of [o[k]] on a plain object whose own properties hold values
    of type [A]. *)
Inductive Lookup (A : Type) : Type :=
  | Own (a : A)
  | Inherited
  | Undefined.
Arguments Own {A} a.
Arguments Inherited {A}.
Arguments Undefined {A}.

(** [Object.fromEntries(entries)]: properties are set in order, so a later
    entry with the same key wins. *)
Definition fromEntries {A : Type} (entries : list (string * A)) : gmap string A :=
  foldl (fun o kv => <[kv.1 := kv.2]> o) ∅ entries.

(** [o[k]] *)
Definition get {A : Type} (o : gmap string A) (k : string) : Lookup A :=
  match o !! k with
  | Some a => Own a
  | None => if bool_decide (k ∈ object_prototype_keys) then Inherited else Undefined
  end.

(** *** Numbers that hold whole counts

    A JavaScript number is a double.  It holds every whole number up to
    [2^53] in magnitude; above that it holds the multiples of a power of two
    only (53 significant bits).  [toNumber z] is the number the runtime keeps
    for the exact value [z]: the nearest one there is, and of two equally
    near the one with the even significand. *)
Definition toNumber (z : Z) : Z :=
  let a := Z.abs z in
  if (a <=? 2 ^ 53)%Z then z
  else
    let quantum := (2 ^ (Z.log2 a - 52))%Z in
    let below := (a / quantum * quantum)%Z in
    let above := (below + quantum)%Z in
    let nearest :=
      if (2 * (a - below) <? quantum)%Z then below
      else if (quantum <? 2 * (a - below))%Z then above
      else if Z.even (a / quantum) then below
      else above in
    (Z.sgn z * nearest)%Z.

(** [x + y] on numbers that hold whole counts. *)
Definition numberAdd (x y : Z) : Z := toNumber (x + y).

End JS.

(** ** Asynchronous functions

    An [async] function of the templates talks to the outside world (the chat
    model, the tools) and either fulfils with a value or rejects with what
    was thrown.  The outside world is a parameter: a computation takes the
    world and gives back the settled result and the world after it. *)

Module Async.

Inductive Settled (A : Type) : Type :=
  | Fulfilled (a : A)
  | Rejected (e : JS.Thrown).
Arguments Fulfilled {A} a.
Arguments Rejected {A} e.

Definition Async (World A : Type) : Type := World -> Settled A * World.

(** [return a] *)
Definition ret {World A : Type} (a : A) : Async World A :=
  fun w => (Fulfilled a, w).

(** [throw e] *)
Definition throw {World A : Type} (e : JS.Thrown) : Async World A :=
  fun w => (Rejected e, w).

(** [const x = await m; k(x)] *)
Definition bind {World A B : Type} (m : Async World A) (k : A -> Async World B)
  : Async World B :=
  fun w =>
    match m w with
    | (Fulfilled a, w') => k a w'
    | (Rejected e, w') => (Rejected e, w')
    end.

(** [try { m } catch (error) { handler(error) }] *)
Definition try_catch {World A : Type} (m : Async World A)
  (handler : JS.Thrown -> Async World A) : Async World A :=
  fun w =>
    match m w with
    | (Fulfilled a, w') => (Fulfilled a, w')
    | (Rejected e, w') => handler e w'
    end.

End Async.

Notation "'let*' x ':=' m 'in' k" := (Async.bind m (fun x => k))
  (at level 10, x name, m at level 100, k at level 200, only parsing).

(** Method chaining [g.f(...)] read left to right. *)
Notation "g |> f" := (f g) (at level 45, left associativity, only parsing).

(** ** Messages of [@langchain/core/messages] *)

Module Messages.

(** An element of [AIMessage.tool_calls]; [id] is optional. *)
Record ToolCall : Type := mkToolCall {
  name : string;
  args : gmap string string;
  id : option string
}.

Inductive BaseMessage : Type :=
  | HumanMessage (content : string)
  | SystemMessage (content : string)
  | AIMessage (content : string) (tool_calls : option (list ToolCall))
  | ToolMessage (content : string) (tool_call_id : option string).

(** [m.content.toString()] *)
Definition content (m : BaseMessage) : string :=
  match m with
  | HumanMessage c | SystemMessage c | AIMessage c _ | ToolMessage c _ => c
  end.

(** [AIMessage.isInstance(m)] *)
Definition isAIMessage (m : BaseMessage) : bool :=
  match m with
  | AIMessage _ _ => true
  | _ => false
  end.

(** [m.tool_calls]: present on an AI message only, and optional there. *)
Definition tool_calls (m : BaseMessage) : option (list ToolCall) :=
  match m with
  | AIMessage _ calls => calls
  | _ => None
  end.

(** Truth value of [calls?.length]: the list is there and is not empty. *)
Definition truthyLength {A : Type} (calls : option (list A)) : bool :=
  match calls with
  | Some (_ :: _) => true
  | _ => false
  end.

(** [new AIMessage(text)]: built from a text, the message has no tool calls. *)
Definition newAIMessage (text : string) : BaseMessage := AIMessage text (Some []).

(** The chat model of [@langchain/anthropic]: [model.invoke(messages)] asks
    the outside world and fulfils with an AI message or rejects. *)
Definition ChatModel (World : Type) : Type :=
  list BaseMessage -> Async.Async World BaseMessage.

End Messages.

(** ** The graph builder of [@langchain/langgraph]

    The library is not part of the repository.  What the templates use of it
    is kept as it is declared: [addNode], [addEdge] and [addConditionalEdges]
    record their arguments in the order of the calls.  [invoke] runs one
    node at a time, which is all these graphs need: every node of the three
    templates has a single successor. *)

Module LangGraph.

Definition START : string := "__start__".
Definition END : string := "__end__".

Record StateGraph (State Node : Type) : Type := mkStateGraph {
  nodes : list (string * Node);
  edges : list (string * string);
  conditionalEdges : list (string * (State -> string) * list string)
}.
Arguments mkStateGraph {State Node} _ _ _.
Arguments nodes {State Node} _.
Arguments edges {State Node} _.
Arguments conditionalEdges {State Node} _.

Section Builder.
Context {State Node : Type}.

(** [new StateGraph(annotation)] *)
Definition newStateGraph : StateGraph State Node := mkStateGraph [] [] [].

Definition addNode (name : string) (fn : Node) (g : StateGraph State Node)
  : StateGraph State Node :=
  mkStateGraph (nodes g ++ [(name, fn)]) (edges g) (conditionalEdges g).

Definition addEdge (source target : string) (g : StateGraph State Node)
  : StateGraph State Node :=
  mkStateGraph (nodes g) (edges g ++ [(source, target)]) (conditionalEdges g).

Definition addConditionalEdges (source : string) (router : State -> string)
  (targets : list string) (g : StateGraph State Node) : StateGraph State Node :=
  mkStateGraph (nodes g) (edges g)
    (conditionalEdges g ++ [(source, router, targets)]).

(** The nodes that follow [n] in state [st]: the targets of its edges, and
    for each conditional edge what its router answers. *)
Definition successors (g : StateGraph State Node) (n : string) (st : State)
  : list string :=
  map snd (List.filter (fun e => bool_decide (e.1 = n)) (edges g)) ++
  map (fun b => b.1.2 st)
    (List.filter (fun b => bool_decide (b.1.1 = n)) (conditionalEdges g)).

(** The targets declared for the conditional edges that leave [n]. *)
Definition declaredTargets (g : StateGraph State Node) (n : string) : list string :=
  concat (map snd (List.filter (fun b => bool_decide (b.1.1 = n)) (conditionalEdges g))).

End Builder.

(** How a run ends.  A run has a budget of steps, one for each node it runs:
    the library's [recursionLimit], 25 unless the caller sets it.  When the
    budget is used up before END the library stops the run with a
    [GraphRecursionError]; that end is [OutOfFuel], kept apart from [Failed],
    the rejection of a node. *)
Inductive Outcome (State : Type) : Type :=
  | Finished (st : State)          (* END was reached *)
  | Failed (e : JS.Thrown)         (* a node rejected *)
  | Stuck (at_node : string)       (* no node of that name, or not one successor *)
  | OutOfFuel.                     (* the step budget was used up before END *)
Arguments Finished {State} st.
Arguments Failed {State} e.
Arguments Stuck {State} at_node.
Arguments OutOfFuel {State}.

Section Run.
Context {World State Update : Type}.
Abbreviation Node := (State -> Async.Async World Update).

(** The node function registered under [n]. *)
Definition nodeFunction (g : StateGraph State Node) (n : string) : option Node :=
  (fun found => found.2.2) <$> list_find (fun p => p.1 = n) (nodes g).

(** [run fuel g reduce n st w]: run node [n] on [st], merge its update into
    the state through the channels' reducers ([reduce]), move to the
    successor, until END or until [fuel] nodes have run ([fuel] is the step
    budget of the run).  The result carries the nodes that ran, in order. *)
Fixpoint run (fuel : nat) (g : StateGraph State Node)
  (reduce : State -> Update -> State) (n : string) (st : State) (w : World)
  : Outcome State * list string * World :=
  if bool_decide (n = END) then (Finished st, [], w)
  else
    match fuel with
    | O => (OutOfFuel, [], w)
    | S fuel' =>
      match nodeFunction g n with
      | None => (Stuck n, [], w)
      | Some fn =>
        match fn st w with
        | (Async.Rejected e, w') => (Failed e, [n], w')
        | (Async.Fulfilled u, w') =>
          let st' := reduce st u in
          match successors g n st' with
          | [m] =>
            let '(o, ran, w'') := run fuel' g reduce m st' w' in
            (o, n :: ran, w'')
          | _ => (Stuck n, [n], w')
          end
        end
      end
    end.

(** [graph.invoke]: start at the successor of START. *)
Definition invoke (fuel : nat) (g : StateGraph State Node)
  (reduce : State -> Update -> State) (st : State) (w : World)
  : Outcome State * list string * World :=
  match successors g START st with
  | [m] => run fuel g reduce m st w
  | _ => (Stuck START, [], w)
  end.

End Run.

(** How many times node [n] ran. *)
Definition timesRun (n : string) (ran : list string) : nat :=
  length (List.filter (fun m => bool_decide (m = n)) ran).

End LangGraph.

(** ** Template: basic ReAct agent (the tool-calling loop) *)

Module BasicAgent.
Import Messages LangGraph.

(** [AgentState]: the [messages] channel of [MessagesAnnotation]. *)
Record AgentState : Type := mkAgentState {
  messages : list BaseMessage
}.

(** What the nodes return: [{ messages: [...] }]. *)
Record AgentUpdate : Type := mkAgentUpdate {
  update_messages : list BaseMessage
}.

(** The reducer of the [messages] channel appends the update. *)
Definition reduce (st : AgentState) (u : AgentUpdate) : AgentState :=
  mkAgentState (messages st ++ update_messages u).

(** A tool built by [tool(fn, { name, ... })]: [invoke(toolCall)] runs in the
    outside world and fulfils with the tool's message or rejects. *)
Record StructuredTool (World : Type) : Type := mkTool {
  tool_name : string;
  tool_invoke : ToolCall -> Async.Async World BaseMessage
}.
Arguments mkTool {World} _ _.
Arguments tool_name {World} _.
Arguments tool_invoke {World} _.

(** The message pushed for a call that names no tool. *)
Definition unknownToolMessage (toolCall : ToolCall) : BaseMessage :=
  ToolMessage ("Unknown tool: " +:+ name toolCall) (id toolCall).

(** The message pushed in the [catch] clause. *)
Definition errorToolMessage (error : JS.Thrown) (toolCall : ToolCall) : BaseMessage :=
  ToolMessage ("Error: " +:+ JS.error_text error) (id toolCall).

Section Template.
Context {World : Type}.

(** [model]: the chat model with the tools bound.  [tools]: the list the
    template is customised with; the file itself lists [exampleTool] only
    (see [exampleTools] below). *)
Variable model : ChatModel World.
Variable tools : list (StructuredTool World).

(** [Object.fromEntries(tools.map((t) => [t.name, t]))] *)
Definition toolsByName : gmap string (StructuredTool World) :=
  JS.fromEntries (map (fun t => (tool_name t, t)) tools).

Definition callModel (state : AgentState) : Async.Async World AgentUpdate :=
  let* response := model (messages state) in
  Async.ret (mkAgentUpdate [response]).

(** [tool.invoke(toolCall)] for what the lookup found: a tool is invoked; an
    inherited member of [Object.prototype] has no [invoke], so the call
    raises a [TypeError]. *)
Definition invokeFound (found : JS.Lookup (StructuredTool World))
  (toolCall : ToolCall) : Async.Async World BaseMessage :=
  match found with
  | JS.Own tool => tool_invoke tool toolCall
  | _ => Async.throw (JS.ErrorObject "tool.invoke is not a function")
  end.

(** The body of the [for ... of] loop of [callTools]: what [toolMessages] is
    after one tool call. *)
Definition callOne (toolCall : ToolCall) (toolMessages : list BaseMessage)
  : Async.Async World (list BaseMessage) :=
  match JS.get toolsByName (name toolCall) with
  | JS.Undefined =>
    Async.ret (toolMessages ++ [unknownToolMessage toolCall])
  | found =>
    Async.try_catch
      (let* result := invokeFound found toolCall in
       Async.ret (toolMessages ++ [result]))
      (fun error => Async.ret (toolMessages ++ [errorToolMessage error toolCall]))
  end.

Fixpoint forEachToolCall (toolCalls : list ToolCall)
  (toolMessages : list BaseMessage) : Async.Async World (list BaseMessage) :=
  match toolCalls with
  | [] => Async.ret toolMessages
  | toolCall :: rest =>
    let* toolMessages' := callOne toolCall toolMessages in
    forEachToolCall rest toolMessages'
  end.

Definition callTools (state : AgentState) : Async.Async World AgentUpdate :=
  match last (messages state) with
  | None => Async.ret (mkAgentUpdate [])
  | Some lastMessage =>
    if negb (isAIMessage lastMessage) then Async.ret (mkAgentUpdate [])
    else
      let* toolMessages :=
        forEachToolCall (default [] (tool_calls lastMessage)) [] in
      Async.ret (mkAgentUpdate toolMessages)
  end.

(** The routing function. *)
Definition shouldContinue (state : AgentState) : string :=
  match last (messages state) with
  | None => END
  | Some lastMessage =>
    if negb (isAIMessage lastMessage) then END
    else if truthyLength (tool_calls lastMessage) then "tools"
    else END
  end.

Definition workflow
  : StateGraph AgentState (AgentState -> Async.Async World AgentUpdate) :=
  newStateGraph
  |> addNode "agent" callModel
  |> addNode "tools" callTools
  |> addEdge START "agent"
  |> addConditionalEdges "agent" shouldContinue ["tools"; END]
  |> addEdge "tools" "agent".

(** [agent.invoke] from a given state. *)
Definition agent (fuel : nat) (st : AgentState) (w : World)
  : Outcome AgentState * list string * World :=
  invoke fuel workflow reduce st w.

End Template.

(** What [callTools] is to answer, call by call, from world [w] to world
    [w']: a call whose name finds nothing in [toolsByName] is answered with
    the unknown-tool message; otherwise the tool is invoked once, in the
    world the earlier calls left, and the answer is its result or, when it
    throws, the error message. *)
Inductive Answered {World : Type} (tools : list (StructuredTool World))
  : list ToolCall -> World -> list BaseMessage -> World -> Prop :=
  | Answered_none (w : World) : Answered tools [] w [] w
  | Answered_unknown toolCall rest w answers w' :
      JS.get (toolsByName tools) (name toolCall) = JS.Undefined ->
      Answered tools rest w answers w' ->
      Answered tools (toolCall :: rest) w (unknownToolMessage toolCall :: answers) w'
  | Answered_result toolCall rest w result w1 answers w' :
      JS.get (toolsByName tools) (name toolCall) <> JS.Undefined ->
      invokeFound (JS.get (toolsByName tools) (name toolCall)) toolCall w
        = (Async.Fulfilled result, w1) ->
      Answered tools rest w1 answers w' ->
      Answered tools (toolCall :: rest) w (result :: answers) w'
  | Answered_error toolCall rest w error w1 answers w' :
      JS.get (toolsByName tools) (name toolCall) <> JS.Undefined ->
      invokeFound (JS.get (toolsByName tools) (name toolCall)) toolCall w
        = (Async.Rejected error, w1) ->
      Answered tools rest w1 answers w' ->
      Answered tools (toolCall :: rest) w (errorToolMessage error toolCall :: answers) w'.

(** The function the template hands to [tool]. *)
Definition exampleToolFunction (query : string) : string :=
  "Results for: " +:+ query.

(** The tool of the template, [tool(fn, { name, description, schema })].
    Invoked with a tool call, the library checks the arguments against the
    schema ([query] must be there) and rejects when they do not fit, with a
    parsing error whose wording is the library's: [parsingError] gives what
    it throws for the arguments.  Otherwise it runs the function and hands
    its text back: in a tool message for the call when the call carries an
    id, and bare when it carries none.  A bare text in a list of messages
    is taken for a human message, and is kept as one here. *)
Definition exampleTool {World : Type}
  (parsingError : gmap string string -> JS.Thrown) : StructuredTool World :=
  mkTool "example_tool"
    (fun toolCall =>
       match args toolCall !! "query" with
       | Some query =>
         match id toolCall with
         | Some callId =>
           Async.ret (ToolMessage (exampleToolFunction query) (Some callId))
         | None => Async.ret (HumanMessage (exampleToolFunction query))
         end
       | None => Async.throw (parsingError (args toolCall))
       end).

(** [const tools = [exampleTool]] *)
Definition exampleTools {World : Type}
  (parsingError : gmap string string -> JS.Thrown) : list (StructuredTool World) :=
  [exampleTool parsingError].

End BasicAgent.

(** ** Template: RAG agent (the retrieval-grade-generate loop) *)

Module RagAgent.
Import Messages LangGraph.

(** [Document] of [@langchain/core/documents]. *)
Record Document : Type := mkDocument {
  pageContent : string;
  metadata : list (string * string)
}.

(** [RAGState].  [retryCount] is a JavaScript number that holds a whole
    count; it is kept as an integer, and sums of it go through
    [JS.numberAdd]. *)
Record RAGState : Type := mkRAGState {
  messages : list BaseMessage;
  query : string;
  documents : list Document;
  generation : string;
  retryCount : Z
}.

(** What a node returns: an object with some of the channels. *)
Record RAGUpdate : Type := mkRAGUpdate {
  update_messages : option (list BaseMessage);
  update_query : option string;
  update_documents : option (list Document);
  update_generation : option string;
  update_retryCount : option Z
}.

(** The channels' reducers, as [RAGState] declares them: [messages] appends,
    [documents] takes the latest ([(x, y) => y]), [retryCount] adds
    ([(x, y) => x + y], the addition of numbers); [query] and [generation]
    have no reducer and take the last value written. *)
Definition reduce (st : RAGState) (u : RAGUpdate) : RAGState :=
  mkRAGState
    (from_option (fun y => messages st ++ y) (messages st) (update_messages u))
    (from_option (fun y => y) (query st) (update_query u))
    (from_option (fun y => y) (documents st) (update_documents u))
    (from_option (fun y => y) (generation st) (update_generation u))
    (from_option (fun y => JS.numberAdd (retryCount st) y) (retryCount st)
       (update_retryCount u)).

Section Template.
Context {World : Type}.

(** [model]: the chat model.  [toLowerCase]: the runtime's
    [String.prototype.toLowerCase]. *)
Variable model : ChatModel World.
Variable toLowerCase : string -> string.

(** The retrieval stub of the template. *)
Definition retrieveDocuments (query : string) : Async.Async World (list Document) :=
  Async.ret
    [mkDocument ("This is a placeholder document about: " +:+ query)
       [("source", "example.txt")]].

Definition retrieve (state : RAGState) : Async.Async World RAGUpdate :=
  let query :=
    JS.or_else (query state)
      (JS.opt_or_else (content <$> last (messages state)) "") in
  let* documents := retrieveDocuments query in
  Async.ret (mkRAGUpdate None (Some query) (Some documents) None None).

Definition gradePrompt : string :=
  "You are a grader assessing relevance of a document to a user question.
If the document contains keywords or meaning related to the question, grade it as relevant.
Give a binary score 'yes' or 'no' to indicate relevance.".

(** The [for ... of] loop of [gradeDocuments]. *)
Fixpoint gradeEach (state : RAGState) (docs : list Document)
  (relevantDocs : list Document) : Async.Async World (list Document) :=
  match docs with
  | [] => Async.ret relevantDocs
  | doc :: rest =>
    let* response :=
      model
        [SystemMessage gradePrompt;
         HumanMessage
           ("Document: " +:+ pageContent doc +:+ JS.nl +:+ JS.nl +:+
            "Question: " +:+ query state +:+ JS.nl +:+ JS.nl +:+
            "Relevant (yes/no)?")] in
    let grade := toLowerCase (content response) in
    gradeEach state rest
      (if JS.includes grade "yes" then relevantDocs ++ [doc] else relevantDocs)
  end.

Definition gradeDocuments (state : RAGState) : Async.Async World RAGUpdate :=
  let* relevantDocs := gradeEach state (documents state) [] in
  Async.ret (mkRAGUpdate None None (Some relevantDocs) None None).

Definition generate (state : RAGState) : Async.Async World RAGUpdate :=
  let context := JS.join (JS.nl +:+ JS.nl) (map pageContent (documents state)) in
  let* response :=
    model
      [SystemMessage
         "You are an assistant answering questions based on provided context.
Use only the context to answer. If the context doesn't contain the answer, say so.";
       HumanMessage
         ("Context:" +:+ JS.nl +:+ context +:+ JS.nl +:+ JS.nl +:+
          "Question: " +:+ query state)] in
  Async.ret
    (mkRAGUpdate (Some [newAIMessage (content response)]) None None
       (Some (content response)) None).

Definition rewriteQuery (state : RAGState) : Async.Async World RAGUpdate :=
  let* response :=
    model
      [SystemMessage
         "You are a query rewriter. Given a question that didn't return relevant documents,
rewrite it to be more specific or use different terms. Return only the rewritten question.";
       HumanMessage ("Original question: " +:+ query state)] in
  Async.ret (mkRAGUpdate None (Some (content response)) None None (Some 1%Z)).

Definition routeAfterGrade (state : RAGState) : string :=
  (* If we have relevant documents, generate answer *)
  if (0 <? length (documents state))%nat then "generate"
  (* If we've retried too many times, generate anyway *)
  else if (2 <=? retryCount state)%Z then "generate"
  (* Otherwise, rewrite and try again *)
  else "rewrite".

Definition workflow
  : StateGraph RAGState (RAGState -> Async.Async World RAGUpdate) :=
  newStateGraph
  |> addNode "retrieve" retrieve
  |> addNode "grade" gradeDocuments
  |> addNode "generate" generate
  |> addNode "rewrite" rewriteQuery
  |> addEdge START "retrieve"
  |> addEdge "retrieve" "grade"
  |> addConditionalEdges "grade" routeAfterGrade ["generate"; "rewrite"]
  |> addEdge "rewrite" "retrieve"
  |> addEdge "generate" END.

(** [ragAgent.invoke] from a given state. *)
Definition ragAgent (fuel : nat) (st : RAGState) (w : World)
  : Outcome RAGState * list string * World :=
  invoke fuel workflow reduce st w.

End Template.

(** The value of each channel before any input: the declared defaults. *)
Definition initialState : RAGState := mkRAGState [] "" [] "" 0.

(** A run ended well: at END with [generate] as the last node that ran, or
    by a node's rejection; it neither ran out of fuel nor got stuck. *)
Definition endedAfterGenerate (o : Outcome RAGState) (ran : list string) : Prop :=
  match o with
  | Finished _ => last ran = Some "generate"
  | Failed _ => True
  | _ => False
  end.

End RagAgent.

(** ** Template: multi-agent system (the supervisor-routes-workers loop) *)

Module MultiAgent.
Import Messages LangGraph.

(** [MultiAgentState].  [iterations] is a JavaScript number that holds a
    whole count; it is kept as an integer, and sums of it go through
    [JS.numberAdd].  [task], [currentAgent] and [draft] are channels without
    a reducer: until a node or the input writes them they hold no text, for
    which the empty text stands here (both count as false in [||] and
    [? :]).  Put into a template literal, a channel never written prints as
    [undefined]; [finalize] does so with [draft], and what is proved of its
    message is stated for runs in which [writer] has written the draft. *)
Record MultiAgentState : Type := mkMultiAgentState {
  messages : list BaseMessage;
  task : string;
  currentAgent : string;
  researchNotes : list string;
  draft : string;
  iterations : Z
}.

Record MultiAgentUpdate : Type := mkMultiAgentUpdate {
  update_messages : option (list BaseMessage);
  update_task : option string;
  update_currentAgent : option string;
  update_researchNotes : option (list string);
  update_draft : option string;
  update_iterations : option Z
}.

(** The channels' reducers: [messages] and [researchNotes] append,
    [iterations] adds (the addition of numbers), the others take the last
    value written. *)
Definition reduce (st : MultiAgentState) (u : MultiAgentUpdate) : MultiAgentState :=
  mkMultiAgentState
    (from_option (fun y => messages st ++ y) (messages st) (update_messages u))
    (from_option (fun y => y) (task st) (update_task u))
    (from_option (fun y => y) (currentAgent st) (update_currentAgent u))
    (from_option (fun y => researchNotes st ++ y) (researchNotes st)
       (update_researchNotes u))
    (from_option (fun y => y) (draft st) (update_draft u))
    (from_option (fun y => JS.numberAdd (iterations st) y) (iterations st)
       (update_iterations u)).

Section Template.
Context {World : Type}.

(** The two chat models, and the runtime's [String.prototype.toLowerCase]
    and [String.prototype.trim]. *)
Variable supervisorModel : ChatModel World.
Variable workerModel : ChatModel World.
Variable toLowerCase : string -> string.
Variable trim : string -> string.

Definition supervisor (state : MultiAgentState) : Async.Async World MultiAgentUpdate :=
  let lastMessage := last (messages state) in
  let task := JS.opt_or_else (content <$> lastMessage) (task state) in
  let systemPrompt :=
    "You are a supervisor coordinating a team of agents.
Your team:
- researcher: Gathers information and facts
- writer: Creates written content

Based on the task and current progress, decide:
1. " +:+ JS.dq +:+ "researcher" +:+ JS.dq +:+ " - if more information is needed
2. " +:+ JS.dq +:+ "writer" +:+ JS.dq +:+ " - if ready to create content
3. " +:+ JS.dq +:+ "FINISH" +:+ JS.dq +:+ " - if the task is complete

Current research notes: " +:+
    (if (0 <? length (researchNotes state))%nat
     then JS.join JS.nl (researchNotes state) else "None yet") +:+ "
Current draft: " +:+ JS.or_else (draft state) "None yet" +:+ "

Respond with ONLY one word: researcher, writer, or FINISH" in
  let* response :=
    supervisorModel
      [SystemMessage systemPrompt; HumanMessage ("Task: " +:+ task)] in
  let decision := trim (toLowerCase (content response)) in
  Async.ret
    (mkMultiAgentUpdate None (Some task) (Some decision) None None (Some 1%Z)).

Definition researcher (state : MultiAgentState) : Async.Async World MultiAgentUpdate :=
  let systemPrompt :=
    "You are a research assistant. Given a task, gather relevant information and facts.
Be thorough but concise. Present findings as bullet points." in
  let context :=
    if (0 <? length (researchNotes state))%nat
    then JS.nl +:+ JS.nl +:+ "Previous research:" +:+ JS.nl +:+
         JS.join JS.nl (researchNotes state)
    else "" in
  let* response :=
    workerModel
      [SystemMessage systemPrompt;
       HumanMessage
         ("Task: " +:+ task state +:+ context +:+ JS.nl +:+ JS.nl +:+
          "Provide additional research:")] in
  Async.ret
    (mkMultiAgentUpdate
       (Some [newAIMessage ("[Researcher] " +:+ content response)])
       None None (Some [content response]) None None).

Definition writer (state : MultiAgentState) : Async.Async World MultiAgentUpdate :=
  let systemPrompt :=
    "You are a skilled writer. Create or improve content based on the research provided.
Write in a clear, engaging style." in
  let research := JS.join (JS.nl +:+ JS.nl) (researchNotes state) in
  let existingDraft :=
    match draft state with
    | EmptyString => ""
    | d => JS.nl +:+ JS.nl +:+ "Existing draft to improve:" +:+ JS.nl +:+ d
    end in
  let* response :=
    workerModel
      [SystemMessage systemPrompt;
       HumanMessage
         ("Task: " +:+ task state +:+ JS.nl +:+ JS.nl +:+ "Research:" +:+ JS.nl +:+
          research +:+ existingDraft +:+ JS.nl +:+ JS.nl +:+
          "Create/improve the content:")] in
  Async.ret
    (mkMultiAgentUpdate
       (Some [newAIMessage ("[Writer] " +:+ content response)])
       None None None (Some (content response)) None).

Definition finalize (state : MultiAgentState) : Async.Async World MultiAgentUpdate :=
  Async.ret
    (mkMultiAgentUpdate
       (Some
          [newAIMessage
             ("Task completed!" +:+ JS.nl +:+ JS.nl +:+ "Final output:" +:+ JS.nl +:+
              draft state)])
       None None None None None).

Definition routeFromSupervisor (state : MultiAgentState) : string :=
  let decision := toLowerCase (currentAgent state) in
  (* Safety limit *)
  if (10 <? iterations state)%Z then "finalize"
  else if JS.includes decision "finish" then "finalize"
  else if JS.includes decision "researcher" then "researcher"
  else if JS.includes decision "writer" then "writer"
  (* Default to finalize if unclear *)
  else "finalize".

Definition workflow
  : StateGraph MultiAgentState
      (MultiAgentState -> Async.Async World MultiAgentUpdate) :=
  newStateGraph
  |> addNode "supervisor" supervisor
  |> addNode "researcher" researcher
  |> addNode "writer" writer
  |> addNode "finalize" finalize
  |> addEdge START "supervisor"
  |> addConditionalEdges "supervisor" routeFromSupervisor
       ["researcher"; "writer"; "finalize"]
  |> addEdge "researcher" "supervisor"
  |> addEdge "writer" "supervisor"
  |> addEdge "finalize" END.

(** [multiAgent.invoke] from a given state. *)
Definition multiAgent (fuel : nat) (st : MultiAgentState) (w : World)
  : Outcome MultiAgentState * list string * World :=
  invoke fuel workflow reduce st w.

End Template.

(** A run ended well: at END with [finalize] as the last node that ran, or
    by a node's rejection; it neither ran out of fuel nor got stuck. *)
Definition endedAfterFinalize (o : Outcome MultiAgentState) (ran : list string)
  : Prop :=
  match o with
  | Finished _ => last ran = Some "finalize"
  | Failed _ => True
  | _ => False
  end.

End MultiAgent.

(** ** The corpus: the documents of the source tree and the tables of SKILL.md *)

Module Corpus.

(** *** Text helpers *)

(** [s.split(c)] for a one-character separator. *)
Fixpoint splitOn (c : ascii) (s : string) : list string :=
  match s with
  | EmptyString => [EmptyString]
  | String a s' =>
    if Ascii.eqb a c then EmptyString :: splitOn c s'
    else
      match splitOn c s' with
      | [] => [String a EmptyString]
      | w :: ws => String a w :: ws
      end
  end.

(** The words of a file name: its last path component, up to the first dot,
    cut at the hyphens.  [workflows/build-new-agent.md] gives
    [build], [new], [agent]. *)
Definition stemWords (path : string) : list string :=
  splitOn "-" (default "" (head (splitOn "." (default "" (last (splitOn "/" path)))))).

(** The text of a markdown code span: [`text`] gives [text]. *)
Definition codeSpan (cell : string) : option string :=
  match cell with
  | String "`" rest =>
    match reverse (String.list_ascii_of_string rest) with
    | "`"%char :: inner => Some (String.string_of_list_ascii (reverse inner))
    | _ => None
    end
  | _ => None
  end.

(** [s.endsWith(t)] *)
Definition endsWith (s t : string) : bool :=
  JS.startsWith
    (String.string_of_list_ascii (reverse (String.list_ascii_of_string s)))
    (String.string_of_list_ascii (reverse (String.list_ascii_of_string t))).

(** *** The source tree

    Files of the tree hold one document or several, one after the other,
    parted by a marker line.  A document is recorded with the file that holds
    it, the line it starts at, and its opening: the first line, or the whole
    header comment when it opens with one. *)

Record SourceDocument : Type := mkSourceDocument {
  file : string;
  line : nat;
  opening : list string
}.

Global Instance SourceDocument_eq_dec : EqDecision SourceDocument.
Proof. solve_decision. Defined.

Definition sourceTree : list SourceDocument := [
  mkSourceDocument "references/agent-chat-ui.md" 1 ["<overview>"];
  mkSourceDocument "references/agent-skills.md" 1 ["<overview>"];
  mkSourceDocument "references/anti-patterns.md" 1 ["<overview>"];
  mkSourceDocument "references/anti-patterns.md" 261 ["<overview>"];
  mkSourceDocument "references/anti-patterns.md" 687 ["<overview>"];
  mkSourceDocument "references/graph-api.md" 1 ["<overview>"];
  mkSourceDocument "references/interrupts.md" 1 ["<overview>"];
  mkSourceDocument "references/multi-agent.md" 1 ["<overview>"];
  mkSourceDocument "references/streaming.md" 1 ["<overview>"];
  mkSourceDocument "references/subgraphs.md" 1 ["<overview>"];
  mkSourceDocument "skill/SKILL.md" 1 ["---"];
  mkSourceDocument "skill/SKILL.md" 209
    ["/**";
     " * Basic ReAct Agent Template";
     " *";
     " * A minimal tool-calling agent using the Graph API.";
     " * Copy this file and customize for your use case.";
     " */"];
  mkSourceDocument "skill/references/common-patterns.md" 1 ["<overview>"];
  mkSourceDocument "skill/references/common-patterns.md" 172 ["<overview>"];
  mkSourceDocument "skill/references/functional-api.md" 1 ["<overview>"];
  mkSourceDocument "templates/multi-agent.ts" 1
    ["/**";
     " * Multi-Agent Template (Supervisor Pattern)";
     " *";
     " * A supervisor agent coordinates specialized worker agents:";
     " * - Supervisor: Routes tasks to appropriate workers";
     " * - Researcher: Gathers information";
     " * - Writer: Creates content";
     " */"];
  mkSourceDocument "unnamed/part_000" 1
    ["/**";
     " * RAG Agent Template";
     " *";
     " * Retrieval-Augmented Generation agent that:";
     " * 1. Retrieves relevant documents";
     " * 2. Grades them for relevance";
     " * 3. Generates answer or rewrites query";
     " */"];
  mkSourceDocument "unnamed/part_000" 193 ["# Workflow: Audit a LangGraph.js Agent"];
  mkSourceDocument "unnamed/part_001" 1 ["<overview>"];
  mkSourceDocument "unnamed/part_002" 1 ["<overview>"];
  mkSourceDocument "unnamed/part_003" 1 ["<overview>"];
  mkSourceDocument "unnamed/part_004" 1 ["# Workflow: Add a Feature to a LangGraph.js Agent"];
  mkSourceDocument "workflows/optimize-agent.md" 1 ["# Workflow: Optimize a LangGraph.js Agent"];
  mkSourceDocument "workflows/optimize-agent.md" 334 ["# Workflow: Build a New LangGraph.js Agent"];
  mkSourceDocument "workflows/write-tests.md" 1 ["# Workflow: Write Tests for a LangGraph.js Agent"];
  mkSourceDocument "workflows/write-tests.md" 393 ["# Workflow: Debug a LangGraph.js Agent"]
].

(** The name a document is stored under: that of its file when the document
    opens the file and the file's name is kept.  A document that follows
    another in its file, or sits in [unnamed/], has no recorded name. *)
Definition recordedName (d : SourceDocument) : option string :=
  if (line d =? 1)%nat && negb (JS.startsWith (file d) "unnamed/")
  then Some (file d) else None.

(** A header comment opens with [/**]. *)
Definition hasHeaderComment (d : SourceDocument) : bool :=
  match opening d with
  | first :: _ => String.eqb first "/**"
  | [] => false
  end.

(** The title of a document: its first line, or the first line of text of
    its header comment. *)
Definition title (d : SourceDocument) : string :=
  if hasHeaderComment d then default "" (opening d !! 1%nat)
  else default "" (head (opening d)).

(** A workflow runbook opens with a [# Workflow:] heading. *)
Definition isWorkflowRunbook (d : SourceDocument) : bool :=
  JS.startsWith (title d) "# Workflow: ".

(** A template is a source file whose header comment marks it as one: the
    title of the header says [Template]. *)
Definition isTemplate (d : SourceDocument) : bool :=
  hasHeaderComment d && JS.includes (title d) "Template".

(** The kind of document a path of the skill asks for, read from its
    directory. *)
Definition kindFits (path : string) (d : SourceDocument) : bool :=
  if JS.startsWith path "workflows/" then isWorkflowRunbook d
  else if JS.startsWith path "templates/" then isTemplate d
  else false.

(** [denotes path d]: [d] is the file [path].  A document with a recorded
    name is the file of that name.  A document without one is told by what it
    is: it is of the kind the path asks for and every word of the file name
    occurs in its title. *)
Definition denotes (path : string) (d : SourceDocument) : bool :=
  match recordedName d with
  | Some name => String.eqb name path
  | None =>
    kindFits path d &&
    forallb (fun w => JS.includes (JS.ascii_toLowerCase (title d)) w) (stemWords path)
  end.

(** The documents of the tree a path leads to. *)
Definition resolve (path : string) : list SourceDocument :=
  List.filter (denotes path) sourceTree.

Definition workflowRunbooks : list SourceDocument :=
  List.filter isWorkflowRunbook sourceTree.

(** *** SKILL.md: the intake list (lines 86-92) *)

Definition intake : list (nat * string) := [
  (1, "Build a new agent from scratch");
  (2, "Add a feature to an existing agent");
  (3, "Audit/review an agent's architecture");
  (4, "Debug an agent issue");
  (5, "Write tests for an agent");
  (6, "Optimize agent performance");
  (7, "Something else")
]%nat.

(** *** SKILL.md: the routing table (lines 100-108)

    An entry of the Response column is an option number, a quoted word, or
    the bare word [other]. *)

Inductive Response : Type :=
  | Option_ (n : nat)
  | Word (w : string)
  | Other.

Global Instance Response_eq_dec : EqDecision Response.
Proof. solve_decision. Defined.

Record RoutingRow : Type := mkRoutingRow {
  responses : list Response;
  workflowCell : string
}.

Definition routing : list RoutingRow := [
  mkRoutingRow
    [Option_ 1; Word "new"; Word "create"; Word "build"; Word "start"; Word "scaffold"]
    "`workflows/build-new-agent.md`";
  mkRoutingRow
    [Option_ 2; Word "add"; Word "feature"; Word "implement"; Word "extend"]
    "`workflows/add-feature.md`";
  mkRoutingRow
    [Option_ 3; Word "audit"; Word "review"; Word "check"; Word "assess"; Word "evaluate"]
    "`workflows/audit-agent.md`";
  mkRoutingRow
    [Option_ 4; Word "debug"; Word "fix"; Word "broken"; Word "error"; Word "bug"; Word "issue"]
    "`workflows/debug-agent.md`";
  mkRoutingRow
    [Option_ 5; Word "test"; Word "tests"; Word "testing"; Word "coverage"]
    "`workflows/write-tests.md`";
  mkRoutingRow
    [Option_ 6; Word "optimize"; Word "performance"; Word "slow"; Word "fast"; Word "improve"]
    "`workflows/optimize-agent.md`";
  mkRoutingRow
    [Option_ 7; Other]
    "Clarify intent, then select appropriate workflow"
].

(** The file a row sends the reader to: the code span of its Workflow cell,
    when the cell is one. *)
Definition workflowFile (row : RoutingRow) : option string :=
  codeSpan (workflowCell row).

(** The rows that list a response, and what the table assigns to it. *)
Definition rowsFor (r : Response) : list RoutingRow :=
  List.filter (fun row => bool_decide (r ∈ responses row)) routing.

Definition route (r : Response) : list (option string) :=
  map workflowFile (rowsFor r).

(** Every file the routing table names. *)
Definition routedFiles : list string :=
  omap workflowFile routing.

(** A markdown workflow file under [workflows/]. *)
Definition isWorkflowPath (path : string) : bool :=
  JS.startsWith path "workflows/" && endsWith path ".md".

(** *** SKILL.md: the workflows index (lines 172-179) and the templates
    index (lines 189-193); both tables say which directory the files are in *)

Definition workflowsDirectory : string := "workflows/".

Definition workflowsIndex : list (string * string) := [
  ("build-new-agent.md", "Create a new LangGraph.js agent from scratch");
  ("add-feature.md", "Add capabilities to an existing agent");
  ("audit-agent.md", "Review architecture and identify issues");
  ("debug-agent.md", "Find and fix agent bugs");
  ("write-tests.md", "Test nodes, graphs, and integrations");
  ("optimize-agent.md", "Improve performance and reduce latency")
].

Definition templatesDirectory : string := "templates/".

Definition templatesIndex : list (string * string) := [
  ("basic-agent.ts", "Minimal ReAct agent scaffold");
  ("rag-agent.ts", "Retrieval-augmented agent");
  ("multi-agent.ts", "Multi-agent system with subgraphs")
].

(** The six kinds of task the runbooks are for. *)
Definition categories : list string :=
  ["build"; "add-feature"; "audit"; "debug"; "test"; "optimize"].

(** The entries of the workflows index a category names. *)
Definition indexEntriesFor (category : string) : list string :=
  List.filter (fun name => JS.includes name category) (map fst workflowsIndex).

(** The documents of the tree that are the runbook of a category: those the
    index entries of the category lead to. *)
Definition runbooksOf (category : string) : list SourceDocument :=
  flat_map (fun name => resolve (workflowsDirectory +:+ name))
    (indexEntriesFor category).

(** The documents the templates index leads to. *)
Definition templateOf (name : string) : list SourceDocument :=
  resolve (templatesDirectory +:+ name).

(** *** Header comments of the templates *)

(** A line carries a copy-and-customize instruction when it tells to copy
    and to customize. *)
Definition isCopyAndCustomize (text : string) : bool :=
  JS.includes (JS.ascii_toLowerCase text) "copy" &&
  JS.includes (JS.ascii_toLowerCase text) "customize".

(** A line speaks of copying or of customizing at all. *)
Definition mentionsCopyOrCustomize (text : string) : bool :=
  JS.includes (JS.ascii_toLowerCase text) "copy" ||
  JS.includes (JS.ascii_toLowerCase text) "customi".

(** The header comment of a document carries a copy-and-customize
    instruction. *)
Definition hasCopyAndCustomize (d : SourceDocument) : bool :=
  hasHeaderComment d && existsb isCopyAndCustomize (opening d).

(** The template [name] is marked as a template in its header comment, and
    the header carries a copy-and-customize instruction. *)
Definition markedCopyAndCustomize (name : string) : Prop :=
  exists d : SourceDocument,
    templateOf name = [d] /\ isTemplate d = true /\ hasCopyAndCustomize d = true.

End Corpus.

(** ** Concrete inputs

    States and a silent outside world on which the definitions above are
    evaluated. *)

Module Examples.
Import Messages.

(** A chat model that answers with a fixed text; the world is not used. *)
Definition fixedModel (text : string) : ChatModel unit :=
  fun _ => Async.ret (AIMessage text None).

(** One wording of the library's error for arguments that do not fit a
    tool's schema. *)
Definition parsingError (args : gmap string string) : JS.Thrown :=
  JS.ErrorObject "Received tool input did not match expected schema".

(** The last message asks for three tool calls: a tool that does not exist,
    [example_tool] without its argument, and [example_tool] with it. *)
Definition threeCalls : list ToolCall :=
  [ mkToolCall "missing_tool" ∅ (Some "call_1");
    mkToolCall "example_tool" ∅ (Some "call_2");
    mkToolCall "example_tool" {[ "query" := "test" ]} (Some "call_3") ].

Definition askingForTools : BasicAgent.AgentState :=
  BasicAgent.mkAgentState
    [HumanMessage "Use the example tool to search for 'test'";
     AIMessage "" (Some threeCalls)].

(** The last message is the user's. *)
Definition justAsked : BasicAgent.AgentState :=
  BasicAgent.mkAgentState [HumanMessage "Hello! What can you do?"].

(** The supervisor asked for the researcher for the eleventh time. *)
Definition overTheLimit : MultiAgent.MultiAgentState :=
  MultiAgent.mkMultiAgentState [] "task" "researcher" [] "" 11.

(** The supervisor's answer names no agent. *)
Definition unclearDecision : MultiAgent.MultiAgentState :=
  MultiAgent.mkMultiAgentState [] "task" "I am not sure." [] "" 1.

(** The task of the template's usage example, on the declared defaults. *)
Definition writeBlogPost : MultiAgent.MultiAgentState :=
  MultiAgent.mkMultiAgentState
    [HumanMessage "Write a short blog post about the benefits of TypeScript"]
    "" "supervisor" [] "" 0.

(** The question of the template's usage example, on the declared defaults. *)
Definition whatIsLangGraph : RagAgent.RAGState :=
  RagAgent.mkRAGState [HumanMessage "What is LangGraph?"] "What is LangGraph?" [] "" 0.

End Examples.

(** ** More fields and inputs *)

Module MessageFields.
Import Messages.

(** [m.tool_call_id] of a tool message; other messages have no such field. *)
Definition toolCallIdOf (m : BaseMessage) : option (option string) :=
  match m with
  | ToolMessage _ tool_call_id => Some tool_call_id
  | _ => None
  end.

End MessageFields.

Module MoreExamples.
Import Messages.

(** A chat model that asks for [example_tool] whatever it is told. *)
Definition alwaysCallsTool : ChatModel unit :=
  fun _ =>
    Async.ret
      (AIMessage ""
         (Some [mkToolCall "example_tool" {[ "query" := "test" ]} (Some "call_1")])).

(** A chat model whose every call throws. *)
Definition failingModel : ChatModel unit :=
  fun _ => Async.throw (JS.ErrorObject "529 overloaded").

(** Two tools registered under one name. *)
Definition firstSearch : BasicAgent.StructuredTool unit :=
  BasicAgent.mkTool "search"
    (fun toolCall => Async.ret (ToolMessage "first" (id toolCall))).

Definition secondSearch : BasicAgent.StructuredTool unit :=
  BasicAgent.mkTool "search"
    (fun toolCall => Async.ret (ToolMessage "second" (id toolCall))).

(** The last message asks for a tool by a name that every plain object
    inherits. *)
Definition askingForToString : BasicAgent.AgentState :=
  BasicAgent.mkAgentState
    [HumanMessage "Hello! What can you do?";
     AIMessage "" (Some [mkToolCall "toString" ∅ (Some "call_1")])].

(** A supervisor model that asks for the writer until a draft is there,
    then finishes: the prompt says [Current draft: None yet] as long as the
    draft is empty. *)
Definition writerThenFinish : ChatModel unit :=
  fun conversation =>
    match conversation with
    | SystemMessage systemPrompt :: _ =>
      if JS.includes systemPrompt "Current draft: None yet"
      then Async.ret (AIMessage "writer" None)
      else Async.ret (AIMessage "FINISH" None)
    | _ => Async.ret (AIMessage "FINISH" None)
    end.

(** The caller's input sets the retry count below its default. *)
Definition startsBelowZero : RagAgent.RAGState :=
  RagAgent.mkRAGState [HumanMessage "What is LangGraph?"] "What is LangGraph?"
    [] "" (-1).

(** Two documents were retrieved for the question. *)
Definition twoDocuments : RagAgent.RAGState :=
  RagAgent.mkRAGState [HumanMessage "What is LangGraph?"] "What is LangGraph?"
    [RagAgent.mkDocument "LangGraph is a library for agent graphs." [];
     RagAgent.mkDocument "Bread is made of flour." []]
    "" 0.

(** The rewriter gave a new question; two retries are already counted. *)
Definition afterTwoRetries : RagAgent.RAGState :=
  RagAgent.mkRAGState [HumanMessage "What is LangGraph?"] "LangGraph overview" [] "" 2.

End MoreExamples.

(** ** The order in which nodes run *)

Module Turns.

(** [n] turns taken in alternation, [a] first. *)
Fixpoint alternating (n : nat) (a b : string) : list string :=
  match n with
  | O => []
  | S n' => a :: alternating n' b a
  end.

(** The turns of a supervised team: every worker's turn stands between two
    turns of the supervisor, and the supervisor's last turn is followed by
    [finalize], which ends the run. *)
Inductive Supervised : list string -> Prop :=
  | Supervised_finalize : Supervised ["supervisor"; "finalize"]
  | Supervised_worker (worker : string) (rest : list string) :
      worker = "researcher" \/ worker = "writer" ->
      Supervised rest ->
      Supervised ("supervisor" :: worker :: rest).

End Turns.

(** ** The range in which sums of counts are exact *)

Module Counts.

(** Every sum of whole numbers that stays within [-2^53 .. 2^53] is exact. *)
Definition exact (z : Z) : Prop := (- 2 ^ 53 <= z <= 2 ^ 53)%Z.

End Counts.

(* ===================================================================== *)
(** * Part II: theorems                                                   *)
(* ===================================================================== *)

(** ** Strings *)

Lemma startsWith_spec (s t : string) :
  JS.startsWith s t = true <-> exists post : string, s = t +:+ post.
Proof.
  revert s. induction t as [|b t IH]; intros s; simpl.
  - split; [intros _; exists s; reflexivity | destruct s; reflexivity].
  - destruct s as [|a s]; simpl.
    + split; [discriminate | intros [post H]; discriminate].
    + rewrite andb_true_iff, IH. split.
      * intros [Hab [post ->]]. apply Ascii.eqb_eq in Hab. subst a.
        exists post. reflexivity.
      * intros [post H]. injection H as -> ->. split.
        -- apply Ascii.eqb_refl.
        -- exists post. reflexivity.
Qed.

Lemma includes_spec (s t : string) :
  JS.includes s t = true <-> JS.occursIn t s.
Proof.
  unfold JS.occursIn. induction s as [|a s IH]; cbn [JS.includes].
  - rewrite orb_false_r, startsWith_spec. split.
    + intros [post H]. exists "", post. exact H.
    + intros [pre [post H]]. destruct pre as [|c pre]; [|discriminate].
      exists post. exact H.
  - rewrite orb_true_iff, startsWith_spec, IH. split.
    + intros [[post H] | [pre [post H]]].
      * exists "", post. exact H.
      * exists (String a pre), post. simpl. rewrite H. reflexivity.
    + intros [pre [post H]]. destruct pre as [|c pre]; simpl in H.
      * left. exists post. exact H.
      * right. injection H as _ H. exists pre, post. exact H.
Qed.

Lemma includes_false (s t : string) :
  ~ JS.occursIn t s -> JS.includes s t = false.
Proof.
  intros H. destruct (JS.includes s t) eqn:E; [|reflexivity].
  apply includes_spec in E. contradiction.
Qed.

(** ** Multi-agent template *)

Section MultiAgentFacts.
Context {World : Type}.
Variables supervisorModel workerModel : Messages.ChatModel World.
Variables toLowerCase trim : string -> string.

Lemma multiAgent_declared_targets :
  LangGraph.declaredTargets
    (MultiAgent.workflow supervisorModel workerModel toLowerCase trim)
    "supervisor"
  = ["researcher"; "writer"; "finalize"].
Proof. reflexivity. Qed.

(** The router answers one of three node names, whatever the state. *)
Lemma routeFromSupervisor_cases (state : MultiAgent.MultiAgentState) :
  MultiAgent.routeFromSupervisor toLowerCase state = "researcher" \/
  MultiAgent.routeFromSupervisor toLowerCase state = "writer" \/
  MultiAgent.routeFromSupervisor toLowerCase state = "finalize".
Proof.
  unfold MultiAgent.routeFromSupervisor.
  destruct (10 <? MultiAgent.iterations state)%Z; [auto|].
  destruct (JS.includes _ "finish"); [auto|].
  destruct (JS.includes _ "researcher"); [auto|].
  destruct (JS.includes _ "writer"); auto.
Qed.

Lemma routeFromSupervisor_limit (state : MultiAgent.MultiAgentState) :
  (10 < MultiAgent.iterations state)%Z ->
  MultiAgent.routeFromSupervisor toLowerCase state = "finalize".
Proof.
  intros H. unfold MultiAgent.routeFromSupervisor.
  apply Z.ltb_lt in H. rewrite H. reflexivity.
Qed.

Lemma routeFromSupervisor_unclear (state : MultiAgent.MultiAgentState) :
  ~ JS.occursIn "finish" (toLowerCase (MultiAgent.currentAgent state)) ->
  ~ JS.occursIn "researcher" (toLowerCase (MultiAgent.currentAgent state)) ->
  ~ JS.occursIn "writer" (toLowerCase (MultiAgent.currentAgent state)) ->
  MultiAgent.routeFromSupervisor toLowerCase state = "finalize".
Proof.
  intros Hf Hr Hw. unfold MultiAgent.routeFromSupervisor.
  rewrite (includes_false _ _ Hf), (includes_false _ _ Hr), (includes_false _ _ Hw).
  destruct (10 <? MultiAgent.iterations state)%Z; reflexivity.
Qed.

End MultiAgentFacts.

(** C8.  [routeFromSupervisor] is total and safe: for every state it answers
    one of the targets declared for the conditional edge that leaves
    [supervisor], which are [researcher], [writer] and [finalize]; with
    [iterations > 10] it answers [finalize] whatever [currentAgent] says; and
    when the lower-cased [currentAgent] contains none of [finish],
    [researcher], [writer] it answers [finalize] too. *)
Theorem routeFromSupervisor_total_and_safe :
  forall (World : Type) (supervisorModel workerModel : Messages.ChatModel World)
    (toLowerCase trim : string -> string) (state : MultiAgent.MultiAgentState),
    let target := MultiAgent.routeFromSupervisor toLowerCase state in
    let decision := toLowerCase (MultiAgent.currentAgent state) in
    In target
      (LangGraph.declaredTargets
         (MultiAgent.workflow supervisorModel workerModel toLowerCase trim)
         "supervisor")
    /\ In target ["researcher"; "writer"; "finalize"]
    /\ ((10 < MultiAgent.iterations state)%Z -> target = "finalize")
    /\ (~ JS.occursIn "finish" decision ->
        ~ JS.occursIn "researcher" decision ->
        ~ JS.occursIn "writer" decision ->
        target = "finalize").
Proof.
  intros World supervisorModel workerModel toLowerCase trim state target decision.
  assert (Hin : In target ["researcher"; "writer"; "finalize"]).
  { subst target. simpl.
    destruct (routeFromSupervisor_cases toLowerCase state) as [H | [H | H]];
      rewrite H; auto. }
  split; [rewrite multiAgent_declared_targets; exact Hin|].
  split; [exact Hin|].
  split.
  - apply routeFromSupervisor_limit.
  - apply routeFromSupervisor_unclear.
Qed.

(** Over the limit the router answers [finalize] though the decision says
    [researcher]. *)
Lemma routeFromSupervisor_over_limit_witness :
  (10 < MultiAgent.iterations Examples.overTheLimit)%Z
  /\ MultiAgent.routeFromSupervisor JS.ascii_toLowerCase Examples.overTheLimit
     = "finalize".
Proof.
  destruct (routeFromSupervisor_total_and_safe unit
              (Examples.fixedModel "researcher") (Examples.fixedModel "notes")
              JS.ascii_toLowerCase (fun s => s) Examples.overTheLimit)
    as (_ & _ & Hlimit & _).
  split; [simpl; lia | apply Hlimit; simpl; lia].
Defined.

Example routeFromSupervisor_runs :
  MultiAgent.routeFromSupervisor JS.ascii_toLowerCase
    (MultiAgent.mkMultiAgentState [] "task" "Researcher" [] "" 3) = "researcher"
  /\ MultiAgent.routeFromSupervisor JS.ascii_toLowerCase
       (MultiAgent.mkMultiAgentState [] "task" "writer" [] "" 10) = "writer"
  /\ MultiAgent.routeFromSupervisor JS.ascii_toLowerCase
       (MultiAgent.mkMultiAgentState [] "task" "FINISH" [] "" 4) = "finalize"
  /\ MultiAgent.routeFromSupervisor JS.ascii_toLowerCase Examples.unclearDecision
     = "finalize".
Proof. repeat split; reflexivity. Qed.

Example unclearDecision_names_no_agent :
  ~ JS.occursIn "finish"
      (JS.ascii_toLowerCase (MultiAgent.currentAgent Examples.unclearDecision))
  /\ ~ JS.occursIn "researcher"
        (JS.ascii_toLowerCase (MultiAgent.currentAgent Examples.unclearDecision))
  /\ ~ JS.occursIn "writer"
        (JS.ascii_toLowerCase (MultiAgent.currentAgent Examples.unclearDecision)).
Proof.
  repeat split; intros H; apply includes_spec in H; discriminate.
Qed.

(** ** Graph shapes *)

(** Membership in the short lists of declared edges is settled by cases. *)
Ltac edge_cases :=
  simpl in *; unfold LangGraph.START, LangGraph.END in *; simpl in *;
  repeat match goal with
         | H : _ \/ _ |- _ => destruct H
         | H : False |- _ => destruct H
         | H : (_, _) = (_, _) |- _ => injection H as ? ?
         end;
  subst; try reflexivity; try congruence; auto 10.

(** C4.  The multi-agent template is a supervisor-routes-workers loop: the
    only edge from START goes to [supervisor]; the only conditional edge
    leaves [supervisor], is routed by [routeFromSupervisor], and has exactly
    the targets [researcher], [writer], [finalize]; each worker has one edge,
    back to [supervisor]; and [finalize] is the only node with an edge to
    END (no conditional target is END either). *)
Theorem multiAgent_is_supervisor_loop :
  forall (World : Type) (supervisorModel workerModel : Messages.ChatModel World)
    (toLowerCase trim : string -> string),
    let g := MultiAgent.workflow supervisorModel workerModel toLowerCase trim in
    map fst (LangGraph.nodes g) = ["supervisor"; "researcher"; "writer"; "finalize"]
    /\ (forall target : string,
          In (LangGraph.START, target) (LangGraph.edges g) <-> target = "supervisor")
    /\ LangGraph.conditionalEdges g =
         [("supervisor", MultiAgent.routeFromSupervisor toLowerCase,
           ["researcher"; "writer"; "finalize"])]
    /\ (forall target : string,
          In ("researcher", target) (LangGraph.edges g) <-> target = "supervisor")
    /\ (forall target : string,
          In ("writer", target) (LangGraph.edges g) <-> target = "supervisor")
    /\ (forall source : string,
          In (source, LangGraph.END) (LangGraph.edges g) <-> source = "finalize")
    /\ (forall source : string,
          ~ In LangGraph.END (LangGraph.declaredTargets g source)).
Proof.
  intros World supervisorModel workerModel toLowerCase trim g. subst g.
  split; [reflexivity|].
  split; [intros target; split; [intros H | intros ->]; edge_cases|].
  split; [reflexivity|].
  split; [intros target; split; [intros H | intros ->]; edge_cases|].
  split; [intros target; split; [intros H | intros ->]; edge_cases|].
  split; [intros source; split; [intros H | intros ->]; edge_cases|].
  intros source H. unfold LangGraph.declaredTargets in H.
  cbn [MultiAgent.workflow LangGraph.conditionalEdges LangGraph.addEdge
       LangGraph.addNode LangGraph.addConditionalEdges LangGraph.newStateGraph
       app List.filter fst snd] in H.
  destruct (bool_decide ("supervisor" = source)); edge_cases.
Qed.

(** C5.  The RAG template is a retrieval-grade-generate loop: START goes to
    [retrieve], [retrieve] to [grade], the one conditional edge leaves
    [grade], is routed by [routeAfterGrade] and has exactly the targets
    [generate] and [rewrite], [rewrite] goes back to [retrieve], and
    [generate] goes to END. *)
Theorem rag_is_retrieve_grade_generate_loop :
  forall (World : Type) (model : Messages.ChatModel World)
    (toLowerCase : string -> string),
    let g := RagAgent.workflow model toLowerCase in
    map fst (LangGraph.nodes g) = ["retrieve"; "grade"; "generate"; "rewrite"]
    /\ LangGraph.edges g =
         [(LangGraph.START, "retrieve"); ("retrieve", "grade");
          ("rewrite", "retrieve"); ("generate", LangGraph.END)]
    /\ LangGraph.conditionalEdges g =
         [("grade", RagAgent.routeAfterGrade, ["generate"; "rewrite"])]
    /\ (forall state : RagAgent.RAGState,
          LangGraph.successors g LangGraph.START state = ["retrieve"]
          /\ LangGraph.successors g "retrieve" state = ["grade"]
          /\ LangGraph.successors g "grade" state = [RagAgent.routeAfterGrade state]
          /\ In (RagAgent.routeAfterGrade state) (LangGraph.declaredTargets g "grade")
          /\ LangGraph.successors g "rewrite" state = ["retrieve"]
          /\ LangGraph.successors g "generate" state = [LangGraph.END]).
Proof.
  intros World model toLowerCase g.
  repeat split; try reflexivity.
  unfold RagAgent.routeAfterGrade.
  destruct (0 <? length (RagAgent.documents state))%nat; [simpl; auto|].
  destruct (2 <=? RagAgent.retryCount state)%Z; simpl; auto.
Qed.

(** ** Basic agent template *)

(** C3.  The basic-agent template is a tool-calling loop: [shouldContinue]
    answers [tools] exactly when the last message exists, is an AI message
    and has a non-empty [tool_calls] list, and END in every other state; the
    graph goes from START to [agent], from [agent] by [shouldContinue] to
    [tools] or END, and from [tools] back to [agent]. *)
Theorem basicAgent_is_tool_calling_loop :
  forall (World : Type) (model : Messages.ChatModel World)
    (tools : list (BasicAgent.StructuredTool World))
    (state : BasicAgent.AgentState),
    let g := BasicAgent.workflow model tools in
    (BasicAgent.shouldContinue state = "tools" <->
       exists (lastMessage : Messages.BaseMessage) (calls : list Messages.ToolCall),
         last (BasicAgent.messages state) = Some lastMessage /\
         Messages.isAIMessage lastMessage = true /\
         Messages.tool_calls lastMessage = Some calls /\
         calls <> [])
    /\ (BasicAgent.shouldContinue state = "tools" \/
        BasicAgent.shouldContinue state = LangGraph.END)
    /\ map fst (LangGraph.nodes g) = ["agent"; "tools"]
    /\ LangGraph.edges g = [(LangGraph.START, "agent"); ("tools", "agent")]
    /\ LangGraph.conditionalEdges g =
         [("agent", BasicAgent.shouldContinue, ["tools"; LangGraph.END])].
Proof.
  intros World model tools state g. subst g.
  split; [|split; [|repeat split]].
  - unfold BasicAgent.shouldContinue.
    destruct (last (BasicAgent.messages state)) as [lastMessage|].
    + destruct lastMessage as [c|c|c [[|call calls]|]|c i]; simpl;
        (split;
         [ try discriminate; intros _; eexists _, _; repeat split; discriminate
         | intros (m & calls' & Hm & Hai & Hcalls & Hne);
           injection Hm as <-; simpl in *; try discriminate; try congruence ]).
    + split; [discriminate | intros (m & calls & Hm & _); discriminate].
  - unfold BasicAgent.shouldContinue.
    destruct (last (BasicAgent.messages state)) as [lastMessage|]; [|auto].
    destruct (negb (Messages.isAIMessage lastMessage)); [auto|].
    destruct (Messages.truthyLength (Messages.tool_calls lastMessage)); auto.
Qed.

Section BasicAgentFacts.
Context {World : Type}.
Variable tools : list (BasicAgent.StructuredTool World).

Lemma fromEntries_lookup_None {A : Type} (entries : list (string * A))
  (o : gmap string A) (k : string) :
  foldl (fun o kv => <[kv.1 := kv.2]> o) o entries !! k = None
  <-> o !! k = None /\ ~ In k (map fst entries).
Proof.
  revert o. induction entries as [|[k' a] entries IH]; intros o; simpl.
  - tauto.
  - rewrite IH. destruct (decide (k' = k)) as [->|Hne].
    + rewrite lookup_insert_eq. split; [intros [H _]; discriminate | tauto].
    + rewrite lookup_insert_ne by exact Hne. tauto.
Qed.

(** A name finds nothing in [toolsByName] exactly when no tool bears it and
    it is not a member every object inherits. *)
Lemma toolsByName_undefined (toolName : string) :
  JS.get (BasicAgent.toolsByName tools) toolName = JS.Undefined
  <-> ~ In toolName (map BasicAgent.tool_name tools)
      /\ ~ In toolName JS.object_prototype_keys.
Proof.
  unfold JS.get, BasicAgent.toolsByName, JS.fromEntries.
  destruct (foldl _ _ _ !! toolName) as [t|] eqn:E.
  - split; [discriminate|]. intros [Hnot _]. exfalso.
    assert (H : foldl (fun o kv => <[kv.1 := kv.2]> o) (∅ : gmap string _)
                  (map (fun t => (BasicAgent.tool_name t, t)) tools) !! toolName
                = None).
    { apply fromEntries_lookup_None. split; [apply lookup_empty|].
      rewrite map_map. simpl. exact Hnot. }
    rewrite H in E. discriminate.
  - apply fromEntries_lookup_None in E as [_ E]. rewrite map_map in E. simpl in E.
    case_bool_decide as Hk; rewrite list_elem_of_In in Hk; split.
    + discriminate.
    + intros [_ Hn]. contradiction.
    + intros _. split; [exact E | exact Hk].
    + reflexivity.
Qed.

(** A name that no tool bears and that every object inherits finds the
    inherited member. *)
Lemma toolsByName_inherited (toolName : string) :
  ~ In toolName (map BasicAgent.tool_name tools) ->
  In toolName JS.object_prototype_keys ->
  JS.get (BasicAgent.toolsByName tools) toolName = JS.Inherited.
Proof.
  intros Hnone Hinherited.
  unfold JS.get, BasicAgent.toolsByName, JS.fromEntries.
  assert (H : foldl (fun o kv => <[kv.1 := kv.2]> o) (∅ : gmap string _)
                (map (fun t => (BasicAgent.tool_name t, t)) tools) !! toolName
              = None).
  { apply fromEntries_lookup_None. split; [apply lookup_empty|].
    rewrite map_map. simpl. exact Hnone. }
  rewrite H. rewrite <- list_elem_of_In in Hinherited.
  rewrite bool_decide_eq_true_2 by exact Hinherited. reflexivity.
Qed.


(** The loop of [callTools] never rejects, and what it adds to
    [toolMessages] is the answers to the calls, in order. *)
Lemma forEachToolCall_answered (toolCalls : list Messages.ToolCall) :
  forall (toolMessages : list Messages.BaseMessage) (w : World),
  exists (answers : list Messages.BaseMessage) (w' : World),
    BasicAgent.forEachToolCall tools toolCalls toolMessages w
      = (Async.Fulfilled (toolMessages ++ answers), w')
    /\ BasicAgent.Answered tools toolCalls w answers w'.
Proof.
  induction toolCalls as [|toolCall rest IH]; intros toolMessages w.
  - exists [], w. simpl. rewrite app_nil_r. split; [reflexivity | constructor].
  - cbn [BasicAgent.forEachToolCall]. unfold Async.bind, BasicAgent.callOne.
    destruct (JS.get (BasicAgent.toolsByName tools) (Messages.name toolCall))
      as [tool| |] eqn:Hget.
    + unfold Async.try_catch, Async.bind.
      destruct (BasicAgent.invokeFound (JS.Own tool) toolCall w)
        as [[result|error] w1] eqn:Hinvoke.
      * destruct (IH (toolMessages ++ [result]) w1) as (answers & w' & Hrun & Hans).
        exists (result :: answers), w'. split.
        -- unfold Async.ret. rewrite Hrun, <- app_assoc. reflexivity.
        -- eapply BasicAgent.Answered_result; rewrite ?Hget; eauto; discriminate.
      * destruct (IH (toolMessages ++ [BasicAgent.errorToolMessage error toolCall]) w1)
          as (answers & w' & Hrun & Hans).
        exists (BasicAgent.errorToolMessage error toolCall :: answers), w'. split.
        -- unfold Async.ret. rewrite Hrun, <- app_assoc. reflexivity.
        -- eapply BasicAgent.Answered_error; rewrite ?Hget; eauto; discriminate.
    + unfold Async.try_catch, Async.bind.
      destruct (BasicAgent.invokeFound JS.Inherited toolCall w)
        as [[result|error] w1] eqn:Hinvoke.
      * destruct (IH (toolMessages ++ [result]) w1) as (answers & w' & Hrun & Hans).
        exists (result :: answers), w'. split.
        -- unfold Async.ret. rewrite Hrun, <- app_assoc. reflexivity.
        -- eapply BasicAgent.Answered_result; rewrite ?Hget; eauto; discriminate.
      * destruct (IH (toolMessages ++ [BasicAgent.errorToolMessage error toolCall]) w1)
          as (answers & w' & Hrun & Hans).
        exists (BasicAgent.errorToolMessage error toolCall :: answers), w'. split.
        -- unfold Async.ret. rewrite Hrun, <- app_assoc. reflexivity.
        -- eapply BasicAgent.Answered_error; rewrite ?Hget; eauto; discriminate.
    + destruct (IH (toolMessages ++ [BasicAgent.unknownToolMessage toolCall]) w)
        as (answers & w' & Hrun & Hans).
      exists (BasicAgent.unknownToolMessage toolCall :: answers), w'. split.
      * unfold Async.ret. rewrite Hrun, <- app_assoc. reflexivity.
      * apply BasicAgent.Answered_unknown; assumption.
Qed.

End BasicAgentFacts.

(** C10.  [callTools] is to answer a call naming a tool that is absent from
    [toolsByName] with [Unknown tool: <name>].  It does not when the name is
    one that every object inherits from [Object.prototype], such as
    [toString]: no tool of the list bears the name, yet the lookup
    [toolsByName[name]] finds the inherited member, the test [!tool] lets it
    through, [tool.invoke] raises a [TypeError], and the call is answered
    through the [catch] clause with [Error: tool.invoke is not a function]. *)
Theorem callTools_answers_inherited_name_with_error :
  forall (World : Type) (tools : list (BasicAgent.StructuredTool World))
    (state : BasicAgent.AgentState) (text : string) (toolCall : Messages.ToolCall)
    (w : World),
    last (BasicAgent.messages state)
      = Some (Messages.AIMessage text (Some [toolCall])) ->
    In (Messages.name toolCall) JS.object_prototype_keys ->
    ~ In (Messages.name toolCall) (map BasicAgent.tool_name tools) ->
    BasicAgent.callTools tools state w
    = (Async.Fulfilled
         (BasicAgent.mkAgentUpdate
            [Messages.ToolMessage "Error: tool.invoke is not a function"
               (Messages.id toolCall)]),
       w)
    /\ Messages.ToolMessage "Error: tool.invoke is not a function"
         (Messages.id toolCall)
       <> Messages.ToolMessage ("Unknown tool: " +:+ Messages.name toolCall)
            (Messages.id toolCall).
Proof.
  intros World tools state text toolCall w Hlast Hinherited Hnone.
  split; [|intros H; discriminate H].
  unfold BasicAgent.callTools. rewrite Hlast. simpl.
  unfold Async.bind, BasicAgent.callOne.
  rewrite (toolsByName_inherited tools _ Hnone Hinherited).
  reflexivity.
Qed.

(** The chat model asks for a tool named [toString]; the template's only
    tool is [example_tool]. *)
Lemma callTools_answers_inherited_name_with_error_witness :
  BasicAgent.callTools (BasicAgent.exampleTools Examples.parsingError)
    MoreExamples.askingForToString tt
  = (Async.Fulfilled
       (BasicAgent.mkAgentUpdate
          [Messages.ToolMessage "Error: tool.invoke is not a function"
             (Some "call_1")]),
     tt).
Proof.
  refine (proj1 (callTools_answers_inherited_name_with_error unit
                   (BasicAgent.exampleTools Examples.parsingError)
                   MoreExamples.askingForToString ""
                   (Messages.mkToolCall "toString" ∅ (Some "call_1")) tt
                   eq_refl _ _)).
  - simpl. tauto.
  - simpl. intros [H | H]; [discriminate | exact H].
Defined.

Example callTools_three_calls_run :
  BasicAgent.callTools (BasicAgent.exampleTools Examples.parsingError)
    Examples.askingForTools tt
  = (Async.Fulfilled
       (BasicAgent.mkAgentUpdate
          [Messages.ToolMessage "Unknown tool: missing_tool" (Some "call_1");
           Messages.ToolMessage
             "Error: Received tool input did not match expected schema"
             (Some "call_2");
           Messages.ToolMessage "Results for: test" (Some "call_3")]),
     tt).
Proof. vm_compute. reflexivity. Qed.

Example shouldContinue_runs :
  BasicAgent.shouldContinue Examples.askingForTools = "tools"
  /\ BasicAgent.shouldContinue Examples.justAsked = LangGraph.END.
Proof. split; reflexivity. Qed.

(** ** Running a graph *)

Section RunFacts.
Context {World State Update : Type}.
Variable g : LangGraph.StateGraph State (State -> Async.Async World Update).
Variable reduce : State -> Update -> State.

Lemma run_at_END (fuel : nat) (st : State) (w : World) :
  LangGraph.run fuel g reduce LangGraph.END st w = (LangGraph.Finished st, [], w).
Proof. destruct fuel; reflexivity. Qed.

(** One step of [run] at a node that is registered. *)
Lemma run_node (fuel : nat) (n : string) (fn : State -> Async.Async World Update)
  (st : State) (w : World) :
  n <> LangGraph.END ->
  LangGraph.nodeFunction g n = Some fn ->
  LangGraph.run (S fuel) g reduce n st w =
    match fn st w with
    | (Async.Rejected e, w') => (LangGraph.Failed e, [n], w')
    | (Async.Fulfilled u, w') =>
      match LangGraph.successors g n (reduce st u) with
      | [m] =>
        let '(o, ran, w'') := LangGraph.run fuel g reduce m (reduce st u) w' in
        (o, n :: ran, w'')
      | _ => (LangGraph.Stuck n, [n], w')
      end
    end.
Proof.
  intros Hn Hfn. cbn [LangGraph.run].
  rewrite bool_decide_eq_false_2 by exact Hn.
  rewrite Hfn. reflexivity.
Qed.

End RunFacts.

Lemma timesRun_nil (n : string) : LangGraph.timesRun n [] = 0.
Proof. reflexivity. Qed.

Lemma timesRun_cons_other (n m : string) (ran : list string) :
  m <> n -> LangGraph.timesRun n (m :: ran) = LangGraph.timesRun n ran.
Proof.
  intros H. unfold LangGraph.timesRun. cbn [List.filter].
  rewrite bool_decide_eq_false_2 by exact H. reflexivity.
Qed.

Lemma timesRun_cons_same (n : string) (ran : list string) :
  LangGraph.timesRun n (n :: ran) = S (LangGraph.timesRun n ran).
Proof.
  unfold LangGraph.timesRun. cbn [List.filter].
  rewrite bool_decide_eq_true_2 by reflexivity. reflexivity.
Qed.

(** ** Sums of counts *)

Lemma toNumber_exact (z : Z) : Counts.exact z -> JS.toNumber z = z.
Proof.
  unfold Counts.exact, JS.toNumber. intros Hz.
  destruct (Z.leb_spec (Z.abs z) (2 ^ 53)); [reflexivity | lia].
Qed.

Lemma numberAdd_exact (x y : Z) :
  Counts.exact (x + y) -> JS.numberAdd x y = (x + y)%Z.
Proof. apply toNumber_exact. Qed.

(** Above the exact range a number stays above it. *)
Lemma toNumber_large (z : Z) : (2 ^ 53 < z)%Z -> (2 ^ 53 <= JS.toNumber z)%Z.
Proof.
  intros Hz. unfold JS.toNumber.
  rewrite Z.abs_eq by lia.
  destruct (Z.leb_spec z (2 ^ 53)); [lia|].
  rewrite Z.sgn_pos by lia.
  assert (Hlog : (53 <= Z.log2 z)%Z) by (apply Z.log2_le_pow2; lia).
  set (e := (Z.log2 z - 52)%Z).
  assert (Hquantum : (2 <= 2 ^ e)%Z).
  { change 2%Z with (2 ^ 1)%Z at 1. apply Z.pow_le_mono_r; lia. }
  assert (Hz' : (2 ^ e * 2 ^ 52 <= z)%Z).
  { rewrite <- Z.pow_add_r by lia.
    replace (e + 52)%Z with (Z.log2 z) by lia.
    apply Z.log2_spec. lia. }
  assert (Hdiv : (2 ^ 52 <= z / 2 ^ e)%Z) by (apply Z.div_le_lower_bound; lia).
  set (quantum := (2 ^ e)%Z) in *.
  set (significand := (z / quantum)%Z) in *.
  assert (Hbelow : (2 ^ 53 <= significand * quantum)%Z) by nia.
  cbv zeta.
  destruct (_ <? _)%Z; [lia|].
  destruct (_ <? _)%Z; [lia|].
  destruct (Z.even _); lia.
Qed.

Lemma numberAdd_one_large (x : Z) :
  (2 ^ 53 <= x)%Z -> (2 ^ 53 <= JS.numberAdd x 1)%Z.
Proof. intros Hx. apply toNumber_large. lia. Qed.

(** A count that is small after one was added had exactly one added. *)
Lemma numberAdd_one_small (x : Z) :
  (- 2 ^ 53 <= x)%Z -> (JS.numberAdd x 1 <= 10)%Z ->
  JS.numberAdd x 1 = (x + 1)%Z.
Proof.
  intros Hlow Hsmall.
  destruct (Z.le_gt_cases (2 ^ 53) x) as [Hlarge | Hbelow].
  - apply numberAdd_one_large in Hlarge. lia.
  - apply numberAdd_exact. unfold Counts.exact. lia.
Qed.

(** ** RAG template *)

Lemma endedAfterGenerate_cons (o : LangGraph.Outcome RagAgent.RAGState)
  (n : string) (ran : list string) :
  RagAgent.endedAfterGenerate o ran -> RagAgent.endedAfterGenerate o (n :: ran).
Proof.
  destruct o; simpl; try tauto.
  destruct ran as [|m ran]; [discriminate|]. rewrite last_cons_cons. tauto.
Qed.

Section RagFacts.
Context {World : Type}.
Variable model : Messages.ChatModel World.
Variable toLowerCase : string -> string.

Lemma routeAfterGrade_rewrite (state : RagAgent.RAGState) :
  RagAgent.routeAfterGrade state = "rewrite"
  <-> RagAgent.documents state = [] /\ (RagAgent.retryCount state < 2)%Z.
Proof.
  unfold RagAgent.routeAfterGrade.
  destruct (RagAgent.documents state) as [|doc docs]; simpl.
  - destruct (Z.leb_spec 2 (RagAgent.retryCount state)).
    + split; [discriminate | intros [_ H']; lia].
    + split; [intros _; split; [reflexivity | lia] | reflexivity].
  - split; [discriminate | intros [H _]; discriminate].
Qed.

Lemma routeAfterGrade_cases (state : RagAgent.RAGState) :
  RagAgent.routeAfterGrade state = "generate"
  \/ RagAgent.routeAfterGrade state = "rewrite".
Proof.
  unfold RagAgent.routeAfterGrade.
  destruct (0 <? length (RagAgent.documents state))%nat; [auto|].
  destruct (2 <=? RagAgent.retryCount state)%Z; auto.
Qed.

Lemma rag_successors (state : RagAgent.RAGState) :
  let g := RagAgent.workflow model toLowerCase in
  LangGraph.successors g LangGraph.START state = ["retrieve"]
  /\ LangGraph.successors g "retrieve" state = ["grade"]
  /\ LangGraph.successors g "grade" state = [RagAgent.routeAfterGrade state]
  /\ LangGraph.successors g "rewrite" state = ["retrieve"]
  /\ LangGraph.successors g "generate" state = [LangGraph.END].
Proof. repeat split; reflexivity. Qed.

Lemma rag_nodeFunction :
  let g := RagAgent.workflow model toLowerCase in
  LangGraph.nodeFunction g "retrieve" = Some RagAgent.retrieve
  /\ LangGraph.nodeFunction g "grade" = Some (RagAgent.gradeDocuments model toLowerCase)
  /\ LangGraph.nodeFunction g "generate" = Some (RagAgent.generate model)
  /\ LangGraph.nodeFunction g "rewrite" = Some (RagAgent.rewriteQuery model).
Proof. repeat split; reflexivity. Qed.

(** What each node writes to [retryCount]. *)
Lemma retrieve_update (state : RagAgent.RAGState) (w : World) :
  exists (q : string) (docs : list RagAgent.Document),
    RagAgent.retrieve state w
    = (Async.Fulfilled (RagAgent.mkRAGUpdate None (Some q) (Some docs) None None), w).
Proof. eexists _, _. reflexivity. Qed.

Lemma gradeDocuments_update (state : RagAgent.RAGState) (w w' : World)
  (u : RagAgent.RAGUpdate) :
  RagAgent.gradeDocuments model toLowerCase state w = (Async.Fulfilled u, w') ->
  exists docs : list RagAgent.Document,
    u = RagAgent.mkRAGUpdate None None (Some docs) None None.
Proof.
  unfold RagAgent.gradeDocuments, Async.bind, Async.ret.
  destruct (RagAgent.gradeEach _ _ _ _ _ _) as [[docs|e] w1]; intros H.
  - injection H as <- _. exists docs. reflexivity.
  - discriminate.
Qed.

Lemma rewriteQuery_update (state : RagAgent.RAGState) (w w' : World)
  (u : RagAgent.RAGUpdate) :
  RagAgent.rewriteQuery model state w = (Async.Fulfilled u, w') ->
  exists q : string, u = RagAgent.mkRAGUpdate None (Some q) None None (Some 1%Z).
Proof.
  unfold RagAgent.rewriteQuery, Async.bind, Async.ret.
  destruct (model _ _) as [[response|e] w1]; intros H.
  - injection H as <- _. eexists. reflexivity.
  - discriminate.
Qed.

(** One turn of the loop, from [retrieve]: given the bound for the turns
    that follow a rewrite, the bound for this one. *)
Lemma rag_cycle (k : nat)
  (IH : forall k' : nat, k = S k' ->
        forall (fuel : nat) (st : RagAgent.RAGState) (w : World),
          (- 2 ^ 53 <= RagAgent.retryCount st)%Z ->
          (2 - RagAgent.retryCount st <= Z.of_nat k')%Z -> 3 * k' + 3 <= fuel ->
          exists o ran w',
            LangGraph.run fuel (RagAgent.workflow model toLowerCase)
              RagAgent.reduce "retrieve" st w = (o, ran, w')
            /\ LangGraph.timesRun "rewrite" ran <= k'
            /\ RagAgent.endedAfterGenerate o ran) :
  forall (fuel : nat) (st : RagAgent.RAGState) (w : World),
    (- 2 ^ 53 <= RagAgent.retryCount st)%Z ->
    (2 - RagAgent.retryCount st <= Z.of_nat k)%Z -> 3 * k + 3 <= fuel ->
    exists o ran w',
      LangGraph.run fuel (RagAgent.workflow model toLowerCase)
        RagAgent.reduce "retrieve" st w = (o, ran, w')
      /\ LangGraph.timesRun "rewrite" ran <= k
      /\ RagAgent.endedAfterGenerate o ran.
Proof.
  intros fuel st w Hlow Hr Hfuel.
  destruct (rag_nodeFunction) as (Fretrieve & Fgrade & Fgenerate & Frewrite).
  destruct fuel as [|[|[|fuel]]]; [lia | lia | lia |].
  (* retrieve *)
  erewrite run_node; [| discriminate | exact Fretrieve].
  destruct (retrieve_update st w) as (q & docs & ->).
  set (st1 := RagAgent.reduce st _).
  rewrite (proj1 (proj2 (rag_successors st1))).
  (* grade *)
  erewrite run_node; [| discriminate | exact Fgrade].
  destruct (RagAgent.gradeDocuments model toLowerCase st1 w) as [[u|e] w1] eqn:Hgrade;
    [| eexists _, _, _; split; [reflexivity|]; split; [|exact I];
       rewrite !timesRun_cons_other by discriminate; rewrite timesRun_nil; lia ].
  destruct (gradeDocuments_update _ _ _ _ Hgrade) as (docs' & ->).
  set (st2 := RagAgent.reduce st1 _).
  rewrite (proj1 (proj2 (proj2 (rag_successors st2)))).
  destruct (routeAfterGrade_cases st2) as [Hroute | Hroute]; rewrite Hroute.
  - (* generate *)
    erewrite run_node; [| discriminate | exact Fgenerate].
    destruct (RagAgent.generate model st2 w1) as [[u3|e] w2].
    + rewrite (proj2 (proj2 (proj2 (proj2 (rag_successors _))))), run_at_END.
      eexists _, _, _; split; [reflexivity|]. split; [|reflexivity].
      rewrite !timesRun_cons_other by discriminate. rewrite timesRun_nil. lia.
    + eexists _, _, _; split; [reflexivity|]. split; [|exact I].
      rewrite !timesRun_cons_other by discriminate. rewrite timesRun_nil. lia.
  - (* rewrite *)
    apply routeAfterGrade_rewrite in Hroute as [_ Hcount].
    change (RagAgent.retryCount st2) with (RagAgent.retryCount st) in Hcount.
    destruct k as [|k']; [lia|].
    erewrite run_node; [| discriminate | exact Frewrite].
    destruct (RagAgent.rewriteQuery model st2 w1) as [[u3|e] w2] eqn:Hrewrite;
      [| eexists _, _, _; split; [reflexivity|]; split; [|exact I];
         rewrite !timesRun_cons_other by discriminate;
         rewrite timesRun_cons_same, timesRun_nil; lia ].
    destruct (rewriteQuery_update _ _ _ _ Hrewrite) as (q' & ->).
    set (st3 := RagAgent.reduce st2 _).
    rewrite (proj1 (proj2 (proj2 (proj2 (rag_successors st3))))).
    assert (Hnext : RagAgent.retryCount st3 = (RagAgent.retryCount st + 1)%Z).
    { change (RagAgent.retryCount st3)
        with (JS.numberAdd (RagAgent.retryCount st) 1).
      apply numberAdd_exact. unfold Counts.exact. lia. }
    destruct (IH k' eq_refl fuel st3 w2) as (o & ran & w' & Hrun & Htimes & Hend).
    { lia. }
    { lia. }
    { lia. }
    rewrite Hrun. eexists _, _, _; split; [reflexivity|]. split.
    + rewrite !timesRun_cons_other by discriminate.
      rewrite timesRun_cons_same. lia.
    + do 3 apply endedAfterGenerate_cons. exact Hend.
Qed.

(** The loop is bounded from any count in the exact range: [rewrite] runs
    at most [2 - retryCount] times, and the run ends. *)
Lemma rag_run_from_retrieve (k : nat) :
  forall (fuel : nat) (st : RagAgent.RAGState) (w : World),
    (- 2 ^ 53 <= RagAgent.retryCount st)%Z ->
    (2 - RagAgent.retryCount st <= Z.of_nat k)%Z -> 3 * k + 3 <= fuel ->
    exists o ran w',
      LangGraph.run fuel (RagAgent.workflow model toLowerCase)
        RagAgent.reduce "retrieve" st w = (o, ran, w')
      /\ LangGraph.timesRun "rewrite" ran <= k
      /\ RagAgent.endedAfterGenerate o ran.
Proof.
  induction k as [|k IHk]; apply rag_cycle; intros k' Hk.
  - discriminate.
  - injection Hk as <-. exact IHk.
Qed.

End RagFacts.

(** C9, as stated, fails: from a retry count that the caller's input sets
    to -1, and with a model that grades every document as irrelevant, a run
    passes through [rewrite] three times before it generates.  The bound of
    two passes does not hold for every state. *)
Lemma rag_rewrites_three_times_from_below_zero :
  (RagAgent.ragAgent (Examples.fixedModel "no") JS.ascii_toLowerCase 25
     MoreExamples.startsBelowZero tt).1.2
  = ["retrieve"; "grade"; "rewrite"; "retrieve"; "grade"; "rewrite";
     "retrieve"; "grade"; "rewrite"; "retrieve"; "grade"; "generate"]
  /\ ~ LangGraph.timesRun "rewrite"
        (RagAgent.ragAgent (Examples.fixedModel "no") JS.ascii_toLowerCase 25
           MoreExamples.startsBelowZero tt).1.2 <= 2.
Proof. split; [vm_compute; reflexivity | vm_compute; lia]. Qed.

(** C9, amended.  The rewrite loop of the RAG template is bounded for a
    retry count that starts at its default 0 or above.  [routeAfterGrade]
    answers [rewrite] only when [documents] is empty and [retryCount < 2];
    the update of [rewriteQuery] carries [retryCount: 1], which the additive
    reducer adds, so [retryCount] grows by one on every pass through
    [rewrite] as long as the count is within the range where the addition of
    numbers is exact (from [-2^53] to below [2^53]); hence, for a count that
    starts at 0 or above, a run of the graph with a budget of at least nine
    steps passes through [rewrite] at most twice, and it ends: at END right
    after [generate], unless a node throws.  This holds whatever the chat
    model answers. *)
Theorem rag_rewrite_loop_bounded_from_zero :
  forall (World : Type) (model : Messages.ChatModel World)
    (toLowerCase : string -> string),
    (forall state : RagAgent.RAGState,
       RagAgent.routeAfterGrade state = "rewrite" <->
       RagAgent.documents state = [] /\ (RagAgent.retryCount state < 2)%Z)
    /\ (forall (state : RagAgent.RAGState) (w w' : World) (u : RagAgent.RAGUpdate),
          RagAgent.rewriteQuery model state w = (Async.Fulfilled u, w') ->
          RagAgent.update_retryCount u = Some 1%Z
          /\ ((- 2 ^ 53 <= RagAgent.retryCount state < 2 ^ 53)%Z ->
              RagAgent.retryCount (RagAgent.reduce state u)
              = (RagAgent.retryCount state + 1)%Z))
    /\ (forall (state : RagAgent.RAGState) (w : World) (fuel : nat),
          (0 <= RagAgent.retryCount state)%Z -> 9 <= fuel ->
          exists (o : LangGraph.Outcome RagAgent.RAGState) (ran : list string)
                 (w' : World),
            RagAgent.ragAgent model toLowerCase fuel state w = (o, ran, w')
            /\ LangGraph.timesRun "rewrite" ran <= 2
            /\ RagAgent.endedAfterGenerate o ran).
Proof.
  intros World model toLowerCase.
  split; [apply routeAfterGrade_rewrite|].
  split.
  - intros state w w' u Hrun.
    destruct (rewriteQuery_update model _ _ _ _ Hrun) as (q & ->).
    split; [reflexivity|]. intros Hrange.
    change (JS.numberAdd (RagAgent.retryCount state) 1
            = (RagAgent.retryCount state + 1)%Z).
    apply numberAdd_exact. unfold Counts.exact. lia.
  - intros state w fuel Hcount Hfuel.
    unfold RagAgent.ragAgent, LangGraph.invoke.
    rewrite (proj1 (rag_successors model toLowerCase state)).
    apply (rag_run_from_retrieve model toLowerCase 2); simpl; lia.
Qed.

(** With a model that grades every document as irrelevant, the question of
    the usage example is rewritten twice, then answered; and each rewrite
    adds one to the count. *)
Lemma rag_rewrite_loop_bounded_from_zero_witness :
  (exists (o : LangGraph.Outcome RagAgent.RAGState) (ran : list string) (w' : unit),
     RagAgent.ragAgent (Examples.fixedModel "no") JS.ascii_toLowerCase 9
       Examples.whatIsLangGraph tt = (o, ran, w')
     /\ LangGraph.timesRun "rewrite" ran <= 2)
  /\ (exists (u : RagAgent.RAGUpdate),
        RagAgent.rewriteQuery (Examples.fixedModel "LangGraph library")
          Examples.whatIsLangGraph tt = (Async.Fulfilled u, tt)
        /\ RagAgent.retryCount (RagAgent.reduce Examples.whatIsLangGraph u) = 1%Z).
Proof.
  destruct (rag_rewrite_loop_bounded_from_zero unit (Examples.fixedModel "no")
              JS.ascii_toLowerCase) as (_ & _ & Hruns).
  destruct (rag_rewrite_loop_bounded_from_zero unit
              (Examples.fixedModel "LangGraph library")
              JS.ascii_toLowerCase) as (_ & Hadds & _).
  split.
  - destruct (Hruns Examples.whatIsLangGraph tt 9) as (o & ran & w' & Hrun & Htimes & _).
    + simpl. lia.
    + lia.
    + exists o, ran, w'. split; assumption.
  - eexists. split; [reflexivity|].
    refine (proj2 (Hadds Examples.whatIsLangGraph tt tt _ eq_refl) _).
    simpl. lia.
Defined.

Example rag_irrelevant_documents_run :
  (RagAgent.ragAgent (Examples.fixedModel "no") JS.ascii_toLowerCase 9
     Examples.whatIsLangGraph tt).1.2
  = ["retrieve"; "grade"; "rewrite"; "retrieve"; "grade"; "rewrite";
     "retrieve"; "grade"; "generate"].
Proof. vm_compute. reflexivity. Qed.

Example rag_relevant_documents_run :
  (RagAgent.ragAgent (Examples.fixedModel "Yes.") JS.ascii_toLowerCase 9
     Examples.whatIsLangGraph tt).1.2
  = ["retrieve"; "grade"; "generate"].
Proof. vm_compute. reflexivity. Qed.

(** ** The corpus *)

(** Case analysis on membership in a list written out in full. *)
Ltac in_cases H :=
  repeat (destruct H as [H | H]; [try subst|]); try contradiction.

Lemma routedFiles_listed :
  Corpus.routedFiles =
    [ "workflows/build-new-agent.md"; "workflows/add-feature.md";
      "workflows/audit-agent.md"; "workflows/debug-agent.md";
      "workflows/write-tests.md"; "workflows/optimize-agent.md" ].
Proof. vm_compute. reflexivity. Qed.

Lemma workflowRunbooks_listed :
  map (fun d => (Corpus.file d, Corpus.line d)) Corpus.workflowRunbooks =
    [ ("unnamed/part_000", 193); ("unnamed/part_004", 1);
      ("workflows/optimize-agent.md", 1); ("workflows/optimize-agent.md", 334);
      ("workflows/write-tests.md", 1); ("workflows/write-tests.md", 393) ].
Proof. vm_compute. reflexivity. Qed.

(** On the files whose names are recorded, the way documents without a name
    are told agrees with the name: the document is of the kind its directory
    asks for and its title has every word of the file name. *)
Lemma recorded_names_fit_titles :
  forall (d : Corpus.SourceDocument) (name : string),
    In d Corpus.sourceTree ->
    Corpus.recordedName d = Some name ->
    (JS.startsWith name "workflows/" || JS.startsWith name "templates/") = true ->
    Corpus.kindFits name d = true
    /\ forallb (fun w => JS.includes (JS.ascii_toLowerCase (Corpus.title d)) w)
         (Corpus.stemWords name) = true.
Proof.
  intros d name Hd. unfold Corpus.sourceTree in Hd. simpl in Hd.
  in_cases Hd; vm_compute; intros Hname; try discriminate;
    injection Hname as <-; intros Hdir; try discriminate; split; reflexivity.
Qed.

(** Of the six paths the routing table names, two are names of files of
    the tree as it is stored, and each of the two files opens with a workflow
    runbook.  The names of the documents that hold the other four runbooks
    are not recorded. *)
Lemma routed_files_stored_by_name :
  forall path : string,
    In path Corpus.routedFiles ->
    (exists d : Corpus.SourceDocument,
       In d Corpus.sourceTree /\ Corpus.recordedName d = Some path)
    <-> path = "workflows/write-tests.md" \/ path = "workflows/optimize-agent.md".
Proof.
  intros path Hpath.
  assert (Hdec :
    (exists d : Corpus.SourceDocument,
       In d Corpus.sourceTree /\ Corpus.recordedName d = Some path)
    <-> existsb (fun d => bool_decide (Corpus.recordedName d = Some path))
          Corpus.sourceTree = true).
  { rewrite existsb_exists.
    split; intros (d & Hd & Hname); exists d; (split; [exact Hd|]).
    - apply bool_decide_eq_true_2. exact Hname.
    - apply bool_decide_eq_true_1 in Hname. exact Hname. }
  rewrite Hdec. rewrite routedFiles_listed in Hpath. simpl in Hpath.
  in_cases Hpath; vm_compute; split; intros H; auto; try discriminate;
    destruct H as [H | H]; discriminate.
Qed.

(** C2.  The repository holds six workflow runbooks, one for each of the
    categories build, add-feature, audit, debug, test and optimize, as the
    workflows index of SKILL.md lists them: the index has six entries, each
    category names exactly one of them, that entry leads to exactly one
    document of the tree, the six documents so found are distinct, and they
    are all the workflow runbooks of the tree. *)
Theorem six_workflow_runbooks :
  length Corpus.workflowsIndex = 6
  /\ length Corpus.workflowRunbooks = 6
  /\ NoDup Corpus.workflowRunbooks
  /\ (forall category : string,
        In category Corpus.categories ->
        exists (name : string) (d : Corpus.SourceDocument),
          Corpus.indexEntriesFor category = [name]
          /\ Corpus.runbooksOf category = [d]
          /\ In d Corpus.workflowRunbooks)
  /\ NoDup (flat_map Corpus.indexEntriesFor Corpus.categories)
  /\ NoDup (flat_map Corpus.runbooksOf Corpus.categories)
  /\ (forall d : Corpus.SourceDocument,
        In d Corpus.workflowRunbooks ->
        In d (flat_map Corpus.runbooksOf Corpus.categories)).
Proof.
  split; [reflexivity|].
  split; [vm_compute; reflexivity|].
  split; [compute_done|].
  split.
  - intros category Hc. unfold Corpus.categories in Hc. simpl in Hc.
    in_cases Hc; eexists _, _;
      (split; [vm_compute; reflexivity|]);
      (split; [vm_compute; reflexivity|]);
      vm_compute; tauto.
  - split; [compute_done|].
    split; [compute_done|].
    intros d Hd.
    apply list_elem_of_In. apply list_elem_of_In in Hd.
    revert d Hd. apply Forall_forall.
    compute_done.
Qed.

Lemma six_workflow_runbooks_witness :
  exists d : Corpus.SourceDocument,
    Corpus.runbooksOf "test" = [d]
    /\ Corpus.title d = "# Workflow: Write Tests for a LangGraph.js Agent".
Proof.
  destruct six_workflow_runbooks as (_ & _ & _ & Hcat & _).
  destruct (Hcat "test") as (name & d & _ & Hd & _).
  - unfold Corpus.categories. simpl. tauto.
  - exists d. split; [exact Hd|].
    assert (Heq : [d] = [Corpus.mkSourceDocument "workflows/write-tests.md" 1
                           ["# Workflow: Write Tests for a LangGraph.js Agent"]]).
    { rewrite <- Hd. vm_compute. reflexivity. }
    injection Heq as ->. reflexivity.
Defined.

(** C6.  The routing table of SKILL.md maps intents to workflow files.  The
    intake offers the options 1 to 7.  For each option from 1 to 6 one row of
    the table lists it, the row names one markdown file under [workflows/],
    and the option and every word listed with it are assigned exactly that
    file and no other ([build], [debug] and [optimize] among them).  Option 7
    and [other] are assigned no file, and a row without a file is the row of
    option 7. *)
Theorem routing_assigns_one_workflow_file :
  map fst Corpus.intake = [1; 2; 3; 4; 5; 6; 7]
  /\ (forall n : nat,
        1 <= n <= 6 ->
        exists (row : Corpus.RoutingRow) (path : string),
          Corpus.rowsFor (Corpus.Option_ n) = [row]
          /\ Corpus.workflowFile row = Some path
          /\ Corpus.isWorkflowPath path = true
          /\ (forall r : Corpus.Response,
                In r (Corpus.responses row) -> Corpus.route r = [Some path]))
  /\ Corpus.route (Corpus.Word "build") = [Some "workflows/build-new-agent.md"]
  /\ Corpus.route (Corpus.Word "debug") = [Some "workflows/debug-agent.md"]
  /\ Corpus.route (Corpus.Word "optimize") = [Some "workflows/optimize-agent.md"]
  /\ Corpus.route (Corpus.Option_ 7) = [None]
  /\ Corpus.route Corpus.Other = [None]
  /\ (forall row : Corpus.RoutingRow,
        In row Corpus.routing ->
        Corpus.workflowFile row = None ->
        Corpus.responses row = [Corpus.Option_ 7; Corpus.Other]).
Proof.
  split; [reflexivity|].
  split.
  - intros n Hn.
    assert (Hcases : n = 1 \/ n = 2 \/ n = 3 \/ n = 4 \/ n = 5 \/ n = 6) by lia.
    destruct Hcases as [-> | [-> | [-> | [-> | [-> | ->]]]]];
      eexists _, _;
      (split; [vm_compute; reflexivity|]);
      (split; [vm_compute; reflexivity|]);
      (split; [vm_compute; reflexivity|]);
      intros r Hr; simpl in Hr; in_cases Hr; vm_compute; reflexivity.
  - repeat (split; [vm_compute; reflexivity|]).
    intros row Hrow. unfold Corpus.routing in Hrow. simpl in Hrow.
    in_cases Hrow; vm_compute; intros Hnone; try discriminate; reflexivity.
Qed.

Lemma routing_assigns_one_workflow_file_witness :
  Corpus.route (Corpus.Word "fix") = [Some "workflows/debug-agent.md"].
Proof.
  destruct routing_assigns_one_workflow_file as (_ & Hoptions & _).
  destruct (Hoptions 4) as (row & path & Hrow & Hfile & _ & Hwords); [lia|].
  assert (Heq : [row] = [Corpus.mkRoutingRow
                    [Corpus.Option_ 4; Corpus.Word "debug"; Corpus.Word "fix";
                     Corpus.Word "broken"; Corpus.Word "error"; Corpus.Word "bug";
                     Corpus.Word "issue"]
                    "`workflows/debug-agent.md`"]).
  { rewrite <- Hrow. vm_compute. reflexivity. }
  injection Heq as ->.
  rewrite (Hwords (Corpus.Word "fix")) by (simpl; tauto).
  vm_compute in Hfile. injection Hfile as <-. reflexivity.
Defined.

Lemma templates_listed :
  map fst Corpus.templatesIndex = ["basic-agent.ts"; "rag-agent.ts"; "multi-agent.ts"].
Proof. reflexivity. Qed.

Lemma templateOf_rag_agent :
  Corpus.templateOf "rag-agent.ts" =
    [Corpus.mkSourceDocument "unnamed/part_000" 1
       ["/**";
        " * RAG Agent Template";
        " *";
        " * Retrieval-Augmented Generation agent that:";
        " * 1. Retrieves relevant documents";
        " * 2. Grades them for relevance";
        " * 3. Generates answer or rewrites query";
        " */"]].
Proof. vm_compute. reflexivity. Qed.

(** C7, as stated, fails: the header comment of the RAG template says
    [Template] but tells neither to copy nor to customize. *)
Lemma rag_header_has_no_copy_and_customize :
  In "rag-agent.ts" (map fst Corpus.templatesIndex)
  /\ ~ Corpus.markedCopyAndCustomize "rag-agent.ts".
Proof.
  split; [simpl; tauto|].
  intros (d & Hd & _ & Hcopy).
  rewrite templateOf_rag_agent in Hd. injection Hd as <-.
  vm_compute in Hcopy. discriminate.
Qed.

(** C7, amended.  Each of the three template files (basic-agent, rag-agent,
    multi-agent) is marked as a template in its header comment.  Of the
    three, only basic-agent carries a copy-and-customize instruction, the
    line [Copy this file and customize for your use case.]; the headers of
    rag-agent and multi-agent speak neither of copying nor of customizing. *)
Theorem templates_marked_in_header :
  map fst Corpus.templatesIndex = ["basic-agent.ts"; "rag-agent.ts"; "multi-agent.ts"]
  /\ (forall name : string,
        In name (map fst Corpus.templatesIndex) ->
        exists d : Corpus.SourceDocument,
          Corpus.templateOf name = [d]
          /\ Corpus.isTemplate d = true
          /\ (Corpus.hasCopyAndCustomize d = true <-> name = "basic-agent.ts")
          /\ (name <> "basic-agent.ts" ->
              existsb Corpus.mentionsCopyOrCustomize (Corpus.opening d) = false))
  /\ (exists d : Corpus.SourceDocument,
        Corpus.templateOf "basic-agent.ts" = [d]
        /\ In " * Copy this file and customize for your use case." (Corpus.opening d)).
Proof.
  split; [exact templates_listed|].
  split.
  - intros name Hname. rewrite templates_listed in Hname. simpl in Hname.
    in_cases Hname; eexists;
      (split; [vm_compute; reflexivity|]);
      (split; [vm_compute; reflexivity|]);
      (split; [vm_compute; split; congruence|]);
      intros Hne; try congruence; vm_compute; reflexivity.
  - eexists. split; [vm_compute; reflexivity|]. simpl. tauto.
Qed.

Lemma templates_marked_in_header_witness :
  exists d : Corpus.SourceDocument,
    Corpus.templateOf "multi-agent.ts" = [d]
    /\ Corpus.isTemplate d = true
    /\ existsb Corpus.mentionsCopyOrCustomize (Corpus.opening d) = false.
Proof.
  destruct templates_marked_in_header as (_ & Hall & _).
  destruct (Hall "multi-agent.ts") as (d & Hd & Htemplate & _ & Hnone).
  - simpl. tauto.
  - exists d. split; [exact Hd|]. split; [exact Htemplate|].
    apply Hnone. discriminate.
Defined.

(** ** Runs of the multi-agent template *)

Lemma endedAfterFinalize_cons (o : LangGraph.Outcome MultiAgent.MultiAgentState)
  (n : string) (ran : list string) :
  MultiAgent.endedAfterFinalize o ran -> MultiAgent.endedAfterFinalize o (n :: ran).
Proof.
  destruct o; simpl; try tauto.
  destruct ran as [|m ran]; [discriminate|]. rewrite last_cons_cons. tauto.
Qed.

Section MultiAgentRunFacts.
Context {World : Type}.
Variables supervisorModel workerModel : Messages.ChatModel World.
Variables toLowerCase trim : string -> string.

Lemma multiAgent_successors (state : MultiAgent.MultiAgentState) :
  let g := MultiAgent.workflow supervisorModel workerModel toLowerCase trim in
  LangGraph.successors g LangGraph.START state = ["supervisor"]
  /\ LangGraph.successors g "supervisor" state
     = [MultiAgent.routeFromSupervisor toLowerCase state]
  /\ LangGraph.successors g "researcher" state = ["supervisor"]
  /\ LangGraph.successors g "writer" state = ["supervisor"]
  /\ LangGraph.successors g "finalize" state = [LangGraph.END].
Proof. repeat split; reflexivity. Qed.

Lemma multiAgent_nodeFunction :
  let g := MultiAgent.workflow supervisorModel workerModel toLowerCase trim in
  LangGraph.nodeFunction g "supervisor"
    = Some (MultiAgent.supervisor supervisorModel toLowerCase trim)
  /\ LangGraph.nodeFunction g "researcher" = Some (MultiAgent.researcher workerModel)
  /\ LangGraph.nodeFunction g "writer" = Some (MultiAgent.writer workerModel)
  /\ LangGraph.nodeFunction g "finalize" = Some MultiAgent.finalize.
Proof. repeat split; reflexivity. Qed.

(** What each node writes to [iterations]. *)
Lemma supervisor_update (state : MultiAgent.MultiAgentState) (w w' : World)
  (u : MultiAgent.MultiAgentUpdate) :
  MultiAgent.supervisor supervisorModel toLowerCase trim state w
    = (Async.Fulfilled u, w') ->
  MultiAgent.update_iterations u = Some 1%Z
  /\ MultiAgent.iterations (MultiAgent.reduce state u)
     = JS.numberAdd (MultiAgent.iterations state) 1.
Proof.
  unfold MultiAgent.supervisor, Async.bind, Async.ret.
  destruct (supervisorModel _ _) as [[response|e] w1]; intros H.
  - injection H as <- _. split; reflexivity.
  - discriminate.
Qed.

Lemma researcher_update (state : MultiAgent.MultiAgentState) (w w' : World)
  (u : MultiAgent.MultiAgentUpdate) :
  MultiAgent.researcher workerModel state w = (Async.Fulfilled u, w') ->
  MultiAgent.iterations (MultiAgent.reduce state u) = MultiAgent.iterations state.
Proof.
  unfold MultiAgent.researcher, Async.bind, Async.ret.
  destruct (workerModel _ _) as [[response|e] w1]; intros H.
  - injection H as <- _. reflexivity.
  - discriminate.
Qed.

Lemma writer_update (state : MultiAgent.MultiAgentState) (w w' : World)
  (u : MultiAgent.MultiAgentUpdate) :
  MultiAgent.writer workerModel state w = (Async.Fulfilled u, w') ->
  MultiAgent.iterations (MultiAgent.reduce state u) = MultiAgent.iterations state.
Proof.
  unfold MultiAgent.writer, Async.bind, Async.ret.
  destruct (workerModel _ _) as [[response|e] w1]; intros H.
  - injection H as <- _. reflexivity.
  - discriminate.
Qed.

(** A worker ran and the run went on from [supervisor]: the count of
    supervisor passes and the way the run ended carry over. *)
Lemma after_worker (worker : string) (k : nat)
  (o : LangGraph.Outcome MultiAgent.MultiAgentState) (ran : list string) :
  worker <> "supervisor" ->
  LangGraph.timesRun "supervisor" ran <= S k ->
  MultiAgent.endedAfterFinalize o ran ->
  LangGraph.timesRun "supervisor" ("supervisor" :: worker :: ran) <= S (S k)
  /\ MultiAgent.endedAfterFinalize o ("supervisor" :: worker :: ran).
Proof.
  intros Hworker Htimes Hend. split.
  - rewrite timesRun_cons_same, timesRun_cons_other by exact Hworker. lia.
  - do 2 apply endedAfterFinalize_cons. exact Hend.
Qed.

End MultiAgentRunFacts.

Section MultiAgentLoop.
Context {World : Type}.
Variables supervisorModel workerModel : Messages.ChatModel World.
Variables toLowerCase trim : string -> string.

(** One pass through [supervisor]: given the bound for the passes that follow
    a worker, the bound for this one. *)
Lemma multiAgent_cycle (k : nat)
  (IH : forall k' : nat, k = S k' ->
        forall (fuel : nat) (st : MultiAgent.MultiAgentState) (w : World),
          (- 2 ^ 53 <= MultiAgent.iterations st)%Z ->
          (10 - MultiAgent.iterations st <= Z.of_nat k')%Z -> 2 * k' + 2 <= fuel ->
          exists o ran w',
            LangGraph.run fuel
              (MultiAgent.workflow supervisorModel workerModel toLowerCase trim)
              MultiAgent.reduce "supervisor" st w = (o, ran, w')
            /\ LangGraph.timesRun "supervisor" ran <= S k'
            /\ MultiAgent.endedAfterFinalize o ran) :
  forall (fuel : nat) (st : MultiAgent.MultiAgentState) (w : World),
    (- 2 ^ 53 <= MultiAgent.iterations st)%Z ->
    (10 - MultiAgent.iterations st <= Z.of_nat k)%Z -> 2 * k + 2 <= fuel ->
    exists o ran w',
      LangGraph.run fuel
        (MultiAgent.workflow supervisorModel workerModel toLowerCase trim)
        MultiAgent.reduce "supervisor" st w = (o, ran, w')
      /\ LangGraph.timesRun "supervisor" ran <= S k
      /\ MultiAgent.endedAfterFinalize o ran.
Proof.
  intros fuel st w Hlow Hi Hfuel.
  destruct (multiAgent_nodeFunction supervisorModel workerModel toLowerCase trim)
    as (Fsupervisor & Fresearcher & Fwriter & Ffinalize).
  destruct fuel as [|[|fuel]]; [lia | lia |].
  (* supervisor *)
  erewrite run_node; [| discriminate | exact Fsupervisor].
  destruct (MultiAgent.supervisor supervisorModel toLowerCase trim st w)
    as [[u|e] w1] eqn:Hsupervisor;
    [| eexists _, _, _; split; [reflexivity|]; split; [|exact I];
       rewrite timesRun_cons_same, timesRun_nil; lia ].
  destruct (supervisor_update _ _ _ _ _ _ _ Hsupervisor) as [_ Hcount].
  set (st1 := MultiAgent.reduce st u) in *.
  rewrite (proj1 (proj2 (multiAgent_successors _ _ _ _ st1))).
  destruct (routeFromSupervisor_cases toLowerCase st1) as [Hroute | [Hroute | Hroute]];
    rewrite Hroute.
  - (* researcher *)
    assert (Hlimit : (MultiAgent.iterations st1 <= 10)%Z).
    { destruct (Z.le_gt_cases (MultiAgent.iterations st1) 10) as [H | H]; [exact H|].
      rewrite (routeFromSupervisor_limit toLowerCase st1 H) in Hroute. discriminate. }
    rewrite Hcount in Hlimit.
    pose proof (numberAdd_one_small _ Hlow Hlimit) as Hexact.
    rewrite Hexact in Hcount, Hlimit.
    destruct k as [|k']; [lia|].
    erewrite run_node; [| discriminate | exact Fresearcher].
    destruct (MultiAgent.researcher workerModel st1 w1) as [[u2|e] w2] eqn:Hworker;
      [| eexists _, _, _; split; [reflexivity|]; split; [|exact I];
         rewrite timesRun_cons_same, timesRun_cons_other, timesRun_nil by discriminate;
         lia ].
    apply researcher_update in Hworker.
    rewrite (proj1 (proj2 (proj2 (multiAgent_successors _ _ _ _ _)))).
    destruct (IH k' eq_refl fuel (MultiAgent.reduce st1 u2) w2)
      as (o & ran & w' & Hrun & Htimes & Hend); [lia | lia | lia |].
    rewrite Hrun. eexists _, _, _; split; [reflexivity|].
    apply after_worker; [discriminate | exact Htimes | exact Hend].
  - (* writer *)
    assert (Hlimit : (MultiAgent.iterations st1 <= 10)%Z).
    { destruct (Z.le_gt_cases (MultiAgent.iterations st1) 10) as [H | H]; [exact H|].
      rewrite (routeFromSupervisor_limit toLowerCase st1 H) in Hroute. discriminate. }
    rewrite Hcount in Hlimit.
    pose proof (numberAdd_one_small _ Hlow Hlimit) as Hexact.
    rewrite Hexact in Hcount, Hlimit.
    destruct k as [|k']; [lia|].
    erewrite run_node; [| discriminate | exact Fwriter].
    destruct (MultiAgent.writer workerModel st1 w1) as [[u2|e] w2] eqn:Hworker;
      [| eexists _, _, _; split; [reflexivity|]; split; [|exact I];
         rewrite timesRun_cons_same, timesRun_cons_other, timesRun_nil by discriminate;
         lia ].
    apply writer_update in Hworker.
    rewrite (proj1 (proj2 (proj2 (proj2 (multiAgent_successors _ _ _ _ _))))).
    destruct (IH k' eq_refl fuel (MultiAgent.reduce st1 u2) w2)
      as (o & ran & w' & Hrun & Htimes & Hend); [lia | lia | lia |].
    rewrite Hrun. eexists _, _, _; split; [reflexivity|].
    apply after_worker; [discriminate | exact Htimes | exact Hend].
  - (* finalize *)
    erewrite run_node; [| discriminate | exact Ffinalize].
    unfold MultiAgent.finalize at 1, Async.ret.
    rewrite (proj2 (proj2 (proj2 (proj2 (multiAgent_successors _ _ _ _ _))))), run_at_END.
    eexists _, _, _; split; [reflexivity|]. split; [|reflexivity].
    rewrite timesRun_cons_same, timesRun_cons_other, timesRun_nil by discriminate. lia.
Qed.

Lemma multiAgent_run_from_supervisor (k : nat) :
  forall (fuel : nat) (st : MultiAgent.MultiAgentState) (w : World),
    (- 2 ^ 53 <= MultiAgent.iterations st)%Z ->
    (10 - MultiAgent.iterations st <= Z.of_nat k)%Z -> 2 * k + 2 <= fuel ->
    exists o ran w',
      LangGraph.run fuel
        (MultiAgent.workflow supervisorModel workerModel toLowerCase trim)
        MultiAgent.reduce "supervisor" st w = (o, ran, w')
      /\ LangGraph.timesRun "supervisor" ran <= S k
      /\ MultiAgent.endedAfterFinalize o ran.
Proof.
  induction k as [|k IHk]; apply multiAgent_cycle; intros k' Hk.
  - discriminate.
  - injection Hk as <-. exact IHk.
Qed.

End MultiAgentLoop.

(** X1.  The supervisor loop of the multi-agent template is bounded by the
    safety limit.  [supervisor] adds one to [iterations] on every pass and
    [routeFromSupervisor] answers [finalize] once [iterations > 10]; so, for a
    count that starts at its default 0 or above, a run passes through
    [supervisor] at most eleven times, and it ends: at END right after
    [finalize], unless a node throws.  This holds whatever the chat models
    answer. *)
Theorem multiAgent_loop_bounded :
  forall (World : Type) (supervisorModel workerModel : Messages.ChatModel World)
    (toLowerCase trim : string -> string)
    (state : MultiAgent.MultiAgentState) (w : World) (fuel : nat),
    (0 <= MultiAgent.iterations state)%Z -> 22 <= fuel ->
    exists (o : LangGraph.Outcome MultiAgent.MultiAgentState) (ran : list string)
           (w' : World),
      MultiAgent.multiAgent supervisorModel workerModel toLowerCase trim fuel state w
        = (o, ran, w')
      /\ LangGraph.timesRun "supervisor" ran <= 11
      /\ MultiAgent.endedAfterFinalize o ran.
Proof.
  intros World supervisorModel workerModel toLowerCase trim state w fuel Hcount Hfuel.
  unfold MultiAgent.multiAgent, LangGraph.invoke.
  rewrite (proj1 (multiAgent_successors supervisorModel workerModel toLowerCase trim state)).
  apply (multiAgent_run_from_supervisor supervisorModel workerModel toLowerCase trim 10);
    simpl; lia.
Qed.

(** A supervisor that always asks for the researcher is stopped after its
    eleventh pass. *)
Lemma multiAgent_loop_bounded_witness :
  exists (o : LangGraph.Outcome MultiAgent.MultiAgentState) (ran : list string)
         (w' : unit),
    MultiAgent.multiAgent (Examples.fixedModel "researcher")
      (Examples.fixedModel "notes") JS.ascii_toLowerCase (fun s => s) 22
      Examples.writeBlogPost tt = (o, ran, w')
    /\ LangGraph.timesRun "supervisor" ran <= 11.
Proof.
  destruct (multiAgent_loop_bounded unit (Examples.fixedModel "researcher")
              (Examples.fixedModel "notes") JS.ascii_toLowerCase (fun s => s)
              Examples.writeBlogPost tt 22) as (o & ran & w' & Hrun & Htimes & _).
  - simpl. lia.
  - lia.
  - exists o, ran, w'. split; assumption.
Defined.

Example multiAgent_always_researcher_run :
  LangGraph.timesRun "supervisor"
    (MultiAgent.multiAgent (Examples.fixedModel "researcher")
       (Examples.fixedModel "notes") JS.ascii_toLowerCase (fun s => s) 22
       Examples.writeBlogPost tt).1.2 = 11
  /\ last
       (MultiAgent.multiAgent (Examples.fixedModel "researcher")
          (Examples.fixedModel "notes") JS.ascii_toLowerCase (fun s => s) 22
          Examples.writeBlogPost tt).1.2 = Some "finalize".
Proof. split; vm_compute; reflexivity. Qed.

(** X2.  From a retry count of [-2^53] or above, where the sums of counts
    are exact, the RAG graph passes through [rewrite] at most
    [2 - retryCount] times (not at all when [retryCount >= 2]) and the run
    ends, given a budget of three steps per pass and three more.  (The
    library's default budget of 25 steps is enough for a count of -5 or
    above.) *)
Theorem rag_rewrite_passes_bounded_by_count :
  forall (World : Type) (model : Messages.ChatModel World)
    (toLowerCase : string -> string)
    (state : RagAgent.RAGState) (w : World) (fuel : nat),
    (- 2 ^ 53 <= RagAgent.retryCount state)%Z ->
    3 * Z.to_nat (2 - RagAgent.retryCount state) + 3 <= fuel ->
    exists (o : LangGraph.Outcome RagAgent.RAGState) (ran : list string) (w' : World),
      RagAgent.ragAgent model toLowerCase fuel state w = (o, ran, w')
      /\ LangGraph.timesRun "rewrite" ran <= Z.to_nat (2 - RagAgent.retryCount state)
      /\ RagAgent.endedAfterGenerate o ran.
Proof.
  intros World model toLowerCase state w fuel Hlow Hfuel.
  unfold RagAgent.ragAgent, LangGraph.invoke.
  rewrite (proj1 (rag_successors model toLowerCase state)).
  apply (rag_run_from_retrieve model toLowerCase); [exact Hlow | lia | exact Hfuel].
Qed.

(** From a count of -1 the budget of twelve steps allows the three rewrites
    that can happen. *)
Lemma rag_rewrite_passes_bounded_by_count_witness :
  exists (o : LangGraph.Outcome RagAgent.RAGState) (ran : list string) (w' : unit),
    RagAgent.ragAgent (Examples.fixedModel "no") JS.ascii_toLowerCase 12
      MoreExamples.startsBelowZero tt = (o, ran, w')
    /\ LangGraph.timesRun "rewrite" ran <= 3.
Proof.
  destruct (rag_rewrite_passes_bounded_by_count unit (Examples.fixedModel "no")
              JS.ascii_toLowerCase MoreExamples.startsBelowZero tt 12)
    as (o & ran & w' & Hrun & Htimes & _).
  - simpl. lia.
  - simpl. lia.
  - exists o, ran, w'. split; [exact Hrun | exact Htimes].
Defined.

(* ===================================================================== *)
(** * Part III: further properties of the templates                       *)
(* ===================================================================== *)

(** ** The tool table of the basic agent *)

Section ToolTable.
Context {A : Type}.

Lemma fromEntries_lookup_absent (entries : list (string * A))
  (o : gmap string A) (k : string) :
  ~ In k (map fst entries) ->
  foldl (fun o kv => <[kv.1 := kv.2]> o) o entries !! k = o !! k.
Proof.
  revert o. induction entries as [|[k' a] entries IH]; intros o Hk; simpl in *.
  - reflexivity.
  - rewrite IH by tauto. apply lookup_insert_ne. tauto.
Qed.

Lemma fromEntries_lookup_Some (entries : list (string * A))
  (o : gmap string A) (k : string) (a : A) :
  foldl (fun o kv => <[kv.1 := kv.2]> o) o entries !! k = Some a ->
  o !! k = Some a \/ In (k, a) entries.
Proof.
  revert o. induction entries as [|[k' a'] entries IH]; intros o H; simpl in *.
  - left. exact H.
  - destruct (IH _ H) as [Ho | Hin]; [|tauto].
    destruct (decide (k' = k)) as [->|Hne].
    + rewrite lookup_insert_eq in Ho. injection Ho as ->. tauto.
    + rewrite lookup_insert_ne in Ho by exact Hne. tauto.
Qed.

End ToolTable.

(** X3.  [toolsByName] finds the last tool registered under a name: when the
    tools after [tool] in the list bear other names, looking up the name of
    [tool] gives [tool], whatever comes before it (a tool of the same name
    earlier in the list is shadowed). *)
Theorem toolsByName_finds_last_registered :
  forall (World : Type) (before after : list (BasicAgent.StructuredTool World))
    (tool : BasicAgent.StructuredTool World),
    ~ In (BasicAgent.tool_name tool) (map BasicAgent.tool_name after) ->
    JS.get (BasicAgent.toolsByName (before ++ tool :: after))
      (BasicAgent.tool_name tool) = JS.Own tool.
Proof.
  intros World before after tool Hafter.
  unfold JS.get, BasicAgent.toolsByName, JS.fromEntries.
  rewrite map_app, foldl_app. cbn [map foldl fst snd].
  rewrite fromEntries_lookup_absent.
  - rewrite lookup_insert_eq. reflexivity.
  - rewrite map_map. exact Hafter.
Qed.

Lemma toolsByName_finds_last_registered_witness :
  JS.get (BasicAgent.toolsByName
            [MoreExamples.firstSearch; MoreExamples.secondSearch;
             BasicAgent.exampleTool Examples.parsingError])
    "search" = JS.Own MoreExamples.secondSearch.
Proof.
  apply (toolsByName_finds_last_registered unit
           [MoreExamples.firstSearch] [BasicAgent.exampleTool Examples.parsingError]
           MoreExamples.secondSearch).
  simpl. intros [H | H]; [discriminate | exact H].
Defined.

(** ** Tool calls and their answers *)

Section ToolAnswers.
Context {World : Type}.
Variable tools : list (BasicAgent.StructuredTool World).

(** What a lookup finds is a tool of the list, and it bears the name. *)
Lemma toolsByName_Own (toolName : string) (tool : BasicAgent.StructuredTool World) :
  JS.get (BasicAgent.toolsByName tools) toolName = JS.Own tool ->
  In tool tools /\ BasicAgent.tool_name tool = toolName.
Proof.
  unfold JS.get, BasicAgent.toolsByName, JS.fromEntries.
  destruct (foldl _ _ _ !! toolName) as [t|] eqn:E.
  - intros H. injection H as ->.
    apply fromEntries_lookup_Some in E as [E | E].
    + rewrite lookup_empty in E. discriminate.
    + apply in_map_iff in E as (t & Ht & Hin). injection Ht as <- <-. tauto.
  - case_bool_decide; discriminate.
Qed.

(** When every tool answers a call that carries an id with a tool message
    for that id, so does every answer of [callTools] to such calls. *)
Lemma Answered_ids (toolCalls : list Messages.ToolCall) (w w' : World)
  (answers : list Messages.BaseMessage) :
  (forall tool toolCall callId w0 result w1,
     In tool tools ->
     Messages.id toolCall = Some callId ->
     BasicAgent.tool_invoke tool toolCall w0 = (Async.Fulfilled result, w1) ->
     MessageFields.toolCallIdOf result = Some (Some callId)) ->
  Forall (fun toolCall => Messages.id toolCall <> None) toolCalls ->
  BasicAgent.Answered tools toolCalls w answers w' ->
  map MessageFields.toolCallIdOf answers
  = map (fun toolCall => Some (Messages.id toolCall)) toolCalls.
Proof.
  intros Htools Hids Hanswered.
  induction Hanswered
    as [| toolCall rest w answers w' Hget _ IH
        | toolCall rest w result w1 answers w' Hget Hinvoke _ IH
        | toolCall rest w error w1 answers w' Hget Hinvoke _ IH ];
    [reflexivity | | |];
    apply Forall_cons in Hids as [Hid Hids]; simpl;
    rewrite (IH Hids); [reflexivity | | reflexivity].
  f_equal.
  destruct (Messages.id toolCall) as [callId|] eqn:Hcall; [|contradiction].
  destruct (JS.get (BasicAgent.toolsByName tools) (Messages.name toolCall))
    as [tool| |] eqn:Hfound; simpl in Hinvoke.
  - apply toolsByName_Own in Hfound as [Hin _]. eapply Htools; eassumption.
  - discriminate.
  - contradiction.
Qed.

End ToolAnswers.

(** X4.  The answers of [callTools] carry the ids of the calls, in the order
    of the calls.  For tool calls that all carry an id, and tools that answer
    a call carrying an id with a tool message for that id (as a tool built by
    [tool] from a function that returns a text does), the returned messages
    are tool messages whose [tool_call_id]s are the ids of [tool_calls], one
    by one; the unknown-tool and the error answers always are. *)
Theorem callTools_answers_carry_call_ids :
  forall (World : Type) (tools : list (BasicAgent.StructuredTool World))
    (state : BasicAgent.AgentState) (lastMessage : Messages.BaseMessage) (w : World),
    (forall tool toolCall callId w0 result w1,
       In tool tools ->
       Messages.id toolCall = Some callId ->
       BasicAgent.tool_invoke tool toolCall w0 = (Async.Fulfilled result, w1) ->
       MessageFields.toolCallIdOf result = Some (Some callId)) ->
    last (BasicAgent.messages state) = Some lastMessage ->
    Messages.isAIMessage lastMessage = true ->
    Forall (fun toolCall => Messages.id toolCall <> None)
      (default [] (Messages.tool_calls lastMessage)) ->
    exists (update : BasicAgent.AgentUpdate) (w' : World),
      BasicAgent.callTools tools state w = (Async.Fulfilled update, w')
      /\ map MessageFields.toolCallIdOf (BasicAgent.update_messages update)
         = map (fun toolCall => Some (Messages.id toolCall))
             (default [] (Messages.tool_calls lastMessage)).
Proof.
  intros World tools state lastMessage w Htools Hlast Hai Hids.
  unfold BasicAgent.callTools. rewrite Hlast, Hai. simpl.
  destruct (forEachToolCall_answered tools
              (default [] (Messages.tool_calls lastMessage)) [] w)
    as (answers & w' & Hrun & Hans).
  exists (BasicAgent.mkAgentUpdate answers), w'. split.
  - unfold Async.bind. rewrite Hrun. reflexivity.
  - simpl. eapply Answered_ids; eassumption.
Qed.

Lemma callTools_answers_carry_call_ids_witness :
  exists (update : BasicAgent.AgentUpdate) (w' : unit),
    BasicAgent.callTools (BasicAgent.exampleTools Examples.parsingError)
      Examples.askingForTools tt
      = (Async.Fulfilled update, w')
    /\ map MessageFields.toolCallIdOf (BasicAgent.update_messages update)
       = [Some (Some "call_1"); Some (Some "call_2"); Some (Some "call_3")].
Proof.
  apply (callTools_answers_carry_call_ids unit
           (BasicAgent.exampleTools Examples.parsingError)
           Examples.askingForTools
           (Messages.AIMessage "" (Some Examples.threeCalls)) tt).
  - intros tool toolCall callId w0 result w1 Hin Hid Hinvoke.
    destruct Hin as [<- | []]. simpl in Hinvoke.
    destruct (Messages.args toolCall !! "query"); [|discriminate].
    rewrite Hid in Hinvoke. injection Hinvoke as <- _. reflexivity.
  - reflexivity.
  - reflexivity.
  - repeat constructor; discriminate.
Defined.




(** ** Runs that reach END *)

Section RunInduction.
Context {World State Update : Type}.
Variable g : LangGraph.StateGraph State (State -> Async.Async World Update).
Variable reduce : State -> Update -> State.

(** To show that [Q] relates the node and state a run starts at to the state
    it finishes in and the nodes that ran, show it at END and through one
    step of a node that fulfils. *)
Lemma run_finished_ind (Q : string -> State -> State -> list string -> Prop)
  (Hend : forall st : State, Q LangGraph.END st st [])
  (Hstep : forall n fn st w u w' m st' ran,
      n <> LangGraph.END ->
      LangGraph.nodeFunction g n = Some fn ->
      fn st w = (Async.Fulfilled u, w') ->
      LangGraph.successors g n (reduce st u) = [m] ->
      Q m (reduce st u) st' ran ->
      Q n st st' (n :: ran)) :
  forall (fuel : nat) (n : string) (st : State) (w : World)
    (st' : State) (ran : list string) (w' : World),
    LangGraph.run fuel g reduce n st w = (LangGraph.Finished st', ran, w') ->
    Q n st st' ran.
Proof.
  induction fuel as [|fuel IH]; intros n st w st' ran w' Hrun.
  - cbn [LangGraph.run] in Hrun. case_bool_decide as Hn; [|discriminate].
    injection Hrun as <- <- _. subst n. apply Hend.
  - destruct (decide (n = LangGraph.END)) as [->|Hn].
    + rewrite run_at_END in Hrun. injection Hrun as <- <- _. apply Hend.
    + cbn [LangGraph.run] in Hrun.
      rewrite bool_decide_eq_false_2 in Hrun by exact Hn.
      destruct (LangGraph.nodeFunction g n) as [fn|] eqn:Hfn; [|discriminate].
      destruct (fn st w) as [[u|e] w1] eqn:Hnode; [|discriminate].
      destruct (LangGraph.successors g n (reduce st u)) as [|m [|m' rest]] eqn:Hsucc;
        try discriminate.
      destruct (LangGraph.run fuel g reduce m (reduce st u) w1)
        as [[o ran1] w2] eqn:Hrest.
      injection Hrun as -> <- _.
      eapply Hstep; eauto.
Qed.

End RunInduction.

(** ** Runs of the basic agent *)

Section BasicAgentRuns.
Context {World : Type}.
Variable model : Messages.ChatModel World.
Variable tools : list (BasicAgent.StructuredTool World).

Lemma basicAgent_successors (state : BasicAgent.AgentState) :
  let g := BasicAgent.workflow model tools in
  LangGraph.successors g LangGraph.START state = ["agent"]
  /\ LangGraph.successors g "agent" state = [BasicAgent.shouldContinue state]
  /\ LangGraph.successors g "tools" state = ["agent"].
Proof. repeat split; reflexivity. Qed.

Lemma basicAgent_nodeFunction :
  let g := BasicAgent.workflow model tools in
  LangGraph.nodeFunction g "agent" = Some (BasicAgent.callModel model)
  /\ LangGraph.nodeFunction g "tools" = Some (BasicAgent.callTools tools).
Proof. split; reflexivity. Qed.

Lemma basicAgent_nodes (n : string)
  (fn : BasicAgent.AgentState -> Async.Async World BasicAgent.AgentUpdate) :
  LangGraph.nodeFunction (BasicAgent.workflow model tools) n = Some fn ->
  (n = "agent" /\ fn = BasicAgent.callModel model)
  \/ (n = "tools" /\ fn = BasicAgent.callTools tools).
Proof.
  unfold LangGraph.nodeFunction. cbn [BasicAgent.workflow LangGraph.nodes
    LangGraph.addNode LangGraph.addEdge LangGraph.addConditionalEdges
    LangGraph.newStateGraph app list_find fst snd].
  repeat case_decide; simpl; intros Hfound; try discriminate;
    injection Hfound as <-; auto.
Qed.

Lemma shouldContinue_cases (state : BasicAgent.AgentState) :
  BasicAgent.shouldContinue state = "tools"
  \/ BasicAgent.shouldContinue state = LangGraph.END.
Proof.
  unfold BasicAgent.shouldContinue.
  destruct (last (BasicAgent.messages state)) as [lastMessage|]; [|auto].
  destruct (negb (Messages.isAIMessage lastMessage)); [auto|].
  destruct (Messages.truthyLength (Messages.tool_calls lastMessage)); auto.
Qed.

Lemma callModel_update (state : BasicAgent.AgentState) (w w' : World)
  (u : BasicAgent.AgentUpdate) :
  BasicAgent.callModel model state w = (Async.Fulfilled u, w') ->
  exists response : Messages.BaseMessage,
    model (BasicAgent.messages state) w = (Async.Fulfilled response, w')
    /\ u = BasicAgent.mkAgentUpdate [response].
Proof.
  unfold BasicAgent.callModel, Async.bind, Async.ret.
  destruct (model _ _) as [[response|e] w1]; intros H; [|discriminate].
  injection H as <- <-. exists response. split; reflexivity.
Qed.

Lemma callTools_fulfils (state : BasicAgent.AgentState) (w : World) :
  exists (u : BasicAgent.AgentUpdate) (w' : World),
    BasicAgent.callTools tools state w = (Async.Fulfilled u, w').
Proof.
  unfold BasicAgent.callTools.
  destruct (last (BasicAgent.messages state)) as [lastMessage|];
    [|eexists _, _; reflexivity].
  destruct (negb (Messages.isAIMessage lastMessage)); [eexists _, _; reflexivity|].
  destruct (forEachToolCall_answered tools
              (default [] (Messages.tool_calls lastMessage)) [] w)
    as (answers & w' & Hrun & _).
  unfold Async.bind. rewrite Hrun. eexists _, _. reflexivity.
Qed.

End BasicAgentRuns.

Section BasicAgentLoop.
Context {World : Type}.
Variable model : Messages.ChatModel World.
Variable tools : list (BasicAgent.StructuredTool World).

(** What a finished run of the basic agent looks like, from either node. *)
Lemma basicAgent_finished_shape :
  forall (fuel : nat) (n : string) (st : BasicAgent.AgentState) (w : World)
    (st' : BasicAgent.AgentState) (ran : list string) (w' : World),
    LangGraph.run fuel (BasicAgent.workflow model tools) BasicAgent.reduce n st w
      = (LangGraph.Finished st', ran, w') ->
    (exists added, BasicAgent.messages st' = BasicAgent.messages st ++ added)
    /\ (n = LangGraph.END -> st' = st /\ ran = [])
    /\ (n = "agent" ->
        BasicAgent.shouldContinue st' = LangGraph.END
        /\ last ran = Some "agent"
        /\ LangGraph.timesRun "agent" ran = S (LangGraph.timesRun "tools" ran))
    /\ (n = "tools" ->
        BasicAgent.shouldContinue st' = LangGraph.END
        /\ last ran = Some "agent"
        /\ LangGraph.timesRun "agent" ran = LangGraph.timesRun "tools" ran).
Proof.
  apply (run_finished_ind (BasicAgent.workflow model tools) BasicAgent.reduce
    (fun n st st' ran =>
       (exists added, BasicAgent.messages st' = BasicAgent.messages st ++ added)
       /\ (n = LangGraph.END -> st' = st /\ ran = [])
       /\ (n = "agent" ->
           BasicAgent.shouldContinue st' = LangGraph.END
           /\ last ran = Some "agent"
           /\ LangGraph.timesRun "agent" ran = S (LangGraph.timesRun "tools" ran))
       /\ (n = "tools" ->
           BasicAgent.shouldContinue st' = LangGraph.END
           /\ last ran = Some "agent"
           /\ LangGraph.timesRun "agent" ran = LangGraph.timesRun "tools" ran))).
  - intros st. split; [exists []; rewrite app_nil_r; reflexivity|].
    split; [auto|]. split; discriminate.
  - intros n fn st w u w' m st' ran Hn Hfn Hnode Hsucc (Hadded & Hend & Hagent & Htools).
    destruct Hadded as [added Hadded].
    split.
    { exists (BasicAgent.update_messages u ++ added).
      rewrite Hadded. simpl. rewrite app_assoc. reflexivity. }
    split; [contradiction|].
    apply basicAgent_nodes in Hfn as [[-> ->] | [-> ->]].
    + split; [intros _ | discriminate].
      rewrite (proj1 (proj2 (basicAgent_successors model tools _))) in Hsucc.
      injection Hsucc as Hm.
      destruct (shouldContinue_cases (BasicAgent.reduce st u)) as [Hroute | Hroute];
        rewrite Hroute in Hm; subst m.
      * destruct (Htools eq_refl) as (Hstop & Hlast & Hcount).
        split; [exact Hstop|]. split.
        -- destruct ran as [|m ran]; [discriminate|]. rewrite last_cons_cons. exact Hlast.
        -- rewrite timesRun_cons_same, timesRun_cons_other by discriminate. lia.
      * destruct (Hend eq_refl) as [-> ->].
        split; [exact Hroute|]. split; [reflexivity|].
        rewrite timesRun_cons_same, !timesRun_nil. reflexivity.
    + split; [discriminate | intros _].
      rewrite (proj2 (proj2 (basicAgent_successors model tools _))) in Hsucc.
      injection Hsucc as <-.
      destruct (Hagent eq_refl) as (Hstop & Hlast & Hcount).
      split; [exact Hstop|]. split.
      * destruct ran as [|m ran]; [discriminate|]. rewrite last_cons_cons. exact Hlast.
      * rewrite timesRun_cons_same, timesRun_cons_other by discriminate. lia.
Qed.

(** A run of the basic agent fails only where the chat model throws. *)
Lemma basicAgent_failed_at_model :
  forall (fuel : nat) (n : string) (st : BasicAgent.AgentState) (w : World)
    (e : JS.Thrown) (ran : list string) (w' : World),
    LangGraph.run fuel (BasicAgent.workflow model tools) BasicAgent.reduce n st w
      = (LangGraph.Failed e, ran, w') ->
    last ran = Some "agent"
    /\ exists (conversation : list Messages.BaseMessage) (w0 : World),
         model conversation w0 = (Async.Rejected e, w').
Proof.
  induction fuel as [|fuel IH]; intros n st w e ran w' Hrun.
  - cbn [LangGraph.run] in Hrun. case_bool_decide; discriminate.
  - destruct (decide (n = LangGraph.END)) as [->|Hn];
      [rewrite run_at_END in Hrun; discriminate|].
    cbn [LangGraph.run] in Hrun.
    rewrite bool_decide_eq_false_2 in Hrun by exact Hn.
    destruct (LangGraph.nodeFunction _ n) as [fn|] eqn:Hfn; [|discriminate].
    apply basicAgent_nodes in Hfn as [[-> ->] | [-> ->]].
    + unfold BasicAgent.callModel at 1, Async.bind in Hrun.
      destruct (model (BasicAgent.messages st) w) as [[response|e0] w1] eqn:Hmodel.
      * unfold Async.ret in Hrun.
        rewrite (proj1 (proj2 (basicAgent_successors model tools _))) in Hrun.
        destruct (LangGraph.run fuel _ _ _ _ w1) as [[o ran1] w2] eqn:Hrest.
        injection Hrun as -> <- ->.
        destruct (IH _ _ _ _ _ _ Hrest) as [Hlast Hthrown].
        split; [|exact Hthrown].
        destruct ran1 as [|m ran1]; [discriminate|]. rewrite last_cons_cons. exact Hlast.
      * injection Hrun as <- <- <-. split; [reflexivity|]. eauto.
    + destruct (callTools_fulfils tools st w) as (u & w1 & Htools).
      rewrite Htools in Hrun.
      rewrite (proj2 (proj2 (basicAgent_successors model tools _))) in Hrun.
      destruct (LangGraph.run fuel _ _ _ _ w1) as [[o ran1] w2] eqn:Hrest.
      injection Hrun as -> <- ->.
      destruct (IH _ _ _ _ _ _ Hrest) as [Hlast Hthrown].
      split; [|exact Hthrown].
      destruct ran1 as [|m ran1]; [discriminate|]. rewrite last_cons_cons. exact Hlast.
Qed.

(** A run of the basic agent never stops for lack of a successor, and when
    its budget is used up every step of it ran a node. *)
Lemma basicAgent_never_stuck :
  forall (fuel : nat) (n : string) (st : BasicAgent.AgentState) (w : World)
    (o : LangGraph.Outcome BasicAgent.AgentState) (ran : list string) (w' : World),
    n = "agent" \/ n = "tools" \/ n = LangGraph.END ->
    LangGraph.run fuel (BasicAgent.workflow model tools) BasicAgent.reduce n st w
      = (o, ran, w') ->
    (forall at_node : string, o <> LangGraph.Stuck at_node)
    /\ (o = LangGraph.OutOfFuel -> length ran = fuel).
Proof.
  destruct (basicAgent_nodeFunction model tools) as [Fagent Ftools].
  induction fuel as [|fuel IH]; intros n st w o ran w' Hn Hrun.
  - cbn [LangGraph.run] in Hrun.
    case_bool_decide; injection Hrun as <- <- _;
      (split; [discriminate|]); [discriminate | reflexivity].
  - destruct Hn as [-> | [-> | ->]].
    + erewrite run_node in Hrun; [| discriminate | exact Fagent].
      destruct (BasicAgent.callModel model st w) as [[u|e] w1].
      * rewrite (proj1 (proj2 (basicAgent_successors model tools _))) in Hrun.
        destruct (LangGraph.run fuel _ _ _ _ w1) as [[o1 ran1] w2] eqn:Hrest.
        injection Hrun as <- <- _.
        apply IH in Hrest as [Hstuck Hspent];
          [| destruct (shouldContinue_cases (BasicAgent.reduce st u)) as [-> | ->];
             auto ].
        split; [exact Hstuck|]. intros Ho. simpl. rewrite (Hspent Ho). reflexivity.
      * injection Hrun as <- <- _. split; discriminate.
    + erewrite run_node in Hrun; [| discriminate | exact Ftools].
      destruct (callTools_fulfils tools st w) as (u & w1 & Htools).
      rewrite Htools in Hrun.
      rewrite (proj2 (proj2 (basicAgent_successors model tools _))) in Hrun.
      destruct (LangGraph.run fuel _ _ _ _ w1) as [[o1 ran1] w2] eqn:Hrest.
      injection Hrun as <- <- _.
      apply IH in Hrest as [Hstuck Hspent]; [|auto].
      split; [exact Hstuck|]. intros Ho. simpl. rewrite (Hspent Ho). reflexivity.
    + rewrite run_at_END in Hrun. injection Hrun as <- <- _. split; discriminate.
Qed.

(** With a model that always asks for a tool, each step of the budget runs
    a node, [agent] and [tools] in turn, and none reaches END. *)
Lemma basicAgent_spends_all_fuel :
  (forall conversation w, exists text toolCall toolCalls w',
     model conversation w
     = (Async.Fulfilled (Messages.AIMessage text (Some (toolCall :: toolCalls))), w')) ->
  forall (fuel : nat) (n m : string) (st : BasicAgent.AgentState) (w : World),
    (n = "agent" /\ m = "tools") \/ (n = "tools" /\ m = "agent") ->
    exists w' : World,
      LangGraph.run fuel (BasicAgent.workflow model tools) BasicAgent.reduce n st w
        = (LangGraph.OutOfFuel, Turns.alternating fuel n m, w').
Proof.
  intros Hmodel.
  destruct (basicAgent_nodeFunction model tools) as [Fagent Ftools].
  induction fuel as [|fuel IH]; intros n m st w Hn.
  - exists w. destruct Hn as [[-> ->] | [-> ->]]; reflexivity.
  - destruct Hn as [[-> ->] | [-> ->]].
    + erewrite run_node; [| discriminate | exact Fagent].
      unfold BasicAgent.callModel, Async.bind, Async.ret.
      destruct (Hmodel (BasicAgent.messages st) w)
        as (text & toolCall & toolCalls & w1 & ->).
      rewrite (proj1 (proj2 (basicAgent_successors model tools _))).
      unfold BasicAgent.shouldContinue, BasicAgent.reduce. cbn [BasicAgent.messages
        BasicAgent.update_messages]. rewrite last_snoc. cbn.
      destruct (IH "tools" "agent"
                  (BasicAgent.mkAgentState
                     (BasicAgent.messages st ++
                      [Messages.AIMessage text (Some (toolCall :: toolCalls))]))
                  w1) as (w' & Hrun); [auto|].
      unfold BasicAgent.reduce in Hrun. rewrite Hrun.
      exists w'. reflexivity.
    + erewrite run_node; [| discriminate | exact Ftools].
      destruct (callTools_fulfils tools st w) as (u & w1 & ->).
      rewrite (proj2 (proj2 (basicAgent_successors model tools _))).
      destruct (IH "agent" "tools" (BasicAgent.reduce st u) w1) as (w' & Hrun);
        [auto|].
      rewrite Hrun. exists w'. reflexivity.
Qed.

End BasicAgentLoop.

(** X5.  A run of the basic agent ends in one of three ways, and in no
    other.  It reaches END, right after [agent].  Or the chat model throws:
    [callModel] has no [catch], so the run fails with what was thrown, and
    [agent] is the last node that ran (when the model throws on the first
    turn, the only one).  Or the budget of steps is used up, every step
    having run a node: the library then stops the run with its recursion
    error.  [callTools] never fails a run, and a run never stops for lack of
    a successor. *)
Theorem basicAgent_fails_only_at_model :
  forall (World : Type) (model : Messages.ChatModel World)
    (tools : list (BasicAgent.StructuredTool World))
    (state : BasicAgent.AgentState) (w : World) (fuel : nat),
    (forall (e : JS.Thrown) (w' : World),
       model (BasicAgent.messages state) w = (Async.Rejected e, w') ->
       1 <= fuel ->
       BasicAgent.agent model tools fuel state w = (LangGraph.Failed e, ["agent"], w'))
    /\ (exists (o : LangGraph.Outcome BasicAgent.AgentState) (ran : list string)
               (w' : World),
          BasicAgent.agent model tools fuel state w = (o, ran, w')
          /\ match o with
             | LangGraph.Finished final => last ran = Some "agent"
             | LangGraph.Failed e =>
               last ran = Some "agent"
               /\ exists (conversation : list Messages.BaseMessage) (w0 : World),
                    model conversation w0 = (Async.Rejected e, w')
             | LangGraph.OutOfFuel => length ran = fuel
             | LangGraph.Stuck _ => False
             end).
Proof.
  intros World model tools state w fuel. split.
  - intros e w' Hmodel Hfuel.
    unfold BasicAgent.agent, LangGraph.invoke.
    rewrite (proj1 (basicAgent_successors model tools state)).
    destruct fuel as [|fuel]; [lia|].
    erewrite run_node;
      [| discriminate | exact (proj1 (basicAgent_nodeFunction model tools))].
    unfold BasicAgent.callModel, Async.bind. rewrite Hmodel. reflexivity.
  - unfold BasicAgent.agent, LangGraph.invoke.
    rewrite (proj1 (basicAgent_successors model tools state)).
    destruct (LangGraph.run fuel _ _ "agent" state w) as [[o ran] w'] eqn:Hrun.
    exists o, ran, w'. split; [reflexivity|].
    destruct o as [final | e | at_node |].
    + destruct (basicAgent_finished_shape model tools _ _ _ _ _ _ _ Hrun)
        as (_ & _ & Hagent & _).
      apply (Hagent eq_refl).
    + eapply basicAgent_failed_at_model. exact Hrun.
    + eapply basicAgent_never_stuck in Hrun as [Hstuck _]; [|auto].
      exact (Hstuck at_node eq_refl).
    + eapply basicAgent_never_stuck in Hrun as [_ Hspent]; [|auto].
      exact (Hspent eq_refl).
Qed.

Lemma basicAgent_fails_only_at_model_witness :
  BasicAgent.agent MoreExamples.failingModel
    (BasicAgent.exampleTools Examples.parsingError) 3 Examples.justAsked tt
  = (LangGraph.Failed (JS.ErrorObject "529 overloaded"), ["agent"], tt).
Proof.
  apply (basicAgent_fails_only_at_model unit MoreExamples.failingModel
           (BasicAgent.exampleTools Examples.parsingError) Examples.justAsked tt 3).
  - reflexivity.
  - lia.
Defined.

(** X6.  The tool-calling loop has no limit of its own: with a chat model
    that asks for a tool on every turn, a run never reaches END.  Whatever
    the budget of steps, the run uses it up (where the library stops it with
    its recursion error), and the nodes that ran are [agent] and [tools] in
    alternation, [agent] first, as many as the budget has steps. *)
Theorem basicAgent_loop_has_no_limit :
  forall (World : Type) (model : Messages.ChatModel World)
    (tools : list (BasicAgent.StructuredTool World)),
    (forall conversation w, exists text toolCall toolCalls w',
       model conversation w
       = (Async.Fulfilled (Messages.AIMessage text (Some (toolCall :: toolCalls))), w')) ->
    forall (fuel : nat) (state : BasicAgent.AgentState) (w : World),
    exists w' : World,
      BasicAgent.agent model tools fuel state w
      = (LangGraph.OutOfFuel, Turns.alternating fuel "agent" "tools", w').
Proof.
  intros World model tools Hmodel fuel state w.
  unfold BasicAgent.agent, LangGraph.invoke.
  rewrite (proj1 (basicAgent_successors model tools state)).
  apply basicAgent_spends_all_fuel; auto.
Qed.

Lemma basicAgent_loop_has_no_limit_witness :
  exists w' : unit,
    BasicAgent.agent MoreExamples.alwaysCallsTool
      (BasicAgent.exampleTools Examples.parsingError) 6 Examples.justAsked tt
    = (LangGraph.OutOfFuel,
       ["agent"; "tools"; "agent"; "tools"; "agent"; "tools"], w').
Proof.
  apply (basicAgent_loop_has_no_limit unit MoreExamples.alwaysCallsTool
           (BasicAgent.exampleTools Examples.parsingError)).
  intros conversation w. eexists _, _, _, _. reflexivity.
Defined.

Example basicAgent_loop_run :
  (BasicAgent.agent MoreExamples.alwaysCallsTool
     (BasicAgent.exampleTools Examples.parsingError) 25 Examples.justAsked tt).1.1
  = LangGraph.OutOfFuel.
Proof. vm_compute. reflexivity. Qed.

(** X7.  A run of the basic agent that reaches END keeps the conversation
    and ends on the model's word: the messages it started with are a prefix
    of the final ones, the last node that ran is [agent], the final state
    asks for no tool ([shouldContinue] answers END on it), and [agent] ran
    once more than [tools]. *)
Theorem basicAgent_finished_run :
  forall (World : Type) (model : Messages.ChatModel World)
    (tools : list (BasicAgent.StructuredTool World))
    (fuel : nat) (state final : BasicAgent.AgentState) (w w' : World)
    (ran : list string),
    BasicAgent.agent model tools fuel state w = (LangGraph.Finished final, ran, w') ->
    (exists added : list Messages.BaseMessage,
       BasicAgent.messages final = BasicAgent.messages state ++ added)
    /\ last ran = Some "agent"
    /\ BasicAgent.shouldContinue final = LangGraph.END
    /\ LangGraph.timesRun "agent" ran = S (LangGraph.timesRun "tools" ran).
Proof.
  intros World model tools fuel state final w w' ran Hrun.
  unfold BasicAgent.agent, LangGraph.invoke in Hrun.
  rewrite (proj1 (basicAgent_successors model tools state)) in Hrun.
  destruct (basicAgent_finished_shape model tools _ _ _ _ _ _ _ Hrun)
    as (Hadded & _ & Hagent & _).
  destruct (Hagent eq_refl) as (Hstop & Hlast & Hcount).
  auto.
Qed.

Lemma basicAgent_finished_run_witness :
  LangGraph.timesRun "agent"
    (BasicAgent.agent (Examples.fixedModel "Hello!")
       (BasicAgent.exampleTools Examples.parsingError) 1
       Examples.justAsked tt).1.2
  = S (LangGraph.timesRun "tools"
         (BasicAgent.agent (Examples.fixedModel "Hello!")
            (BasicAgent.exampleTools Examples.parsingError) 1
            Examples.justAsked tt).1.2).
Proof.
  destruct (BasicAgent.agent (Examples.fixedModel "Hello!")
              (BasicAgent.exampleTools Examples.parsingError) 1
              Examples.justAsked tt) as [[o ran] w'] eqn:Hrun.
  assert (Hfinished : exists final, o = LangGraph.Finished final).
  { vm_compute in Hrun. injection Hrun as <- _ _. eexists. reflexivity. }
  destruct Hfinished as [final ->].
  exact (proj2 (proj2 (proj2
    (basicAgent_finished_run unit (Examples.fixedModel "Hello!")
       (BasicAgent.exampleTools Examples.parsingError) 1 Examples.justAsked final tt w'
       ran Hrun)))).
Defined.

(** ** Nodes of the RAG template *)

Section RagNodes.
Context {World : Type}.
Variable model : Messages.ChatModel World.
Variable toLowerCase : string -> string.

(** The grading loop only ever keeps documents it was given, in their
    order. *)
Lemma gradeEach_keeps_sublist (state : RagAgent.RAGState) :
  forall (docs relevantDocs : list RagAgent.Document) (w w' : World)
    (result : list RagAgent.Document),
    RagAgent.gradeEach model toLowerCase state docs relevantDocs w
      = (Async.Fulfilled result, w') ->
    exists kept : list RagAgent.Document,
      result = relevantDocs ++ kept /\ sublist kept docs.
Proof.
  induction docs as [|doc rest IH]; intros relevantDocs w w' result Hrun.
  - injection Hrun as <- _. exists []. rewrite app_nil_r. split; [reflexivity | constructor].
  - cbn [RagAgent.gradeEach] in Hrun. unfold Async.bind in Hrun.
    destruct (model _ w) as [[response|e] w1]; [|discriminate].
    destruct (JS.includes _ "yes").
    + apply IH in Hrun as (kept & -> & Hsub).
      exists (doc :: kept). rewrite <- app_assoc. split; [reflexivity|].
      apply sublist_skip. exact Hsub.
    + apply IH in Hrun as (kept & -> & Hsub).
      exists kept. split; [reflexivity|]. apply sublist_cons. exact Hsub.
Qed.

Lemma generate_update (state : RagAgent.RAGState) (w w' : World)
  (u : RagAgent.RAGUpdate) :
  RagAgent.generate model state w = (Async.Fulfilled u, w') ->
  exists text : string,
    u = RagAgent.mkRAGUpdate (Some [Messages.newAIMessage text]) None None
          (Some text) None.
Proof.
  unfold RagAgent.generate, Async.bind, Async.ret.
  destruct (model _ _) as [[response|e] w1]; intros H; [|discriminate].
  injection H as <- _. eexists. reflexivity.
Qed.

Lemma rag_nodes (n : string)
  (fn : RagAgent.RAGState -> Async.Async World RagAgent.RAGUpdate) :
  LangGraph.nodeFunction (RagAgent.workflow model toLowerCase) n = Some fn ->
  (n = "retrieve" /\ fn = RagAgent.retrieve)
  \/ (n = "grade" /\ fn = RagAgent.gradeDocuments model toLowerCase)
  \/ (n = "generate" /\ fn = RagAgent.generate model)
  \/ (n = "rewrite" /\ fn = RagAgent.rewriteQuery model).
Proof.
  unfold LangGraph.nodeFunction. cbn [RagAgent.workflow LangGraph.nodes
    LangGraph.addNode LangGraph.addEdge LangGraph.addConditionalEdges
    LangGraph.newStateGraph app list_find fst snd].
  repeat case_decide; simpl; intros Hfound; try discriminate;
    injection Hfound as <-; auto 6.
Qed.

Lemma routeAfterGrade_generate (state : RagAgent.RAGState) :
  RagAgent.routeAfterGrade state = "generate" ->
  RagAgent.documents state = [] -> (2 <= RagAgent.retryCount state)%Z.
Proof.
  unfold RagAgent.routeAfterGrade. intros Hroute Hdocs. rewrite Hdocs in Hroute.
  simpl in Hroute.
  destruct (Z.leb_spec 2 (RagAgent.retryCount state)); [assumption | discriminate].
Qed.

End RagNodes.

(** X8.  [gradeDocuments] only filters: when it fulfils, its update writes the
    [documents] channel alone, with a sublist of the documents it was given
    (same order, nothing added); with no documents it fulfils with the empty
    list without a word to the chat model (the world is as before). *)
Theorem gradeDocuments_only_filters :
  forall (World : Type) (model : Messages.ChatModel World)
    (toLowerCase : string -> string) (state : RagAgent.RAGState) (w : World),
    (forall (u : RagAgent.RAGUpdate) (w' : World),
       RagAgent.gradeDocuments model toLowerCase state w = (Async.Fulfilled u, w') ->
       exists kept : list RagAgent.Document,
         u = RagAgent.mkRAGUpdate None None (Some kept) None None
         /\ sublist kept (RagAgent.documents state))
    /\ (RagAgent.documents state = [] ->
        RagAgent.gradeDocuments model toLowerCase state w
        = (Async.Fulfilled (RagAgent.mkRAGUpdate None None (Some []) None None), w)).
Proof.
  intros World model toLowerCase state w. split.
  - intros u w'. unfold RagAgent.gradeDocuments, Async.bind, Async.ret.
    destruct (RagAgent.gradeEach _ _ _ _ _ _) as [[result|e] w1] eqn:Hloop;
      intros H; [|discriminate].
    injection H as <- _.
    apply gradeEach_keeps_sublist in Hloop as (kept & -> & Hsub).
    exists kept. split; [reflexivity | exact Hsub].
  - intros Hdocs. unfold RagAgent.gradeDocuments. rewrite Hdocs. reflexivity.
Qed.

Lemma gradeDocuments_only_filters_witness :
  exists kept : list RagAgent.Document,
    sublist kept (RagAgent.documents MoreExamples.twoDocuments)
    /\ RagAgent.gradeDocuments (Examples.fixedModel "Yes.") JS.ascii_toLowerCase
         MoreExamples.twoDocuments tt
       = (Async.Fulfilled (RagAgent.mkRAGUpdate None None (Some kept) None None), tt).
Proof.
  destruct (gradeDocuments_only_filters unit (Examples.fixedModel "Yes.")
              JS.ascii_toLowerCase MoreExamples.twoDocuments tt) as [Hfilter _].
  destruct (Hfilter
              (RagAgent.mkRAGUpdate None None
                 (Some (RagAgent.documents MoreExamples.twoDocuments)) None None)
              tt) as (kept & Hu & Hsub).
  - vm_compute. reflexivity.
  - exists kept. split; [exact Hsub|]. rewrite <- Hu. vm_compute. reflexivity.
Defined.

(** X9.  What [retrieve] asks for after a rewrite.  When [rewriteQuery]
    fulfils with the text [rewritten] and its update is merged, [retryCount]
    is one higher (for a count from [-2^53] to below [2^53], where adding
    one is exact) and the next [retrieve] fulfils, in the same world, with
    the one placeholder document about its query; the query is [rewritten],
    unless that is empty: then it is the text of the last message, or the
    empty string when there is none. *)
Theorem retrieve_after_rewrite :
  forall (World : Type) (model : Messages.ChatModel World)
    (state : RagAgent.RAGState) (w w1 : World) (u : RagAgent.RAGUpdate),
    RagAgent.rewriteQuery model state w = (Async.Fulfilled u, w1) ->
    exists rewritten : string,
      RagAgent.update_query u = Some rewritten
      /\ ((- 2 ^ 53 <= RagAgent.retryCount state < 2 ^ 53)%Z ->
          RagAgent.retryCount (RagAgent.reduce state u)
          = (RagAgent.retryCount state + 1)%Z)
      /\ let query :=
           match rewritten with
           | EmptyString =>
             match last (RagAgent.messages state) with
             | Some lastMessage => Messages.content lastMessage
             | None => ""
             end
           | _ => rewritten
           end in
         RagAgent.retrieve (RagAgent.reduce state u) w1
         = (Async.Fulfilled
              (RagAgent.mkRAGUpdate None (Some query)
                 (Some [RagAgent.mkDocument
                          ("This is a placeholder document about: " +:+ query)
                          [("source", "example.txt")]])
                 None None),
            w1).
Proof.
  intros World model state w w1 u Hrewrite.
  destruct (rewriteQuery_update model _ _ _ _ Hrewrite) as (rewritten & ->).
  exists rewritten. split; [reflexivity|]. split.
  { intros Hrange.
    change (JS.numberAdd (RagAgent.retryCount state) 1
            = (RagAgent.retryCount state + 1)%Z).
    apply numberAdd_exact. unfold Counts.exact. lia. }
  unfold RagAgent.retrieve, RagAgent.retrieveDocuments, Async.bind, Async.ret.
  cbn [RagAgent.reduce RagAgent.query RagAgent.messages RagAgent.update_query
       RagAgent.update_messages from_option].
  destruct rewritten as [|c rest]; [|reflexivity].
  cbn [JS.or_else]. destruct (last (RagAgent.messages state)) as [lastMessage|];
    cbn [fmap option_fmap option_map JS.opt_or_else]; [|reflexivity].
  destruct (Messages.content lastMessage); reflexivity.
Qed.

Lemma retrieve_after_rewrite_witness :
  exists rewritten : string,
    RagAgent.update_query
      (RagAgent.mkRAGUpdate None (Some "no") None None (Some 1%Z)) = Some rewritten
    /\ RagAgent.retryCount
         (RagAgent.reduce Examples.whatIsLangGraph
            (RagAgent.mkRAGUpdate None (Some "no") None None (Some 1%Z))) = 1%Z.
Proof.
  destruct (retrieve_after_rewrite unit (Examples.fixedModel "no")
              Examples.whatIsLangGraph tt tt
              (RagAgent.mkRAGUpdate None (Some "no") None None (Some 1%Z)) eq_refl)
    as (rewritten & Hquery & Hcount & _).
  exists rewritten. split; [exact Hquery | apply Hcount; simpl; lia].
Defined.

(** ** Runs of the RAG template that reach END *)

Section RagRuns.
Context {World : Type}.
Variable model : Messages.ChatModel World.
Variable toLowerCase : string -> string.

(** What a finished run of the RAG graph looks like, from any node. *)
Lemma rag_finished_shape :
  forall (fuel : nat) (n : string) (st : RagAgent.RAGState) (w : World)
    (st' : RagAgent.RAGState) (ran : list string) (w' : World),
    LangGraph.run fuel (RagAgent.workflow model toLowerCase) RagAgent.reduce n st w
      = (LangGraph.Finished st', ran, w') ->
    ((- 2 ^ 53 <= RagAgent.retryCount st)%Z ->
     (RagAgent.retryCount st + Z.of_nat (LangGraph.timesRun "rewrite" ran) <= 2 ^ 53)%Z ->
     RagAgent.retryCount st'
     = (RagAgent.retryCount st + Z.of_nat (LangGraph.timesRun "rewrite" ran))%Z)
    /\ (n = LangGraph.END -> st' = st /\ ran = [])
    /\ (n = "generate" ->
        ran = ["generate"]
        /\ RagAgent.documents st' = RagAgent.documents st
        /\ RagAgent.retryCount st' = RagAgent.retryCount st
        /\ RagAgent.messages st'
           = RagAgent.messages st ++ [Messages.newAIMessage (RagAgent.generation st')])
    /\ (n = "retrieve" \/ n = "grade" \/ n = "rewrite" ->
        RagAgent.messages st'
          = RagAgent.messages st ++ [Messages.newAIMessage (RagAgent.generation st')]
        /\ last ran = Some "generate"
        /\ (RagAgent.documents st' = [] -> (2 <= RagAgent.retryCount st')%Z)).
Proof.
  apply (run_finished_ind (RagAgent.workflow model toLowerCase) RagAgent.reduce
    (fun n st st' ran =>
       ((- 2 ^ 53 <= RagAgent.retryCount st)%Z ->
        (RagAgent.retryCount st + Z.of_nat (LangGraph.timesRun "rewrite" ran)
         <= 2 ^ 53)%Z ->
        RagAgent.retryCount st'
        = (RagAgent.retryCount st + Z.of_nat (LangGraph.timesRun "rewrite" ran))%Z)
       /\ (n = LangGraph.END -> st' = st /\ ran = [])
       /\ (n = "generate" ->
           ran = ["generate"]
           /\ RagAgent.documents st' = RagAgent.documents st
           /\ RagAgent.retryCount st' = RagAgent.retryCount st
           /\ RagAgent.messages st'
              = RagAgent.messages st ++ [Messages.newAIMessage (RagAgent.generation st')])
       /\ (n = "retrieve" \/ n = "grade" \/ n = "rewrite" ->
           RagAgent.messages st'
             = RagAgent.messages st ++ [Messages.newAIMessage (RagAgent.generation st')]
           /\ last ran = Some "generate"
           /\ (RagAgent.documents st' = [] -> (2 <= RagAgent.retryCount st')%Z)))).
  - intros st. split; [intros _ _; rewrite timesRun_nil; simpl; lia|].
    split; [auto|]. split; [discriminate|]. intros [H | [H | H]]; discriminate.
  - intros n fn st w u w' m st' ran Hn Hfn Hnode Hsucc (Hcount & Hend & Hgen & Hloop).
    split; [|split; [contradiction|]];
      apply rag_nodes in Hfn as [[-> ->] | [[-> ->] | [[-> ->] | [-> ->]]]].
    + (* retrieve, count *)
      destruct (retrieve_update st w) as (q & docs & Hup).
      rewrite Hup in Hnode. injection Hnode as <- _.
      rewrite timesRun_cons_other by discriminate. exact Hcount.
    + destruct (gradeDocuments_update _ _ _ _ _ _ Hnode) as (docs & ->).
      rewrite timesRun_cons_other by discriminate. exact Hcount.
    + destruct (generate_update _ _ _ _ _ Hnode) as (text & ->).
      rewrite timesRun_cons_other by discriminate. exact Hcount.
    + destruct (rewriteQuery_update _ _ _ _ _ Hnode) as (q & ->).
      rewrite timesRun_cons_same. intros Hlow Hhigh.
      assert (Hnext : RagAgent.retryCount
                        (RagAgent.reduce st
                           (RagAgent.mkRAGUpdate None (Some q) None None (Some 1%Z)))
                      = (RagAgent.retryCount st + 1)%Z).
      { change (JS.numberAdd (RagAgent.retryCount st) 1
                = (RagAgent.retryCount st + 1)%Z).
        apply numberAdd_exact. unfold Counts.exact. lia. }
      rewrite Hnext in Hcount. rewrite Hcount; lia.
    + (* retrieve, shape *)
      destruct (retrieve_update st w) as (q & docs & Hup).
      rewrite Hup in Hnode. injection Hnode as <- _.
      rewrite (proj1 (proj2 (rag_successors model toLowerCase _))) in Hsucc.
      injection Hsucc as <-.
      split; [discriminate | intros _].
      destruct Hloop as (Hmessages & Hlast & Hdocs); [auto|].
      split; [exact Hmessages|]. split; [|exact Hdocs].
      destruct ran as [|m ran]; [discriminate|]. rewrite last_cons_cons. exact Hlast.
    + (* grade *)
      destruct (gradeDocuments_update _ _ _ _ _ _ Hnode) as (docs & ->).
      rewrite (proj1 (proj2 (proj2 (rag_successors model toLowerCase _)))) in Hsucc.
      injection Hsucc as Hm.
      split; [discriminate | intros _].
      destruct (routeAfterGrade_cases
                  (RagAgent.reduce st (RagAgent.mkRAGUpdate None None (Some docs) None None)))
        as [Hroute | Hroute]; rewrite Hroute in Hm; subst m.
      * destruct (Hgen eq_refl) as (-> & Hdocs & Hsame & Hmessages).
        split; [exact Hmessages|]. split; [reflexivity|].
        intros Hempty. rewrite Hsame.
        rewrite Hdocs in Hempty.
        exact (routeAfterGrade_generate _ Hroute Hempty).
      * destruct Hloop as (Hmessages & Hlast & Hdocs); [auto|].
        split; [exact Hmessages|]. split; [|exact Hdocs].
        destruct ran as [|m ran]; [discriminate|]. rewrite last_cons_cons. exact Hlast.
    + (* generate *)
      destruct (generate_update _ _ _ _ _ Hnode) as (text & ->).
      rewrite (proj2 (proj2 (proj2 (proj2 (rag_successors model toLowerCase _))))) in Hsucc.
      injection Hsucc as <-.
      destruct (Hend eq_refl) as [-> ->].
      split; [intros _ | intros [H | [H | H]]; discriminate].
      split; [reflexivity|]. split; [reflexivity|]. split; reflexivity.
    + (* rewrite *)
      destruct (rewriteQuery_update _ _ _ _ _ Hnode) as (q & ->).
      rewrite (proj1 (proj2 (proj2 (proj2 (rag_successors model toLowerCase _))))) in Hsucc.
      injection Hsucc as <-.
      split; [discriminate | intros _].
      destruct Hloop as (Hmessages & Hlast & Hdocs); [auto|].
      split; [exact Hmessages|]. split; [|exact Hdocs].
      destruct ran as [|m ran]; [discriminate|]. rewrite last_cons_cons. exact Hlast.
Qed.

(** From START. *)
Lemma ragAgent_finished_shape (fuel : nat) (state final : RagAgent.RAGState)
  (w w' : World) (ran : list string) :
  RagAgent.ragAgent model toLowerCase fuel state w = (LangGraph.Finished final, ran, w') ->
  ((- 2 ^ 53 <= RagAgent.retryCount state)%Z ->
   (RagAgent.retryCount state + Z.of_nat (LangGraph.timesRun "rewrite" ran)
    <= 2 ^ 53)%Z ->
   RagAgent.retryCount final
   = (RagAgent.retryCount state + Z.of_nat (LangGraph.timesRun "rewrite" ran))%Z)
  /\ RagAgent.messages final
     = RagAgent.messages state ++ [Messages.newAIMessage (RagAgent.generation final)]
  /\ last ran = Some "generate"
  /\ (RagAgent.documents final = [] -> (2 <= RagAgent.retryCount final)%Z).
Proof.
  unfold RagAgent.ragAgent, LangGraph.invoke.
  rewrite (proj1 (rag_successors model toLowerCase state)). intros Hrun.
  destruct (rag_finished_shape _ _ _ _ _ _ _ Hrun) as (Hcount & _ & _ & Hloop).
  destruct Hloop as (Hmessages & Hlast & Hdocs); auto.
Qed.

End RagRuns.

(** X10.  [retryCount] counts the rewrites: in a run of the RAG graph that
    reaches END, the final [retryCount] is the one the run started with plus
    the number of times [rewrite] ran, as long as the counts stay in the
    range where the addition of numbers is exact (the start at [-2^53] or
    above, the sum at [2^53] or below); no other node writes it. *)
Theorem rag_retryCount_counts_rewrites :
  forall (World : Type) (model : Messages.ChatModel World)
    (toLowerCase : string -> string) (fuel : nat)
    (state final : RagAgent.RAGState) (w w' : World) (ran : list string),
    RagAgent.ragAgent model toLowerCase fuel state w
      = (LangGraph.Finished final, ran, w') ->
    (- 2 ^ 53 <= RagAgent.retryCount state)%Z ->
    (RagAgent.retryCount state + Z.of_nat (LangGraph.timesRun "rewrite" ran)
     <= 2 ^ 53)%Z ->
    RagAgent.retryCount final
    = (RagAgent.retryCount state + Z.of_nat (LangGraph.timesRun "rewrite" ran))%Z.
Proof.
  intros World model toLowerCase fuel state final w w' ran Hrun.
  exact (proj1 (ragAgent_finished_shape model toLowerCase _ _ _ _ _ _ Hrun)).
Qed.

Lemma rag_retryCount_counts_rewrites_witness :
  exists (final : RagAgent.RAGState) (ran : list string),
    RagAgent.ragAgent (Examples.fixedModel "no") JS.ascii_toLowerCase 9
      Examples.whatIsLangGraph tt = (LangGraph.Finished final, ran, tt)
    /\ RagAgent.retryCount final
       = (0 + Z.of_nat (LangGraph.timesRun "rewrite" ran))%Z.
Proof.
  eexists _, _. split; [vm_compute; reflexivity|].
  apply (rag_retryCount_counts_rewrites unit (Examples.fixedModel "no")
           JS.ascii_toLowerCase 9 Examples.whatIsLangGraph _ tt tt).
  - vm_compute. reflexivity.
  - vm_compute. discriminate.
  - vm_compute. discriminate.
Defined.

(** X11.  The answer is the only message a run of the RAG graph adds: in a
    run that reaches END the last node that ran is [generate], and the final
    messages are those the run started with followed by one AI message whose
    text is the final [generation]; retrieving, grading and rewriting add no
    message. *)
Theorem rag_answer_is_the_only_new_message :
  forall (World : Type) (model : Messages.ChatModel World)
    (toLowerCase : string -> string) (fuel : nat)
    (state final : RagAgent.RAGState) (w w' : World) (ran : list string),
    RagAgent.ragAgent model toLowerCase fuel state w
      = (LangGraph.Finished final, ran, w') ->
    last ran = Some "generate"
    /\ RagAgent.messages final
       = RagAgent.messages state
         ++ [Messages.AIMessage (RagAgent.generation final) (Some [])].
Proof.
  intros World model toLowerCase fuel state final w w' ran Hrun.
  destruct (ragAgent_finished_shape model toLowerCase _ _ _ _ _ _ Hrun)
    as (_ & Hmessages & Hlast & _).
  split; [exact Hlast | exact Hmessages].
Qed.

Lemma rag_answer_is_the_only_new_message_witness :
  exists (final : RagAgent.RAGState) (ran : list string),
    RagAgent.ragAgent (Examples.fixedModel "Yes.") JS.ascii_toLowerCase 3
      Examples.whatIsLangGraph tt = (LangGraph.Finished final, ran, tt)
    /\ RagAgent.messages final
       = [Messages.HumanMessage "What is LangGraph?";
          Messages.AIMessage (RagAgent.generation final) (Some [])].
Proof.
  eexists _, _. split; [vm_compute; reflexivity|].
  refine (proj2 (rag_answer_is_the_only_new_message unit (Examples.fixedModel "Yes.")
                   JS.ascii_toLowerCase 3 Examples.whatIsLangGraph _ tt tt _ _)).
  vm_compute. reflexivity.
Defined.

(** X12.  The RAG graph answers without documents only when the retries are
    used up: in a run that reaches END, if the final [documents] is empty
    then the final [retryCount] is at least 2. *)
Theorem rag_answers_without_documents_only_after_retries :
  forall (World : Type) (model : Messages.ChatModel World)
    (toLowerCase : string -> string) (fuel : nat)
    (state final : RagAgent.RAGState) (w w' : World) (ran : list string),
    RagAgent.ragAgent model toLowerCase fuel state w
      = (LangGraph.Finished final, ran, w') ->
    RagAgent.documents final = [] ->
    (2 <= RagAgent.retryCount final)%Z.
Proof.
  intros World model toLowerCase fuel state final w w' ran Hrun.
  destruct (ragAgent_finished_shape model toLowerCase _ _ _ _ _ _ Hrun)
    as (_ & _ & _ & Hdocs).
  exact Hdocs.
Qed.

Lemma rag_answers_without_documents_only_after_retries_witness :
  exists (final : RagAgent.RAGState) (ran : list string),
    RagAgent.ragAgent (Examples.fixedModel "no") JS.ascii_toLowerCase 9
      Examples.whatIsLangGraph tt = (LangGraph.Finished final, ran, tt)
    /\ RagAgent.documents final = []
    /\ (2 <= RagAgent.retryCount final)%Z.
Proof.
  eexists _, _. split; [vm_compute; reflexivity|].
  split; [reflexivity|].
  eapply (rag_answers_without_documents_only_after_retries unit
            (Examples.fixedModel "no") JS.ascii_toLowerCase 9
            Examples.whatIsLangGraph _ tt tt).
  - vm_compute. reflexivity.
  - reflexivity.
Defined.

(** ** The supervisor's routing and its task *)

Lemma includes_false_iff (s t : string) :
  JS.includes s t = false <-> ~ JS.occursIn t s.
Proof.
  split.
  - intros Hfalse Hocc. apply includes_spec in Hocc. congruence.
  - apply includes_false.
Qed.

(** X13.  The order of the tests in [routeFromSupervisor] decides between
    several names in one decision: it answers [researcher] exactly when
    [iterations <= 10], the lower-cased decision does not contain [finish]
    and contains [researcher]; and [writer] exactly when [iterations <= 10]
    and the decision contains [writer] but neither [finish] nor [researcher].
    So [finish] wins over both workers and [researcher] over [writer]. *)
Theorem routeFromSupervisor_decision_table :
  forall (toLowerCase : string -> string) (state : MultiAgent.MultiAgentState),
    let decision := toLowerCase (MultiAgent.currentAgent state) in
    (MultiAgent.routeFromSupervisor toLowerCase state = "researcher" <->
       (MultiAgent.iterations state <= 10)%Z
       /\ ~ JS.occursIn "finish" decision
       /\ JS.occursIn "researcher" decision)
    /\ (MultiAgent.routeFromSupervisor toLowerCase state = "writer" <->
          (MultiAgent.iterations state <= 10)%Z
          /\ ~ JS.occursIn "finish" decision
          /\ ~ JS.occursIn "researcher" decision
          /\ JS.occursIn "writer" decision).
Proof.
  intros toLowerCase state decision. unfold MultiAgent.routeFromSupervisor.
  fold decision.
  rewrite <- !includes_false_iff, <- !includes_spec.
  destruct (Z.ltb_spec 10 (MultiAgent.iterations state)) as [Hover | Hunder].
  - split; (split; [discriminate | intros [H _]; lia]).
  - destruct (JS.includes decision "finish").
    + split; (split; [discriminate | intros (_ & H & _); discriminate]).
    + destruct (JS.includes decision "researcher").
      * split; (split; [try discriminate; auto | try tauto]).
        intros (_ & _ & H & _). discriminate.
      * destruct (JS.includes decision "writer");
          split; (split; [try discriminate; auto | try tauto]);
          intros H; decompose [and] H; discriminate.
Qed.

Example routeFromSupervisor_two_names :
  MultiAgent.routeFromSupervisor JS.ascii_toLowerCase
    (MultiAgent.mkMultiAgentState [] "task" "writer, then researcher" [] "" 1)
  = "researcher"
  /\ MultiAgent.routeFromSupervisor JS.ascii_toLowerCase
       (MultiAgent.mkMultiAgentState [] "task" "researcher or FINISH" [] "" 1)
     = "finalize".
Proof. split; reflexivity. Qed.

(** X14.  After a worker, the supervisor takes the worker's message for the
    task.  [supervisor] reads the task from the last message when that has
    text; a worker ends its update with an AI message ([[Researcher] ...] or
    [[Writer] ...]), so in the state a worker leaves, the supervisor's update
    sets [task] to that message's text: the bracketed tag followed by the
    notes the researcher added, or by the draft the writer wrote. *)
Theorem supervisor_takes_worker_message_as_task :
  forall (World : Type) (supervisorModel workerModel : Messages.ChatModel World)
    (toLowerCase trim : string -> string)
    (state : MultiAgent.MultiAgentState) (w w1 w2 : World)
    (u u2 : MultiAgent.MultiAgentUpdate),
    MultiAgent.supervisor supervisorModel toLowerCase trim
      (MultiAgent.reduce state u) w1 = (Async.Fulfilled u2, w2) ->
    (MultiAgent.researcher workerModel state w = (Async.Fulfilled u, w1) ->
     exists notes : string,
       MultiAgent.update_researchNotes u = Some [notes]
       /\ MultiAgent.update_task u2 = Some ("[Researcher] " +:+ notes))
    /\ (MultiAgent.writer workerModel state w = (Async.Fulfilled u, w1) ->
        exists draft : string,
          MultiAgent.update_draft u = Some draft
          /\ MultiAgent.update_task u2 = Some ("[Writer] " +:+ draft)).
Proof.
  intros World supervisorModel workerModel toLowerCase trim state w w1 w2 u u2 Hsup.
  split.
  - unfold MultiAgent.researcher, Async.bind, Async.ret.
    destruct (workerModel _ w) as [[response|e] w0]; intros H; [|discriminate].
    injection H as <- <-. eexists. split; [reflexivity|].
    revert Hsup. unfold MultiAgent.supervisor, Async.bind, Async.ret.
    cbn [MultiAgent.reduce MultiAgent.messages MultiAgent.update_messages from_option].
    rewrite last_snoc.
    destruct (supervisorModel _ w0) as [[answer|e] w3]; intros H; [|discriminate].
    injection H as <- _. reflexivity.
  - unfold MultiAgent.writer, Async.bind, Async.ret.
    destruct (workerModel _ w) as [[response|e] w0]; intros H; [|discriminate].
    injection H as <- <-. eexists. split; [reflexivity|].
    revert Hsup. unfold MultiAgent.supervisor, Async.bind, Async.ret.
    cbn [MultiAgent.reduce MultiAgent.messages MultiAgent.update_messages from_option].
    rewrite last_snoc.
    destruct (supervisorModel _ w0) as [[answer|e] w3]; intros H; [|discriminate].
    injection H as <- _. reflexivity.
Qed.

Lemma supervisor_takes_worker_message_as_task_witness :
  exists notes : string,
    MultiAgent.update_task
      (MultiAgent.mkMultiAgentUpdate None (Some "[Researcher] notes")
         (Some "researcher") None None (Some 1%Z))
    = Some ("[Researcher] " +:+ notes).
Proof.
  destruct (supervisor_takes_worker_message_as_task unit
              (Examples.fixedModel "researcher") (Examples.fixedModel "notes")
              JS.ascii_toLowerCase (fun s => s) Examples.writeBlogPost tt tt tt
              (MultiAgent.mkMultiAgentUpdate
                 (Some [Messages.newAIMessage "[Researcher] notes"])
                 None None (Some ["notes"]) None None)
              (MultiAgent.mkMultiAgentUpdate None (Some "[Researcher] notes")
                 (Some "researcher") None None (Some 1%Z)))
    as [Hresearcher _].
  - vm_compute. reflexivity.
  - destruct Hresearcher as (notes & _ & Htask); [vm_compute; reflexivity|].
    exists notes. exact Htask.
Defined.

(** ** Runs of the multi-agent template that reach END *)

Section MultiAgentRuns.
Context {World : Type}.
Variables supervisorModel workerModel : Messages.ChatModel World.
Variables toLowerCase trim : string -> string.

Lemma multiAgent_nodes (n : string)
  (fn : MultiAgent.MultiAgentState -> Async.Async World MultiAgent.MultiAgentUpdate) :
  LangGraph.nodeFunction
    (MultiAgent.workflow supervisorModel workerModel toLowerCase trim) n = Some fn ->
  (n = "supervisor" /\ fn = MultiAgent.supervisor supervisorModel toLowerCase trim)
  \/ (n = "researcher" /\ fn = MultiAgent.researcher workerModel)
  \/ (n = "writer" /\ fn = MultiAgent.writer workerModel)
  \/ (n = "finalize" /\ fn = MultiAgent.finalize).
Proof.
  unfold LangGraph.nodeFunction. cbn [MultiAgent.workflow LangGraph.nodes
    LangGraph.addNode LangGraph.addEdge LangGraph.addConditionalEdges
    LangGraph.newStateGraph app list_find fst snd].
  repeat case_decide; simpl; intros Hfound; try discriminate;
    injection Hfound as <-; auto 6.
Qed.

(** The channels each node writes. *)
Lemma supervisor_writes (state : MultiAgent.MultiAgentState) (w w' : World)
  (u : MultiAgent.MultiAgentUpdate) :
  MultiAgent.supervisor supervisorModel toLowerCase trim state w
    = (Async.Fulfilled u, w') ->
  exists task decision : string,
    u = MultiAgent.mkMultiAgentUpdate None (Some task) (Some decision) None None
          (Some 1%Z).
Proof.
  unfold MultiAgent.supervisor, Async.bind, Async.ret.
  destruct (supervisorModel _ _) as [[response|e] w1]; intros H; [|discriminate].
  injection H as <- _. eexists _, _. reflexivity.
Qed.

Lemma researcher_writes (state : MultiAgent.MultiAgentState) (w w' : World)
  (u : MultiAgent.MultiAgentUpdate) :
  MultiAgent.researcher workerModel state w = (Async.Fulfilled u, w') ->
  exists notes : string,
    u = MultiAgent.mkMultiAgentUpdate
          (Some [Messages.newAIMessage ("[Researcher] " +:+ notes)])
          None None (Some [notes]) None None.
Proof.
  unfold MultiAgent.researcher, Async.bind, Async.ret.
  destruct (workerModel _ _) as [[response|e] w1]; intros H; [|discriminate].
  injection H as <- _. eexists. reflexivity.
Qed.

Lemma writer_writes (state : MultiAgent.MultiAgentState) (w w' : World)
  (u : MultiAgent.MultiAgentUpdate) :
  MultiAgent.writer workerModel state w = (Async.Fulfilled u, w') ->
  exists draft : string,
    u = MultiAgent.mkMultiAgentUpdate
          (Some [Messages.newAIMessage ("[Writer] " +:+ draft)])
          None None None (Some draft) None.
Proof.
  unfold MultiAgent.writer, Async.bind, Async.ret.
  destruct (workerModel _ _) as [[response|e] w1]; intros H; [|discriminate].
  injection H as <- _. eexists. reflexivity.
Qed.

(** The message [finalize] adds for a draft. *)
Lemma finalize_writes (state : MultiAgent.MultiAgentState) (w w' : World)
  (u : MultiAgent.MultiAgentUpdate) :
  MultiAgent.finalize state w = (Async.Fulfilled u, w') ->
  u = MultiAgent.mkMultiAgentUpdate
        (Some [Messages.newAIMessage
                 ("Task completed!" +:+ JS.nl +:+ JS.nl +:+ "Final output:" +:+ JS.nl +:+
                  MultiAgent.draft state)])
        None None None None None.
Proof. unfold MultiAgent.finalize, Async.ret. intros H. injection H as <- _. reflexivity. Qed.

(** What a finished run of the multi-agent graph looks like, from any
    node. *)
Lemma multiAgent_finished_shape :
  forall (fuel : nat) (n : string) (st : MultiAgent.MultiAgentState) (w : World)
    (st' : MultiAgent.MultiAgentState) (ran : list string) (w' : World),
    LangGraph.run fuel
      (MultiAgent.workflow supervisorModel workerModel toLowerCase trim)
      MultiAgent.reduce n st w = (LangGraph.Finished st', ran, w') ->
    ((- 2 ^ 53 <= MultiAgent.iterations st)%Z ->
     (MultiAgent.iterations st + Z.of_nat (LangGraph.timesRun "supervisor" ran)
      <= 2 ^ 53)%Z ->
     MultiAgent.iterations st'
     = (MultiAgent.iterations st + Z.of_nat (LangGraph.timesRun "supervisor" ran))%Z)
    /\ length (MultiAgent.researchNotes st')
       = length (MultiAgent.researchNotes st) + LangGraph.timesRun "researcher" ran
    /\ length (MultiAgent.messages st')
       = length (MultiAgent.messages st) + LangGraph.timesRun "researcher" ran
         + LangGraph.timesRun "writer" ran + LangGraph.timesRun "finalize" ran
    /\ (n = LangGraph.END -> st' = st /\ ran = [])
    /\ (n <> LangGraph.END ->
        last ran = Some "finalize"
        /\ LangGraph.timesRun "finalize" ran = 1
        /\ last (MultiAgent.messages st')
           = Some (Messages.newAIMessage
                     ("Task completed!" +:+ JS.nl +:+ JS.nl +:+ "Final output:" +:+
                      JS.nl +:+ MultiAgent.draft st'))).
Proof.
  apply (run_finished_ind
    (MultiAgent.workflow supervisorModel workerModel toLowerCase trim)
    MultiAgent.reduce
    (fun n st st' ran =>
       ((- 2 ^ 53 <= MultiAgent.iterations st)%Z ->
        (MultiAgent.iterations st + Z.of_nat (LangGraph.timesRun "supervisor" ran)
         <= 2 ^ 53)%Z ->
        MultiAgent.iterations st'
        = (MultiAgent.iterations st + Z.of_nat (LangGraph.timesRun "supervisor" ran))%Z)
       /\ length (MultiAgent.researchNotes st')
          = length (MultiAgent.researchNotes st) + LangGraph.timesRun "researcher" ran
       /\ length (MultiAgent.messages st')
          = length (MultiAgent.messages st) + LangGraph.timesRun "researcher" ran
            + LangGraph.timesRun "writer" ran + LangGraph.timesRun "finalize" ran
       /\ (n = LangGraph.END -> st' = st /\ ran = [])
       /\ (n <> LangGraph.END ->
           last ran = Some "finalize"
           /\ LangGraph.timesRun "finalize" ran = 1
           /\ last (MultiAgent.messages st')
              = Some (Messages.newAIMessage
                        ("Task completed!" +:+ JS.nl +:+ JS.nl +:+ "Final output:" +:+
                         JS.nl +:+ MultiAgent.draft st'))))).
  - intros st. rewrite !timesRun_nil.
    split; [intros _ _; simpl; lia|]. repeat split; try lia; try tauto.
  - intros n fn st w u w' m st' ran Hn Hfn Hnode Hsucc
      (Hiter & Hnotes & Hmsgs & Hend & Hrest).
    apply multiAgent_nodes in Hfn as [[-> ->] | [[-> ->] | [[-> ->] | [-> ->]]]].
    + (* supervisor *)
      destruct (supervisor_writes _ _ _ _ Hnode) as (task & decision & ->).
      rewrite (proj1 (proj2 (multiAgent_successors _ _ _ _ _))) in Hsucc.
      injection Hsucc as Hm.
      assert (Hm' : m <> LangGraph.END).
      { subst m.
        destruct (routeFromSupervisor_cases toLowerCase
                    (MultiAgent.reduce st
                       (MultiAgent.mkMultiAgentUpdate None (Some task)
                          (Some decision) None None (Some 1%Z))))
          as [H | [H | H]]; rewrite H; discriminate. }
      destruct (Hrest Hm') as (Hlast & Hfinal & Hmessage).
      rewrite timesRun_cons_same, !timesRun_cons_other by discriminate.
      simpl in Hnotes, Hmsgs.
      split.
      { intros Hlow Hhigh.
        assert (Hnext : MultiAgent.iterations
                          (MultiAgent.reduce st
                             (MultiAgent.mkMultiAgentUpdate None (Some task)
                                (Some decision) None None (Some 1%Z)))
                        = (MultiAgent.iterations st + 1)%Z).
        { change (JS.numberAdd (MultiAgent.iterations st) 1
                  = (MultiAgent.iterations st + 1)%Z).
          apply numberAdd_exact. unfold Counts.exact. lia. }
        rewrite Hnext in Hiter. rewrite Hiter; lia. }
      split; [exact Hnotes|]. split; [exact Hmsgs|].
      split; [contradiction|]. intros _. split; [|auto].
      destruct ran as [|m0 ran]; [discriminate|]. rewrite last_cons_cons. exact Hlast.
    + (* researcher *)
      destruct (researcher_writes _ _ _ _ Hnode) as (notes & ->).
      rewrite (proj1 (proj2 (proj2 (multiAgent_successors _ _ _ _ _)))) in Hsucc.
      injection Hsucc as <-.
      destruct Hrest as (Hlast & Hfinal & Hmessage); [discriminate|].
      rewrite timesRun_cons_same, !timesRun_cons_other by discriminate.
      simpl in Hnotes, Hmsgs. rewrite !length_app in *. simpl in Hnotes, Hmsgs.
      split; [exact Hiter|]. split; [lia|]. split; [lia|].
      split; [contradiction|]. intros _. split; [|auto].
      destruct ran as [|m0 ran]; [discriminate|]. rewrite last_cons_cons. exact Hlast.
    + (* writer *)
      destruct (writer_writes _ _ _ _ Hnode) as (draft & ->).
      rewrite (proj1 (proj2 (proj2 (proj2 (multiAgent_successors _ _ _ _ _))))) in Hsucc.
      injection Hsucc as <-.
      destruct Hrest as (Hlast & Hfinal & Hmessage); [discriminate|].
      rewrite timesRun_cons_same, !timesRun_cons_other by discriminate.
      simpl in Hnotes, Hmsgs. rewrite !length_app in *. simpl in Hnotes, Hmsgs.
      split; [exact Hiter|]. split; [exact Hnotes|]. split; [lia|].
      split; [contradiction|]. intros _. split; [|auto].
      destruct ran as [|m0 ran]; [discriminate|]. rewrite last_cons_cons. exact Hlast.
    + (* finalize *)
      apply finalize_writes in Hnode. subst u.
      rewrite (proj2 (proj2 (proj2 (proj2 (multiAgent_successors _ _ _ _ _))))) in Hsucc.
      injection Hsucc as <-.
      destruct (Hend eq_refl) as [-> ->].
      rewrite timesRun_cons_same, !timesRun_cons_other, !timesRun_nil by discriminate.
      cbn [MultiAgent.reduce MultiAgent.iterations MultiAgent.researchNotes
           MultiAgent.messages MultiAgent.draft MultiAgent.update_messages
           MultiAgent.update_iterations MultiAgent.update_researchNotes
           MultiAgent.update_draft from_option].
      rewrite length_app, last_snoc. simpl.
      split; [intros _ _; lia|].
      repeat split; try lia; try contradiction.
Qed.

End MultiAgentRuns.

(** X15.  The counters of the multi-agent state count the passes: in a run
    that reaches END, the final [iterations] is the one the run started with
    plus the number of times [supervisor] ran, as long as the counts stay in
    the range where the addition of numbers is exact (the start at [-2^53] or
    above, the sum at [2^53] or below); and [researchNotes] has grown by one
    entry for each time [researcher] ran. *)
Theorem multiAgent_counters_count_passes :
  forall (World : Type) (supervisorModel workerModel : Messages.ChatModel World)
    (toLowerCase trim : string -> string) (fuel : nat)
    (state final : MultiAgent.MultiAgentState) (w w' : World) (ran : list string),
    MultiAgent.multiAgent supervisorModel workerModel toLowerCase trim fuel state w
      = (LangGraph.Finished final, ran, w') ->
    ((- 2 ^ 53 <= MultiAgent.iterations state)%Z ->
     (MultiAgent.iterations state + Z.of_nat (LangGraph.timesRun "supervisor" ran)
      <= 2 ^ 53)%Z ->
     MultiAgent.iterations final
     = (MultiAgent.iterations state
        + Z.of_nat (LangGraph.timesRun "supervisor" ran))%Z)
    /\ length (MultiAgent.researchNotes final)
       = length (MultiAgent.researchNotes state)
         + LangGraph.timesRun "researcher" ran.
Proof.
  intros World supervisorModel workerModel toLowerCase trim fuel state final w w' ran.
  unfold MultiAgent.multiAgent, LangGraph.invoke.
  rewrite (proj1 (multiAgent_successors supervisorModel workerModel toLowerCase trim state)).
  intros Hrun.
  destruct (multiAgent_finished_shape _ _ _ _ _ _ _ _ _ _ _ Hrun)
    as (Hiter & Hnotes & _).
  split; assumption.
Qed.

Lemma multiAgent_counters_count_passes_witness :
  exists (final : MultiAgent.MultiAgentState) (ran : list string),
    MultiAgent.multiAgent (Examples.fixedModel "researcher")
      (Examples.fixedModel "notes") JS.ascii_toLowerCase (fun s => s) 22
      Examples.writeBlogPost tt = (LangGraph.Finished final, ran, tt)
    /\ MultiAgent.iterations final
       = (0 + Z.of_nat (LangGraph.timesRun "supervisor" ran))%Z.
Proof.
  eexists _, _. split; [vm_compute; reflexivity|].
  refine (proj1 (multiAgent_counters_count_passes unit
                   (Examples.fixedModel "researcher") (Examples.fixedModel "notes")
                   JS.ascii_toLowerCase (fun s => s) 22 Examples.writeBlogPost
                   _ tt tt _ _) _ _).
  - vm_compute. reflexivity.
  - vm_compute. discriminate.
  - vm_compute. discriminate.
Defined.

Example multiAgent_always_researcher_counters :
  match
    (MultiAgent.multiAgent (Examples.fixedModel "researcher")
       (Examples.fixedModel "notes") JS.ascii_toLowerCase (fun s => s) 22
       Examples.writeBlogPost tt).1.1
  with
  | LangGraph.Finished final =>
    MultiAgent.iterations final = 11%Z
    /\ length (MultiAgent.researchNotes final) = 10
    /\ MultiAgent.task final = "[Researcher] notes"
  | _ => False
  end.
Proof. vm_compute. repeat split. Qed.

(** X16.  A finished multi-agent run ends by reporting the draft: the last
    node that ran is [finalize], which ran once, and the messages have grown
    by one for each worker pass and one for [finalize].  When [writer] ran
    in the run, so that the draft is written, the last message of the final
    state is the AI message [Task completed!], a blank line, [Final output:]
    and the final [draft]. *)
Theorem multiAgent_reports_final_draft :
  forall (World : Type) (supervisorModel workerModel : Messages.ChatModel World)
    (toLowerCase trim : string -> string) (fuel : nat)
    (state final : MultiAgent.MultiAgentState) (w w' : World) (ran : list string),
    MultiAgent.multiAgent supervisorModel workerModel toLowerCase trim fuel state w
      = (LangGraph.Finished final, ran, w') ->
    last ran = Some "finalize"
    /\ LangGraph.timesRun "finalize" ran = 1
    /\ length (MultiAgent.messages final)
       = length (MultiAgent.messages state) + LangGraph.timesRun "researcher" ran
         + LangGraph.timesRun "writer" ran + 1
    /\ (1 <= LangGraph.timesRun "writer" ran ->
        last (MultiAgent.messages final)
        = Some (Messages.AIMessage
                  ("Task completed!" +:+ JS.nl +:+ JS.nl +:+ "Final output:" +:+ JS.nl +:+
                   MultiAgent.draft final)
                  (Some []))).
Proof.
  intros World supervisorModel workerModel toLowerCase trim fuel state final w w' ran.
  unfold MultiAgent.multiAgent, LangGraph.invoke.
  rewrite (proj1 (multiAgent_successors supervisorModel workerModel toLowerCase trim state)).
  intros Hrun.
  destruct (multiAgent_finished_shape _ _ _ _ _ _ _ _ _ _ _ Hrun)
    as (_ & _ & Hmsgs & _ & Hrest).
  destruct Hrest as (Hlast & Hfinal & Hmessage); [discriminate|].
  split; [exact Hlast|]. split; [exact Hfinal|]. split.
  - rewrite Hmsgs, Hfinal. reflexivity.
  - intros _. exact Hmessage.
Qed.

(** The supervisor asks for the writer, then finishes. *)
Lemma multiAgent_reports_final_draft_witness :
  exists (final : MultiAgent.MultiAgentState) (ran : list string),
    MultiAgent.multiAgent MoreExamples.writerThenFinish
      (Examples.fixedModel "TypeScript catches mistakes early.")
      JS.ascii_toLowerCase (fun s => s) 25
      Examples.writeBlogPost tt = (LangGraph.Finished final, ran, tt)
    /\ last (MultiAgent.messages final)
       = Some (Messages.AIMessage
                 ("Task completed!" +:+ JS.nl +:+ JS.nl +:+ "Final output:" +:+ JS.nl +:+
                  MultiAgent.draft final)
                 (Some [])).
Proof.
  eexists _, _. split; [vm_compute; reflexivity|].
  refine (proj2 (proj2 (proj2 (multiAgent_reports_final_draft unit
                   MoreExamples.writerThenFinish
                   (Examples.fixedModel "TypeScript catches mistakes early.")
                   JS.ascii_toLowerCase (fun s => s) 25 Examples.writeBlogPost
                   _ tt tt _ _))) _).
  - vm_compute. reflexivity.
  - vm_compute. lia.
Defined.

(** ** What the prompts quote *)

Lemma string_app_cons (x : ascii) (a b : string) :
  String x a +:+ b = String x (a +:+ b).
Proof. reflexivity. Qed.

Lemma string_app_assoc (a b c : string) : (a +:+ b) +:+ c = a +:+ (b +:+ c).
Proof.
  induction a as [|x a IH]; [reflexivity|].
  rewrite !string_app_cons, IH. reflexivity.
Qed.

Lemma string_app_nil_r (a : string) : a +:+ "" = a.
Proof.
  induction a as [|x a IH]; [reflexivity|].
  rewrite string_app_cons, IH. reflexivity.
Qed.

Lemma occursIn_self (t : string) : JS.occursIn t t.
Proof. exists "", "". rewrite string_app_nil_r. reflexivity. Qed.

Lemma occursIn_after (t s before : string) :
  JS.occursIn t s -> JS.occursIn t (before +:+ s).
Proof.
  intros (pre & post & ->). exists (before +:+ pre), post.
  rewrite string_app_assoc. reflexivity.
Qed.

Lemma occursIn_before (t s after : string) :
  JS.occursIn t s -> JS.occursIn t (s +:+ after).
Proof.
  intros (pre & post & ->). exists pre, (post +:+ after).
  rewrite !string_app_assoc. reflexivity.
Qed.

(** Every element of a list occurs in the list joined. *)
Lemma join_quotes_each (sep : string) (xs : list string) (x : string) :
  In x xs -> JS.occursIn x (JS.join sep xs).
Proof.
  induction xs as [|y [|z rest] IH]; intros Hin.
  - destruct Hin.
  - destruct Hin as [<- | []]. apply occursIn_self.
  - destruct Hin as [<- | Hin].
    + cbn [JS.join]. apply occursIn_before, occursIn_self.
    + change (JS.join sep (y :: z :: rest))
        with (y +:+ sep +:+ JS.join sep (z :: rest)).
      do 2 apply occursIn_after. apply IH. exact Hin.
Qed.

(** X17.  The prompt of [generate] quotes every document and the query: the
    one call [generate] makes to the chat model carries a human message in
    which the [pageContent] of each document of the state occurs, and so
    does the query. *)
Theorem generate_prompt_quotes_documents :
  forall (World : Type) (model : Messages.ChatModel World)
    (state : RagAgent.RAGState) (w : World),
  exists system prompt : string,
    RagAgent.generate model state w
    = (let* response :=
         model [Messages.SystemMessage system; Messages.HumanMessage prompt] in
       Async.ret
         (RagAgent.mkRAGUpdate
            (Some [Messages.newAIMessage (Messages.content response)]) None None
            (Some (Messages.content response)) None)) w
    /\ (forall doc : RagAgent.Document,
          In doc (RagAgent.documents state) ->
          JS.occursIn (RagAgent.pageContent doc) prompt)
    /\ JS.occursIn (RagAgent.query state) prompt.
Proof.
  intros World model state w. eexists _, _. split; [reflexivity|]. split.
  - intros doc Hdoc.
    apply occursIn_after, occursIn_after, occursIn_before.
    apply join_quotes_each. apply in_map. exact Hdoc.
  - do 6 apply occursIn_after. apply occursIn_self.
Qed.

Lemma generate_prompt_quotes_documents_witness :
  exists system prompt : string,
    RagAgent.generate (Examples.fixedModel "An answer.") MoreExamples.twoDocuments tt
    = (let* response :=
         Examples.fixedModel "An answer."
           [Messages.SystemMessage system; Messages.HumanMessage prompt] in
       Async.ret
         (RagAgent.mkRAGUpdate
            (Some [Messages.newAIMessage (Messages.content response)]) None None
            (Some (Messages.content response)) None)) tt
    /\ JS.occursIn "Bread is made of flour." prompt.
Proof.
  destruct (generate_prompt_quotes_documents unit (Examples.fixedModel "An answer.")
              MoreExamples.twoDocuments tt) as (system & prompt & Hcall & Hdocs & _).
  exists system, prompt. split; [exact Hcall|].
  apply (Hdocs (RagAgent.mkDocument "Bread is made of flour." [])).
  simpl. tauto.
Defined.

(** X18.  The prompt of [writer] quotes the task, every research note and
    the draft to improve: the one call [writer] makes to the worker model
    carries a human message in which the task occurs, each entry of
    [researchNotes] occurs, and the current draft occurs. *)
Theorem writer_prompt_quotes_notes :
  forall (World : Type) (workerModel : Messages.ChatModel World)
    (state : MultiAgent.MultiAgentState) (w : World),
  exists system prompt : string,
    MultiAgent.writer workerModel state w
    = (let* response :=
         workerModel [Messages.SystemMessage system; Messages.HumanMessage prompt] in
       Async.ret
         (MultiAgent.mkMultiAgentUpdate
            (Some [Messages.newAIMessage ("[Writer] " +:+ Messages.content response)])
            None None None (Some (Messages.content response)) None)) w
    /\ JS.occursIn (MultiAgent.task state) prompt
    /\ (forall note : string,
          In note (MultiAgent.researchNotes state) -> JS.occursIn note prompt)
    /\ JS.occursIn (MultiAgent.draft state) prompt.
Proof.
  intros World workerModel state w. eexists _, _. split; [reflexivity|].
  split; [apply occursIn_after, occursIn_before, occursIn_self|].
  split.
  - intros note Hnote.
    do 6 apply occursIn_after. apply occursIn_before.
    apply join_quotes_each. exact Hnote.
  - do 7 apply occursIn_after. apply occursIn_before.
    destruct (MultiAgent.draft state) as [|c rest] eqn:Hdraft.
    + apply occursIn_self.
    + do 4 apply occursIn_after. apply occursIn_self.
Qed.

Lemma writer_prompt_quotes_notes_witness :
  exists system prompt : string,
    MultiAgent.writer (Examples.fixedModel "A draft.")
      (MultiAgent.mkMultiAgentState [] "Write a post" "writer"
         ["TypeScript has types."; "Types catch errors."] "" 2) tt
    = (let* response :=
         Examples.fixedModel "A draft."
           [Messages.SystemMessage system; Messages.HumanMessage prompt] in
       Async.ret
         (MultiAgent.mkMultiAgentUpdate
            (Some [Messages.newAIMessage ("[Writer] " +:+ Messages.content response)])
            None None None (Some (Messages.content response)) None)) tt
    /\ JS.occursIn "Types catch errors." prompt.
Proof.
  destruct (writer_prompt_quotes_notes unit (Examples.fixedModel "A draft.")
              (MultiAgent.mkMultiAgentState [] "Write a post" "writer"
                 ["TypeScript has types."; "Types catch errors."] "" 2) tt)
    as (system & prompt & Hcall & _ & Hnotes & _).
  exists system, prompt. split; [exact Hcall|].
  apply Hnotes. simpl. tauto.
Defined.

(** ** Supervisor and workers take turns *)

Section MultiAgentTurns.
Context {World : Type}.
Variables supervisorModel workerModel : Messages.ChatModel World.
Variables toLowerCase trim : string -> string.

Lemma multiAgent_turns :
  forall (fuel : nat) (n : string) (st : MultiAgent.MultiAgentState) (w : World)
    (st' : MultiAgent.MultiAgentState) (ran : list string) (w' : World),
    LangGraph.run fuel
      (MultiAgent.workflow supervisorModel workerModel toLowerCase trim)
      MultiAgent.reduce n st w = (LangGraph.Finished st', ran, w') ->
    (n = "supervisor" ->
     LangGraph.timesRun "supervisor" ran
     = LangGraph.timesRun "researcher" ran + LangGraph.timesRun "writer" ran + 1)
    /\ (n = "researcher" \/ n = "writer" ->
        LangGraph.timesRun "supervisor" ran
        = LangGraph.timesRun "researcher" ran + LangGraph.timesRun "writer" ran)
    /\ (n = "finalize" \/ n = LangGraph.END ->
        LangGraph.timesRun "supervisor" ran = 0
        /\ LangGraph.timesRun "researcher" ran = 0
        /\ LangGraph.timesRun "writer" ran = 0).
Proof.
  apply (run_finished_ind
    (MultiAgent.workflow supervisorModel workerModel toLowerCase trim)
    MultiAgent.reduce
    (fun n st st' ran =>
       (n = "supervisor" ->
        LangGraph.timesRun "supervisor" ran
        = LangGraph.timesRun "researcher" ran + LangGraph.timesRun "writer" ran + 1)
       /\ (n = "researcher" \/ n = "writer" ->
           LangGraph.timesRun "supervisor" ran
           = LangGraph.timesRun "researcher" ran + LangGraph.timesRun "writer" ran)
       /\ (n = "finalize" \/ n = LangGraph.END ->
           LangGraph.timesRun "supervisor" ran = 0
           /\ LangGraph.timesRun "researcher" ran = 0
           /\ LangGraph.timesRun "writer" ran = 0))).
  - intros st. rewrite !timesRun_nil.
    split; [discriminate|]. split; [intros [H | H]; discriminate | auto].
  - intros n fn st w u w' m st' ran Hn Hfn Hnode Hsucc (Hsup & Hworker & Hfinal).
    apply (multiAgent_nodes supervisorModel workerModel toLowerCase trim) in Hfn
      as [[-> ->] | [[-> ->] | [[-> ->] | [-> ->]]]].
    + rewrite (proj1 (proj2 (multiAgent_successors _ _ _ _ _))) in Hsucc.
      injection Hsucc as Hm.
      rewrite timesRun_cons_same, !timesRun_cons_other by discriminate.
      split; [intros _ | split; [intros [H | H] | intros [H | H]]; discriminate].
      destruct (routeFromSupervisor_cases toLowerCase (MultiAgent.reduce st u))
        as [H | [H | H]]; rewrite H in Hm; subst m.
      * rewrite Hworker by auto. lia.
      * rewrite Hworker by auto. lia.
      * destruct Hfinal as (-> & -> & ->); [auto | reflexivity].
    + rewrite (proj1 (proj2 (proj2 (multiAgent_successors _ _ _ _ _)))) in Hsucc.
      injection Hsucc as <-.
      rewrite timesRun_cons_same, !timesRun_cons_other by discriminate.
      split; [discriminate|]. split; [intros _ | intros [H | H]; discriminate].
      rewrite Hsup by reflexivity. lia.
    + rewrite (proj1 (proj2 (proj2 (proj2 (multiAgent_successors _ _ _ _ _))))) in Hsucc.
      injection Hsucc as <-.
      rewrite timesRun_cons_same, !timesRun_cons_other by discriminate.
      split; [discriminate|]. split; [intros _ | intros [H | H]; discriminate].
      rewrite Hsup by reflexivity. lia.
    + rewrite (proj2 (proj2 (proj2 (proj2 (multiAgent_successors _ _ _ _ _))))) in Hsucc.
      injection Hsucc as <-.
      rewrite !timesRun_cons_other by discriminate.
      split; [discriminate|]. split; [intros [H | H]; discriminate | intros _].
      apply Hfinal. auto.
Qed.

(** The order of the turns in a finished run, from any node. *)
Lemma multiAgent_turn_order :
  forall (fuel : nat) (n : string) (st : MultiAgent.MultiAgentState) (w : World)
    (st' : MultiAgent.MultiAgentState) (ran : list string) (w' : World),
    LangGraph.run fuel
      (MultiAgent.workflow supervisorModel workerModel toLowerCase trim)
      MultiAgent.reduce n st w = (LangGraph.Finished st', ran, w') ->
    (n = "supervisor" -> Turns.Supervised ran)
    /\ (n = "researcher" \/ n = "writer" ->
        exists rest : list string, ran = n :: rest /\ Turns.Supervised rest)
    /\ (n = "finalize" -> ran = ["finalize"])
    /\ (n = LangGraph.END -> ran = []).
Proof.
  apply (run_finished_ind
    (MultiAgent.workflow supervisorModel workerModel toLowerCase trim)
    MultiAgent.reduce
    (fun n st st' ran =>
       (n = "supervisor" -> Turns.Supervised ran)
       /\ (n = "researcher" \/ n = "writer" ->
           exists rest : list string, ran = n :: rest /\ Turns.Supervised rest)
       /\ (n = "finalize" -> ran = ["finalize"])
       /\ (n = LangGraph.END -> ran = []))).
  - intros st. split; [discriminate|]. split; [intros [H | H]; discriminate|].
    split; [discriminate | reflexivity].
  - intros n fn st w u w' m st' ran Hn Hfn Hnode Hsucc (Hsup & Hworker & Hfinal & Hend).
    apply (multiAgent_nodes supervisorModel workerModel toLowerCase trim) in Hfn
      as [[-> ->] | [[-> ->] | [[-> ->] | [-> ->]]]].
    + rewrite (proj1 (proj2 (multiAgent_successors _ _ _ _ _))) in Hsucc.
      injection Hsucc as Hm.
      split; [intros _ | split; [intros [H | H] | split; intros H]; discriminate].
      destruct (routeFromSupervisor_cases toLowerCase (MultiAgent.reduce st u))
        as [H | [H | H]]; rewrite H in Hm; subst m.
      * destruct Hworker as (rest & -> & Hrest); [auto|].
        apply Turns.Supervised_worker; [auto | exact Hrest].
      * destruct Hworker as (rest & -> & Hrest); [auto|].
        apply Turns.Supervised_worker; [auto | exact Hrest].
      * rewrite (Hfinal eq_refl). apply Turns.Supervised_finalize.
    + rewrite (proj1 (proj2 (proj2 (multiAgent_successors _ _ _ _ _)))) in Hsucc.
      injection Hsucc as <-.
      split; [discriminate|].
      split; [intros _ | split; intros H; discriminate].
      exists ran. split; [reflexivity | exact (Hsup eq_refl)].
    + rewrite (proj1 (proj2 (proj2 (proj2 (multiAgent_successors _ _ _ _ _))))) in Hsucc.
      injection Hsucc as <-.
      split; [discriminate|].
      split; [intros _ | split; intros H; discriminate].
      exists ran. split; [reflexivity | exact (Hsup eq_refl)].
    + rewrite (proj2 (proj2 (proj2 (proj2 (multiAgent_successors _ _ _ _ _))))) in Hsucc.
      injection Hsucc as <-.
      split; [discriminate|]. split; [intros [H | H]; discriminate|].
      split; [intros _ | discriminate].
      rewrite (Hend eq_refl). reflexivity.
Qed.

End MultiAgentTurns.

(** X19.  Supervisor and workers take turns: in a multi-agent run that
    reaches END, the nodes that ran are turns of [supervisor], each followed
    by one turn of a worker ([researcher] or [writer]), after which
    [supervisor] runs again, until a turn of [supervisor] is followed by
    [finalize], which ends the run.  So every worker's turn stands between
    two turns of the supervisor, and [supervisor] ran once more than
    [researcher] and [writer] together. *)
Theorem multiAgent_supervisor_after_every_worker :
  forall (World : Type) (supervisorModel workerModel : Messages.ChatModel World)
    (toLowerCase trim : string -> string) (fuel : nat)
    (state final : MultiAgent.MultiAgentState) (w w' : World) (ran : list string),
    MultiAgent.multiAgent supervisorModel workerModel toLowerCase trim fuel state w
      = (LangGraph.Finished final, ran, w') ->
    Turns.Supervised ran
    /\ LangGraph.timesRun "supervisor" ran
       = LangGraph.timesRun "researcher" ran + LangGraph.timesRun "writer" ran + 1.
Proof.
  intros World supervisorModel workerModel toLowerCase trim fuel state final w w' ran.
  unfold MultiAgent.multiAgent, LangGraph.invoke.
  rewrite (proj1 (multiAgent_successors supervisorModel workerModel toLowerCase trim state)).
  intros Hrun. split.
  - exact (proj1 (multiAgent_turn_order _ _ _ _ _ _ _ _ _ _ _ Hrun) eq_refl).
  - exact (proj1 (multiAgent_turns _ _ _ _ _ _ _ _ _ _ _ Hrun) eq_refl).
Qed.

(** The supervisor asks for the writer once, then finishes. *)
Lemma multiAgent_supervisor_after_every_worker_witness :
  Turns.Supervised ["supervisor"; "writer"; "supervisor"; "finalize"]
  /\ exists final : MultiAgent.MultiAgentState,
       MultiAgent.multiAgent MoreExamples.writerThenFinish
         (Examples.fixedModel "TypeScript catches mistakes early.")
         JS.ascii_toLowerCase (fun s => s) 25
         Examples.writeBlogPost tt
       = (LangGraph.Finished final,
          ["supervisor"; "writer"; "supervisor"; "finalize"], tt).
Proof.
  split; [|eexists; vm_compute; reflexivity].
  refine (proj1 (multiAgent_supervisor_after_every_worker unit
            MoreExamples.writerThenFinish
            (Examples.fixedModel "TypeScript catches mistakes early.")
            JS.ascii_toLowerCase (fun s => s) 25 Examples.writeBlogPost
            _ tt tt _ _)).
  vm_compute. reflexivity.
Defined.
